(** * running_stats: a verified model of [location_data/running_stats.py]

    The module keeps, per category name, the list of values a script
    recorded under it, and renders a text report.  The classes are
    [StatsCount] (the [dict] subclass with [_init_category] and [report]),
    [Stats] ([add] and [report_value]) and [StatsWithSum] (the same two
    methods for [(id, number)] pairs).

    The embedding is shallow.  Python objects the program handles are the
    values of [Py.pyval]; text is a sequence of code points; an integer is
    a [Z] and a float a binary64; the store is a
    dictionary from category names to references into a heap of list
    objects, so that aliasing between accumulators can be stated; methods
    are computations in a state-and-exception monad. *)

From Stdlib Require Import PrimFloat.
From Stdlib Require SpecFloat FloatOps.
From Stdlib Require Import ZArith NArith List String Ascii Bool Lia.
From Stdlib Require Import Sorting.Sorted Sorting.Permutation.
Import ListNotations.

Local Open Scope Z_scope.

(** ** The Python values and built-ins the program uses *)

Module Py.

(** Text: a sequence of Unicode code points, which is what a text string
    is to [%], [len], slicing, comparison and [encode].  Byte strings that
    hold bytes from 128 on are not among the values modelled. *)
Definition text := list N.

(** A literal, written as a Rocq string of ASCII characters. *)
Definition u (s : string) : text :=
  List.map N_of_ascii (list_ascii_of_string s).

Fixpoint text_eqb (a b : text) : bool :=
  match a, b with
  | [], [] => true
  | x :: a', y :: b' => N.eqb x y && text_eqb a' b'
  | _, _ => false
  end.

(** [a < b] on text: lexicographic on code points, a proper prefix first. *)
Fixpoint text_ltb (a b : text) : bool :=
  match a, b with
  | _, [] => false
  | [], _ :: _ => true
  | x :: a', y :: b' =>
      if N.ltb x y then true
      else if N.eqb x y then text_ltb a' b' else false
  end.

(** [len(x)] is an int. *)
Definition len {A : Type} (l : list A) : Z := Z.of_nat (List.length l).

(** [sep.join(lines)] *)
Fixpoint join (sep : text) (lines : list text) : text :=
  match lines with
  | [] => []
  | [x] => x
  | x :: rest => x ++ sep ++ join sep rest
  end.

(** [s * n] on a string: the empty string for [n <= 0]. *)
Definition str_mul (s : text) (n : Z) : text :=
  List.concat (List.repeat s (Z.to_nat n)).

(** The objects a caller passes to [add]. *)
#[warnings="-register-all"]
Inductive pyval : Type :=
| PNone
| PInt (z : Z)
| PFloat (f : float)
| PText (t : text)
| PTuple (items : list pyval).

Inductive exn : Type := KeyError | TypeError | ValueError | OverflowError.

Inductive result (A : Type) : Type :=
| Ok (a : A)
| Raise (e : exn).
Arguments Ok {A} a.
Arguments Raise {A} e.

(** *** Decimal rendering of integers: [str(n)], ['%i' % n], ['%s' % n] *)

Definition digit (d : N) : N := (48 + d)%N.

(** The digits of [n], most significant first, in front of [acc]; the fuel
    bounds the number of digits. *)
Fixpoint digits_aux (fuel : nat) (n : N) (acc : text) : text :=
  match fuel with
  | O => acc
  | S fuel' =>
      let acc' := digit (n mod 10) :: acc in
      if (n <? 10)%N then acc' else digits_aux fuel' (n / 10) acc'
  end.

(** A number has no more decimal digits than binary ones. *)
Definition str_N (n : N) : text := digits_aux (S (N.size_nat n)) n [].

Definition str_int (z : Z) : text :=
  if z <? 0 then u "-" ++ str_N (Z.abs_N z) else str_N (Z.abs_N z).

(** Reading a decimal numeral back. *)
Definition digit_val (c : N) : N := (c - 48)%N.
Definition N_of_digits (t : text) : N :=
  List.fold_left (fun acc c => (10 * acc + digit_val c)%N) t 0%N.

(** *** [text.encode('ascii', 'ignore')] *)

(** The codec walks the text; a code point below 128 is emitted as its
    byte, for any other the ['ignore'] handler supplies no replacement. *)
Fixpoint encode_ascii_ignore (t : text) : string :=
  match t with
  | [] => EmptyString
  | c :: t' =>
      if (c <? 128)%N then String (ascii_of_N c) (encode_ascii_ignore t')
      else encode_ascii_ignore t'
  end.

(** The bytes of a byte string, as numbers. *)
Definition bytes_of (s : string) : list N :=
  List.map N_of_ascii (list_ascii_of_string s).

(** *** [sorted] *)

(** [sorted] is stable and compares with [<] only.  A stable sort has one
    possible result, so insertion stands for the interpreter's merge sort:
    [x], which came before every element of [l], goes in front of the first
    element that is not smaller than it. *)
Section Sorted.
Context {A : Type} (lt : A -> A -> bool).

Fixpoint insert (x : A) (l : list A) : list A :=
  match l with
  | [] => [x]
  | y :: l' => if lt y x then y :: insert x l' else x :: l
  end.

Definition sorted (l : list A) : list A := List.fold_right insert [] l.

(** [a] is not greater than [b]. *)
Definition not_gt (a b : A) : Prop := lt b a = false.
End Sorted.

(** [sorted(l, key=f)] *)
Definition sorted_key {A : Type} (key : A -> Z) (l : list A) : list A :=
  sorted (fun a b => key a <? key b) l.

(** *** [dict] with text keys

    Entries are kept in insertion order, which is the order of iteration;
    assigning to a key that is present replaces its value in place. *)
Section Dict.
Context {V : Type}.

Definition dict := list (text * V).

Fixpoint dict_get (k : text) (d : dict) : option V :=
  match d with
  | [] => None
  | (k', v) :: d' => if text_eqb k k' then Some v else dict_get k d'
  end.

Definition dict_contains (k : text) (d : dict) : bool :=
  match dict_get k d with Some _ => true | None => false end.

Fixpoint dict_set (k : text) (v : V) (d : dict) : dict :=
  match d with
  | [] => [(k, v)]
  | (k', v') :: d' =>
      if text_eqb k k' then (k', v) :: d' else (k', v') :: dict_set k v d'
  end.

Definition dict_keys (d : dict) : list text := List.map fst d.
Definition dict_items (d : dict) : list (text * V) := d.
Definition dict_is_empty (d : dict) : bool :=
  match d with [] => true | _ => false end.
End Dict.
Arguments dict V : clear implicits.

(** *** Arithmetic and unpacking *)

(** [float(z)] for an integer: the nearest double, a tie going to the even
    one; there is none for an integer that rounds beyond the largest
    double. *)
Definition float_of_int (z : Z) : option float :=
  match SpecFloat.binary_normalize FloatOps.prec FloatOps.emax z 0 false with
  | SpecFloat.S754_infinity _ => None
  | x => Some (FloatOps.SF2Prim x)
  end.

(** [a + b].  Integers add exactly and floats in double precision; an
    integer that meets a float is converted first, which is an
    [OverflowError] when it has no double.  Text and tuples concatenate,
    anything else is a [TypeError]. *)
Definition py_add (a b : pyval) : result pyval :=
  match a, b with
  | PInt x, PInt y => Ok (PInt (x + y))
  | PFloat x, PFloat y => Ok (PFloat (x + y)%float)
  | PInt x, PFloat y =>
      match float_of_int x with
      | Some x' => Ok (PFloat (x' + y)%float)
      | None => Raise OverflowError
      end
  | PFloat x, PInt y =>
      match float_of_int y with
      | Some y' => Ok (PFloat (x + y')%float)
      | None => Raise OverflowError
      end
  | PText x, PText y => Ok (PText (x ++ y))
  | PTuple x, PTuple y => Ok (PTuple (x ++ y))
  | _, _ => Raise TypeError
  end.

(** [id_, num = v] *)
Definition unpack2 (v : pyval) : result (pyval * pyval) :=
  match v with
  | PTuple [a; b] => Ok (a, b)
  | PTuple _ => Raise ValueError
  | PText [a; b] => Ok (PText [a], PText [b])
  | PText _ => Raise ValueError
  | PNone | PInt _ | PFloat _ => Raise TypeError
  end.

(** *** [repr] of a float

    The digits are the fewest that read back as the same double, and among
    those the nearest to it.  The double [m * 2^e] is the one read from
    every number between the midpoints to its two neighbours, the midpoints
    included when [m] is even; below a power of two the neighbour is half as
    far. *)

(** [floor (log10 (num / den))] for positive [num] and [den]: an estimate
    from the binary logarithms, corrected. *)
Definition at_least_pow10 (num den k : Z) : bool :=
  if 0 <=? k then den * 10 ^ k <=? num else den <=? num * 10 ^ (- k).

Fixpoint ilog10_down (fuel : nat) (num den k : Z) : Z :=
  match fuel with
  | O => k
  | S fuel' =>
      if at_least_pow10 num den k then k else ilog10_down fuel' num den (k - 1)
  end.

Fixpoint ilog10_up (fuel : nat) (num den k : Z) : Z :=
  match fuel with
  | O => k
  | S fuel' =>
      if at_least_pow10 num den (k + 1) then ilog10_up fuel' num den (k + 1)
      else k
  end.

Definition ilog10 (num den : Z) : Z :=
  let k0 := ((Z.log2 num - Z.log2 den) * 1233) / 4096 in
  ilog10_up 4 num den (ilog10_down 4 num den k0).

(** The search for the digits of [x = num / den], known to lie in
    [10^k, 10^(k+1)), between [lo / den] and [hi / den]: with [n] digits the
    candidates are the two multiples of [10^q], [q = k - n + 1], around [x];
    [n] grows until one of them lies between the bounds.  The result is the
    digits as a number and [q]. *)
Fixpoint shortest_aux (fuel : nat) (n : Z) (num den lo hi : Z) (closed : bool)
    (k : Z) : Z * Z :=
  let q := k - n + 1 in
  (* [10^q] as the fraction [sn / sd] *)
  let '(sn, sd) := if 0 <=? q then (10 ^ q, 1) else (1, 10 ^ (- q)) in
  let dlow := (num * sd) / (den * sn) in
  let dhigh := dlow + 1 in
  let inside d :=
    let v := d * sn * den in
    if closed then (lo * sd <=? v) && (v <=? hi * sd)
    else (lo * sd <? v) && (v <? hi * sd) in
  let twice_rem := 2 * (num * sd - dlow * sn * den) in
  let nearest :=
    if sn * den <? twice_rem then dhigh
    else if twice_rem <? sn * den then dlow
    else if Z.odd dlow then dhigh else dlow in
  match fuel with
  | O => (nearest, q)
  | S fuel' =>
      match inside dlow, inside dhigh with
      | true, true => (nearest, q)
      | true, false => (dlow, q)
      | false, true => (dhigh, q)
      | false, false => shortest_aux fuel' (n + 1) num den lo hi closed k
      end
  end.

Fixpoint strip_zeros (fuel : nat) (d : Z) : Z :=
  match fuel with
  | O => d
  | S fuel' =>
      if (d mod 10 =? 0) && (0 <? d) then strip_zeros fuel' (d / 10) else d
  end.

(** The digits of the positive double [m * 2^e] and the place of the decimal
    point: the value reads [0.d1d2... * 10^decpt]. *)
Definition shortest_digits (m e : Z) : text * Z :=
  let narrow := (m =? 2 ^ 52) && (-1074 <? e) in
  (* in quarters of the unit in the last place *)
  let '(num, den, quarter) :=
    if 2 <=? e then (m * 2 ^ e, 1, 2 ^ (e - 2)) else (4 * m, 2 ^ (2 - e), 1) in
  let lo := num - (if narrow then 1 else 2) * quarter in
  let hi := num + 2 * quarter in
  let k := ilog10 num den in
  let '(d, q) := shortest_aux 17 1 num den lo hi (Z.even m) k in
  (str_int (strip_zeros 17 d), q + len (str_int d)).

(** The format of [repr]: positional for [-4 < decpt <= 16], with [.0]
    after a whole number, and with an exponent of two digits at least
    otherwise. *)
Definition format_float (ds : text) (decpt : Z) : text :=
  let n := len ds in
  if (-4 <? decpt) && (decpt <=? 16) then
    if decpt <=? 0
    then u "0." ++ List.repeat 48%N (Z.to_nat (- decpt)) ++ ds
    else if decpt <? n
    then List.firstn (Z.to_nat decpt) ds ++ u "."
           ++ List.skipn (Z.to_nat decpt) ds
    else ds ++ List.repeat 48%N (Z.to_nat (decpt - n)) ++ u ".0"
  else
    let mantissa :=
      match ds with
      | d :: (_ :: _) as rest => d :: u "." ++ rest
      | _ => ds
      end in
    let exponent := decpt - 1 in
    mantissa ++ u "e" ++ (if exponent <? 0 then u "-" else u "+")
      ++ (if Z.abs exponent <? 10 then u "0" else [])
      ++ str_int (Z.abs exponent).

Definition repr_float (f : float) : text :=
  match FloatOps.Prim2SF f with
  | SpecFloat.S754_nan => u "nan"
  | SpecFloat.S754_infinity s => if s then u "-inf" else u "inf"
  | SpecFloat.S754_zero s => if s then u "-0.0" else u "0.0"
  | SpecFloat.S754_finite s m e =>
      let '(ds, decpt) := shortest_digits (Zpos m) e in
      (if s then u "-" else []) ++ format_float ds decpt
  end.

(** *** [repr]

    The interpreter's [repr] is a parameter of the development below; this
    is the instance used to run the model.  For text it picks the quote as
    the interpreter does and escapes the backslash, the quote and the
    control characters; code points from 128 on are shown as they are.  A
    float shows its shortest digits. *)
Definition hex_digit (d : N) : N := if (d <? 10)%N then (48 + d)%N else (87 + d)%N.

Definition repr_char (quote c : N) : text :=
  if (c =? 92)%N then u "\\"
  else if (c =? quote)%N then [92%N; c]
  else if (c =? 10)%N then u "\n"
  else if (c =? 13)%N then u "\r"
  else if (c =? 9)%N then u "\t"
  else if ((c <? 32) || (c =? 127))%N
       then u "\x" ++ [hex_digit (c / 16); hex_digit (c mod 16)]
  else [c].

Definition repr_text (t : text) : text :=
  let has c := List.existsb (N.eqb c) t in
  let quote := if has 39%N && negb (has 34%N) then 34%N else 39%N in
  quote :: List.concat (List.map (repr_char quote) t) ++ [quote].

Fixpoint repr (v : pyval) : text :=
  match v with
  | PNone => u "None"
  | PInt z => str_int z
  | PFloat f => repr_float f
  | PText t => repr_text t
  | PTuple items =>
      match List.map repr items with
      | [r] => u "(" ++ r ++ u ",)"
      | rs => u "(" ++ join (u ", ") rs ++ u ")"
      end
  end.

End Py.
Import Py.

(** ** [datetime]: the rendering of a [timedelta] *)

Module Datetime.

(** ['%0<w>d' % n] for [n >= 0]. *)
Definition zero_pad (w : nat) (n : Z) : text :=
  let s := str_int n in
  List.repeat 48%N (w - List.length s) ++ s.

(** [str(timedelta(microseconds=us))]: days, seconds and microseconds are
    normalised with the seconds in [0, 86400) and the microseconds in
    [0, 10^6). *)
Definition str_timedelta (us : Z) : text :=
  let days := us / 86400000000 in
  let seconds := (us mod 86400000000) / 1000000 in
  let microseconds := us mod 1000000 in
  let mm := seconds / 60 in
  let ss := seconds mod 60 in
  let hh := mm / 60 in
  let mm := mm mod 60 in
  let s := str_int hh ++ u ":" ++ zero_pad 2 mm ++ u ":" ++ zero_pad 2 ss in
  let s :=
    if days =? 0 then s
    else str_int days ++ u " day"
           ++ (if Z.abs days =? 1 then [] else u "s") ++ u ", " ++ s in
  if microseconds =? 0 then s else s ++ u "." ++ zero_pad 6 microseconds.

End Datetime.

(** ** The store and its heap *)

(** A reference to a list object. *)
Definition loc := nat.

(** What a method can read and change: the list objects, the store [self]
    (a [dict] from category to a reference to its list) and the time the
    store was constructed, in microseconds. *)
Record state : Type := mkState {
  heap : loc -> list pyval;
  next_loc : loc;
  self : dict loc;
  _start_time : Z
}.

(** A method: from a state to a value or an exception, and the state it
    leaves behind in either case. *)
Definition M (A : Type) : Type := state -> result A * state.

Definition ret {A} (a : A) : M A := fun s => (Ok a, s).
Definition raise {A} (e : exn) : M A := fun s => (Raise e, s).
Definition bind {A B} (m : M A) (k : A -> M B) : M B :=
  fun s => match m s with
           | (Ok a, s') => k a s'
           | (Raise e, s') => (Raise e, s')
           end.
Definition lift {A} (r : result A) : M A := fun s => (r, s).

Notation "x <- m ;; k" := (bind m (fun x => k))
  (at level 61, m at next level, right associativity).
Notation "m ;;; k" := (bind m (fun _ => k))
  (at level 61, right associativity).

(** [for x in xs: acc = body(acc, x)] *)
Fixpoint for_each {A B} (xs : list A) (body : B -> A -> M B) (acc : B) : M B :=
  match xs with
  | [] => ret acc
  | x :: xs' => acc' <- body acc x ;; for_each xs' body acc'
  end.

(** The same on values that may be exceptions. *)
Definition rbind {A B} (r : result A) (k : A -> result B) : result B :=
  match r with Ok a => k a | Raise e => Raise e end.

(** *** Operations on [self] and on list objects *)

(** [category in self] *)
Definition contains (category : text) : M bool :=
  fun s => (Ok (dict_contains category (self s)), s).

(** [self[category]] *)
Definition getitem (category : text) : M loc :=
  fun s => match dict_get category (self s) with
           | Some l => (Ok l, s)
           | None => (Raise KeyError, s)
           end.

(** [self[category] = l] *)
Definition setitem (category : text) (l : loc) : M unit :=
  fun s => (Ok tt, mkState (heap s) (next_loc s)
                           (dict_set category l (self s)) (_start_time s)).

(** [self.keys()] *)
Definition keys : M (list text) := fun s => (Ok (dict_keys (self s)), s).

(** [self._start_time] *)
Definition start_time : M Z := fun s => (Ok (_start_time s), s).

(** [not self] *)
Definition not_self : M bool := fun s => (Ok (dict_is_empty (self s)), s).

(** The items of the list object at [l]. *)
Definition load (l : loc) : M (list pyval) := fun s => (Ok (heap s l), s).

Definition heap_set (h : loc -> list pyval) (l : loc) (v : list pyval)
  : loc -> list pyval :=
  fun l' => if Nat.eqb l' l then v else h l'.

(** [l.append(value)] *)
Definition append (l : loc) (value : pyval) : M unit :=
  fun s => (Ok tt, mkState (heap_set (heap s) l (heap s l ++ [value]))
                           (next_loc s) (self s) (_start_time s)).

(** [copy.deepcopy(l)] of a list: a new list object with the same items
    (the items of [pyval] are immutable). *)
Definition deepcopy (l : loc) : M loc :=
  fun s => (Ok (next_loc s),
            mkState (heap_set (heap s) (next_loc s) (heap s l))
                    (S (next_loc s)) (self s) (_start_time s)).

(** The list object [[]] that the class attribute [_init_value] of [Stats]
    and of [StatsWithSum] names. *)
Definition _init_value : loc := O.
Definition report_value_limit : Z := 150.

(** ** [StatsCount] *)

(** [__init__] with no arguments, as every use of the classes has it, at
    time [now]: an empty [dict]; the one list object there is so far is the
    [_init_value] of the class. *)
Definition StatsCount_init (now : Z) : state :=
  mkState (fun _ => []) 1%nat [] now.

Definition _init_category (category : text) : M unit :=
  present <- contains category ;;
  if present then ret tt
  else l <- deepcopy _init_value ;; setitem category l.

(** What [report_value] returns: the text and the number to sort by. *)
Definition value_tuple : Type := text * Z.

(** [a < b] on the items of [report_dict]: tuples compare by their first
    differing component. *)
Definition value_tuple_ltb (a b : value_tuple) : bool :=
  if text_eqb (fst a) (fst b) then snd a <? snd b
  else text_ltb (fst a) (fst b).

Definition item_ltb (a b : text * value_tuple) : bool :=
  if text_eqb (fst a) (fst b) then value_tuple_ltb (snd a) (snd b)
  else text_ltb (fst a) (fst b).

Definition tab : text := [9%N].
Definition newline : text := [10%N].

Section Report.
(** The method [report_value] of the class of [self]. *)
Variable report_value : text -> M value_tuple.

(** Lines 40 to 48: [report_dict], then [items]. *)
Definition report_items (order_by_title : bool)
  : M (list (text * value_tuple)) :=
  ks <- keys ;;
  report_dict <- for_each ks
      (fun report_dict category =>
         v <- report_value category ;;
         ret (dict_set category v report_dict)) [] ;;
  ret (if order_by_title
       then sorted item_ltb (dict_items report_dict)
       else sorted_key (fun x => - snd (snd x)) (dict_items report_dict)).

Definition category_line (indent_str : text) (item : text * value_tuple)
  : text :=
  let (category, value_tuple) := item in
  let value := fst value_tuple in
  indent_str ++ category ++ u ": " ++ value.

Definition time_line (indent_str : text) (time_taken : Z) : text :=
  indent_str ++ u "Time taken (h:m:s): " ++ Datetime.str_timedelta time_taken.

(** Lines 38 to 58: [lines]; [now] is what the clock reads at line 57. *)
Definition report_lines (indent : Z) (order_by_title show_time_taken : bool)
    (now : Z) : M (list text) :=
  let indent_str := str_mul tab indent in
  items <- report_items order_by_title ;;
  let lines := List.map (category_line indent_str) items in
  empty <- not_self ;;
  let lines := if empty then [indent_str ++ u "None"] else lines in
  if show_time_taken
  then start <- start_time ;;
       ret (lines ++ [time_line indent_str (now - start)])
  else ret lines.

Definition report (indent : Z) (order_by_title show_time_taken : bool)
    (now : Z) : M text :=
  lines <- report_lines indent order_by_title show_time_taken now ;;
  ret (join newline lines).
End Report.

(** ** [Stats] and [StatsWithSum] *)

Section Variants.
(** The interpreter's [repr]. *)
Variable py_repr : pyval -> text.

(** [str(v)], which is what ['%s' % v] inserts; a tuple has no [str] of
    its own and shows its [repr], and so does a float in Python 3 (Python 2
    rounds the [str] of a float to 12 digits). *)
Definition py_str (v : pyval) : text :=
  match v with
  | PNone => u "None"
  | PInt z => str_int z
  | PText t => t
  | PFloat _ | PTuple _ => py_repr v
  end.

(** ['%r' % values] for a list. *)
Definition repr_list (values : list pyval) : text :=
  u "[" ++ join (u ", ") (List.map py_repr values) ++ u "]".

(** Lines 83 and 84, and 103 and 104. *)
Definition limit (value_str : text) : text :=
  if len value_str >? report_value_limit
  then List.firstn (Z.to_nat report_value_limit) value_str ++ u "..."
  else value_str.

Definition Stats_add (category : text) (value : pyval) : M string :=
  _init_category category ;;;
  l <- getitem category ;;
  append l value ;;;
  ret (encode_ascii_ignore (category ++ u ": " ++ py_str value)).

Definition Stats_report_value (category : text) : M value_tuple :=
  l <- getitem category ;;
  value <- load l ;;
  let number_of_values := len value in
  let value_str := str_int number_of_values ++ u " " ++ repr_list value in
  ret (limit value_str, number_of_values).

Definition StatsWithSum_add (category : text) (id_ float_to_sum : pyval)
  : M string :=
  _init_category category ;;;
  l <- getitem category ;;
  append l (PTuple [id_; float_to_sum]) ;;;
  ret (encode_ascii_ignore
         (category ++ u ": " ++ py_str id_ ++ u " " ++ py_str float_to_sum)).

(** [sum(num for id_, num in values)], from the accumulator [acc]: each
    item is unpacked and added before the next one is looked at.  The
    numbers are added one by one with [+]: simple addition, which is what
    [sum] does in Python 2, for which the module was written, and in
    Python 3 up to 3.11 (later versions carry a correction term along a run
    of floats). *)
Fixpoint sum_nums (acc : pyval) (values : list pyval) : result pyval :=
  match values with
  | [] => Ok acc
  | v :: values' =>
      rbind (unpack2 v) (fun '(id_, num) =>
      rbind (py_add acc num) (fun acc' => sum_nums acc' values'))
  end.

Definition StatsWithSum_report_value (category : text) : M value_tuple :=
  l <- getitem category ;;
  values <- load l ;;
  let number_of_values := len values in
  sum_of_nums <- lift (sum_nums (PInt 0) values) ;;
  let value_str := str_int number_of_values ++ u " total="
                     ++ py_str sum_of_nums ++ u " " ++ repr_list values in
  ret (limit value_str, number_of_values).

Definition Stats_report := report Stats_report_value.
Definition StatsWithSum_report := report StatsWithSum_report_value.

(** *** A script: construction, then a sequence of [add] calls *)

Definition exec {A} (m : M A) (s : state) : state := snd (m s).

Definition Stats_run (calls : list (text * pyval)) (s : state) : state :=
  List.fold_left (fun s c => exec (Stats_add (fst c) (snd c)) s) calls s.

Definition StatsWithSum_run (calls : list (text * (pyval * pyval)))
    (s : state) : state :=
  List.fold_left
    (fun s c => exec (StatsWithSum_add (fst c) (fst (snd c)) (snd (snd c))) s)
    calls s.
End Variants.

(** The accumulators of the store, in the order of iteration. *)
Definition view (s : state) : list (text * list pyval) :=
  List.map (fun e => (fst e, heap s (snd e))) (self s).

(** ** What a script did, read off its sequence of calls *)

(** The values recorded under [c], in the order of the calls. *)
Definition values_of {V : Type} (c : text) (calls : list (text * V)) : list V :=
  List.map snd (List.filter (fun x => text_eqb (fst x) c) calls).

(** The number of [add] calls made with the category name [c]. *)
Definition count_adds {V : Type} (c : text) (calls : list (text * V)) : Z :=
  len (values_of c calls).

(** The category names in the order in which each was first used. *)
Definition first_seen (cs : list text) : list text :=
  List.fold_left
    (fun acc c => if List.existsb (text_eqb c) acc then acc else acc ++ [c])
    cs [].

(** The largest length a list object can have ([sys.maxsize]). *)
Definition sys_maxsize : Z := 2 ^ 63 - 1.

Definition text_lt (a b : text) : Prop := text_ltb a b = true.

Definition is_int (v : pyval) : bool :=
  match v with PInt _ => true | _ => false end.

Definition is_float (v : pyval) : bool :=
  match v with PFloat _ => true | _ => false end.

(** The values that can be summed: integers and floats. *)
Definition is_number (v : pyval) : bool := is_int v || is_float v.

Definition is_ascii (c : N) : bool := (c <? 128)%N.

(** The category names of a script. *)
Definition categories {V : Type} (calls : list (text * V)) : list text :=
  List.map fst calls.

(** The store after a script: what the dictionary and the heap hold, in
    terms of the calls made. *)
Record store_of {V : Type} (proj : V -> pyval) (calls : list (text * V))
    (s : state) : Prop := {
  so_keys : dict_keys (self s) = first_seen (categories calls);
  so_values : forall c l, dict_get c (self s) = Some l ->
      (0 < l < next_loc s)%nat /\ heap s l = List.map proj (values_of c calls);
  so_absent : forall c, dict_get c (self s) = None -> values_of c calls = [];
  so_separate : NoDup (List.map snd (self s));
  so_next : (0 < next_loc s)%nat;
  so_init_value : heap s _init_value = []
}.

(** What [report_value] computes from the list of a category. *)
Definition Stats_summary (py_repr : pyval -> text) (value : list pyval)
  : result value_tuple :=
  Ok (limit (str_int (len value) ++ u " " ++ repr_list py_repr value),
      len value).

Definition StatsWithSum_summary (py_repr : pyval -> text)
    (values : list pyval) : result value_tuple :=
  rbind (sum_nums (PInt 0) values) (fun sum_of_nums =>
  Ok (limit (str_int (len values) ++ u " total=" ++ py_str py_repr sum_of_nums
               ++ u " " ++ repr_list py_repr values),
      len values)).

(** The summaries of all categories, up to the first that fails. *)
Fixpoint collect (f : list pyval -> result value_tuple)
    (v : list (text * list pyval)) : result (list (text * value_tuple)) :=
  match v with
  | [] => Ok []
  | (c, values) :: v' =>
      rbind (f values) (fun t =>
      rbind (collect f v') (fun rest => Ok ((c, t) :: rest)))
  end.

(** [items] of [report], from the summaries. *)
Definition order_items (order_by_title : bool)
    (report_dict : list (text * value_tuple)) : list (text * value_tuple) :=
  if order_by_title then sorted item_ltb report_dict
  else sorted_key (fun x => - snd (snd x)) report_dict.

(** A method that leaves the state as it found it. *)
Definition read_only {A} (m : M A) : Prop := forall s, snd (m s) = s.

(** The state one [add] leaves: the list of the category, created when the
    category is new, has the value at its end. *)
Definition recorded (c : text) (x : pyval) (s : state) : state :=
  match dict_get c (self s) with
  | Some l =>
      mkState (heap_set (heap s) l (heap s l ++ [x])) (next_loc s) (self s)
              (_start_time s)
  | None =>
      let n := next_loc s in
      let h := heap_set (heap s) n (heap s _init_value) in
      mkState (heap_set h n (h n ++ [x])) (S n) (dict_set c n (self s))
              (_start_time s)
  end.

(** The pair that [StatsWithSum.add] appends. *)
Definition pack (p : pyval * pyval) : pyval := PTuple [fst p; snd p].

(** [lines] of [report], from [items]. *)
Definition lines_of (indent : Z) (show_time_taken : bool) (time_taken : Z)
    (empty : bool) (items : list (text * value_tuple)) : list text :=
  let indent_str := str_mul tab indent in
  (if empty then [indent_str ++ u "None"]
   else List.map (category_line indent_str) items)
  ++ (if show_time_taken then [time_line indent_str time_taken] else []).

(** The report is a pure reading of the store: the state is left as it was,
    however often the report is made, and the clock shows in the last line
    only. *)
Definition idempotent_report (report_value : text -> M value_tuple) : Prop :=
  forall (s : state) (indent : Z) (order_by_title show_time_taken : bool)
         (now : Z),
    snd (report report_value indent order_by_title show_time_taken now s) = s
    /\ (forall k : nat,
          Nat.iter k
            (fun s => snd (report report_value indent order_by_title
                             show_time_taken now s)) s = s)
    /\ (forall now' : Z,
          fst (report_lines report_value indent order_by_title
                 show_time_taken now' s)
          = match fst (report_lines report_value indent order_by_title
                         false now s) with
            | Ok category_lines =>
                Ok (category_lines
                    ++ if show_time_taken
                       then [time_line (str_mul tab indent)
                               (now' - _start_time s)]
                       else [])
            | Raise e => Raise e
            end).

(** A summary shows the count [n] at its start: the numeral, then a space. *)
Definition count_shown (value_str : text) (n : Z) : Prop :=
  exists rest, value_str = str_int n ++ u " " ++ rest.

(** The items of a report hold every category of the script once, each with
    the number of its [add] calls as the number to sort by. *)
Definition items_of_script {V : Type} (calls : list (text * V))
    (items : list (text * value_tuple)) : Prop :=
  Permutation (List.map fst items) (first_seen (categories calls))
  /\ (forall a, In a items -> snd (snd a) = count_adds (fst a) calls).

(** Items in the order of the count, the larger first; the categories of one
    count stand in the order in which the script first used them. *)
Definition sorted_by_count {V : Type} (calls : list (text * V))
    (items : list (text * value_tuple)) : Prop :=
  (forall l1 a l2 b l3, items = l1 ++ a :: l2 ++ b :: l3 ->
      count_adds (fst a) calls >= count_adds (fst b) calls)
  /\ (forall k : Z,
        filter (fun c => count_adds c calls =? k) (List.map fst items)
        = filter (fun c => count_adds c calls =? k)
            (first_seen (categories calls))).

(** Items in the order of the category names. *)
Definition sorted_by_title (items : list (text * value_tuple)) : Prop :=
  forall l1 a l2 b l3, items = l1 ++ a :: l2 ++ b :: l3 ->
    text_lt (fst a) (fst b).

(** The store after the script [calls], whose method [add] records
    [proj v] for the argument [v]: which categories it holds, that each has
    a list of its own, and what creating a category or adding to one does
    to the others. *)
Definition lazy_independent {V : Type} (proj : V -> pyval)
    (add : text -> V -> M string) (calls : list (text * V)) (s : state)
  : Prop :=
  (forall c, dict_contains c (self s) = true <-> values_of c calls <> [])
  /\ (forall c l, dict_get c (self s) = Some l ->
        heap s l = List.map proj (values_of c calls) /\ l <> _init_value)
  /\ heap s _init_value = []
  /\ (forall c1 c2 l1 l2,
        dict_get c1 (self s) = Some l1 -> dict_get c2 (self s) = Some l2 ->
        c1 <> c2 -> l1 <> l2)
  /\ (forall c, dict_get c (self s) = None ->
        let s1 := snd (_init_category c s) in
        exists l,
          dict_get c (self s1) = Some l /\ heap s1 l = []
          /\ l <> _init_value /\ heap s1 _init_value = []
          /\ forall c' l', dict_get c' (self s) = Some l' ->
               l' <> l /\ dict_get c' (self s1) = Some l'
               /\ heap s1 l' = heap s l')
  /\ (forall c v,
        let s' := snd (add c v s) in
        heap s' _init_value = []
        /\ (exists l, dict_get c (self s') = Some l
                      /\ heap s' l
                         = List.map proj (values_of c calls) ++ [proj v])
        /\ forall c' l', c' <> c -> dict_get c' (self s) = Some l' ->
             dict_get c' (self s') = Some l' /\ heap s' l' = heap s l').

(** A number: an integer or a float. *)
Inductive number : Type :=
| NInt (z : Z)
| NFloat (f : float).

Definition value_of (x : number) : pyval :=
  match x with NInt z => PInt z | NFloat f => PFloat f end.

(** A call of [StatsWithSum.add] whose third argument is a number. *)
Definition numeric_call (x : text * (pyval * number))
  : text * (pyval * pyval) :=
  (fst x, (fst (snd x), value_of (snd (snd x)))).

(** The sum of integers, as arithmetic has it. *)
Definition arithmetic_sum (nums : list Z) : Z := List.fold_right Z.add 0 nums.

(** The sum of two numbers: exact for two integers, the double nearest to
    the sum for two floats.  An integer that meets a float counts as the
    double nearest to it; the sum is not defined when it has none. *)
Definition number_add (a b : number) : option number :=
  match a, b with
  | NInt x, NInt y => Some (NInt (x + y))
  | NFloat x, NFloat y => Some (NFloat (x + y)%float)
  | NInt x, NFloat y =>
      option_map (fun x' => NFloat (x' + y)%float) (float_of_int x)
  | NFloat x, NInt y =>
      option_map (fun y' => NFloat (x + y')%float) (float_of_int y)
  end.

(** The sum of numbers by simple addition: [acc], then each number in its
    turn. *)
Definition number_sum_from (acc : option number) (nums : list number)
  : option number :=
  List.fold_left
    (fun acc x => match acc with Some a => number_add a x | None => None end)
    nums acc.

(** The arithmetic sum of the numbers of a category: from the integer 0. *)
Definition number_sum (nums : list number) : option number :=
  number_sum_from (Some (NInt 0)) nums.

(** [sum(nums)] from [acc], for a list that holds the numbers alone. *)
Fixpoint sum_from (acc : pyval) (nums : list pyval) : result pyval :=
  match nums with
  | [] => Ok acc
  | x :: nums' => rbind (py_add acc x) (fun acc' => sum_from acc' nums')
  end.

Definition int_of (v : pyval) : Z :=
  match v with PInt z => z | _ => 0 end.

(** A summary of [StatsWithSum] shows the count [n] and, after [total=],
    the text [total] of a number, followed by a space. *)
Definition total_shown (value_str : text) (n : Z) (total : text) : Prop :=
  exists rest,
    value_str = str_int n ++ u " total=" ++ total ++ u " " ++ rest.

(** The failures of a summation. *)
Definition summation_error (e : exn) : Prop :=
  e = TypeError \/ e = OverflowError.

(** ** Scripts to run the model on *)

Definition demo_calls : list (text * pyval) :=
  [ (u "Success", PText (u "good1")); (u "Success", PText (u "good2"));
    (u "Success", PText (u "good3")); (u "Success", PText (u "good4"));
    (u "Failure", PText (u "bad1")) ].

Definition demo_sum_calls : list (text * (pyval * number)) :=
  [ (u "cat", (PText (u "id1"), NFloat 2.5));
    (u "cat", (PText (u "id2"), NFloat 3.5)) ].

Definition demo_int_sum_calls : list (text * (pyval * number)) :=
  [ (u "cat", (PText (u "id1"), NInt 2)); (u "cat", (PText (u "id2"), NInt 4)) ].

Definition huge_sum_calls : list (text * (pyval * number)) :=
  [ (u "c", (PText (u "x"), NInt (10 ^ 150))) ].

Definition overflow_sum_calls : list (text * (pyval * number)) :=
  [ (u "c", (PText (u "x"), NInt (2 ^ 1024)));
    (u "c", (PText (u "y"), NFloat 0.5)) ].

(** ** The rest of [StatsCount] *)

(** [show_time_taken] at the clock reading [now]: what [print] writes to the
    standard output, which is the line and a newline, and the state. *)
Definition show_time_taken (now : Z) (s : state) : text * state :=
  let time_taken := now - _start_time s in
  (u "Time taken (h:m:s): " ++ Datetime.str_timedelta time_taken ++ newline,
   s).

(** [__repr__]: [self.report()], with the defaults of [report]. *)
Definition __repr__ (report_value : text -> M value_tuple) (now : Z) : M text :=
  report report_value 1 false true now.

(** ** What the further properties speak of *)

Definition starts_with (p t : text) : Prop := exists rest, t = p ++ rest.

(** The lines of a report on the script [calls]: one per category, or the
    one line [None], then the time line when it is asked for; each starts
    with the indent. *)
Definition report_shape {V : Type} (calls : list (text * V)) (indent : Z)
    (show_time_taken : bool) (lines : list text) : Prop :=
  List.length lines
  = (Nat.max 1 (List.length (first_seen (categories calls)))
     + if show_time_taken then 1 else 0)%nat
  /\ Forall (starts_with (List.repeat 9%N (Z.to_nat indent))) lines.

(** Every number of the script is an integer. *)
Definition all_int (calls : list (text * (pyval * pyval))) : bool :=
  forallb (fun x => is_int (snd (snd x))) calls.

(** Every third argument of the script is a number. *)
Definition all_numbers (calls : list (text * (pyval * pyval))) : bool :=
  forallb (fun x => is_number (snd (snd x))) calls.

(** No third argument of the script is a float. *)
Definition no_float (calls : list (text * (pyval * pyval))) : bool :=
  forallb (fun x => negb (is_float (snd (snd x)))) calls.

(** Two results that are the same value, or are both failures. *)
Definition alike {A : Type} (r1 r2 : result A) : Prop :=
  match r1, r2 with
  | Ok a, Ok b => a = b
  | Raise _, Raise _ => True
  | _, _ => False
  end.

(** [t.split('\n')] *)
Fixpoint split_lines (t : text) : list text :=
  match t with
  | [] => [[]]
  | c :: t' =>
      if (c =? 10)%N then [] :: split_lines t'
      else match split_lines t' with
           | line :: lines => (c :: line) :: lines
           | [] => [[c]]
           end
  end.

Definition no_newline (t : text) : bool := negb (List.existsb (N.eqb 10) t).

(** No category name of the script and no text that [show] gives of a
    value holds a newline. *)
Definition newline_free {V : Type} (show : V -> text)
    (calls : list (text * V)) : bool :=
  forallb (fun x => no_newline (fst x) && no_newline (show (snd x))) calls.

(** Two scripts that record the same values, in the same order, under every
    category; calls of different categories may be interleaved differently. *)
Definition same_per_category {V : Type} (calls1 calls2 : list (text * V))
  : Prop :=
  forall c, values_of c calls1 = values_of c calls2.

Definition reorder_calls1 : list (text * pyval) :=
  [ (u "b", PInt 1); (u "a", PInt 2); (u "b", PInt 3) ].

Definition reorder_calls2 : list (text * pyval) :=
  [ (u "a", PInt 2); (u "b", PInt 1); (u "b", PInt 3) ].

(** * Properties *)

(** ** Text *)

Lemma text_eqb_eq (a b : text) : text_eqb a b = true <-> a = b.
Proof.
  revert b; induction a as [|x a IH]; intros [|y b]; simpl;
    try (split; [discriminate | congruence]); try tauto.
  rewrite andb_true_iff, N.eqb_eq, IH.
  split; [intros [-> ->]; reflexivity | intros H; inversion H; auto].
Qed.

Lemma text_eqb_refl (a : text) : text_eqb a a = true.
Proof. apply text_eqb_eq; reflexivity. Qed.

Lemma text_eqb_neq (a b : text) : text_eqb a b = false <-> a <> b.
Proof.
  rewrite <- text_eqb_eq. destruct (text_eqb a b); split; congruence.
Qed.

Lemma text_eqb_sym (a b : text) : text_eqb a b = text_eqb b a.
Proof.
  destruct (text_eqb b a) eqn:E.
  - apply text_eqb_eq in E; subst; apply text_eqb_refl.
  - apply text_eqb_neq. apply text_eqb_neq in E. congruence.
Qed.

Lemma text_ltb_irrefl (a : text) : text_ltb a a = false.
Proof.
  induction a as [|x a IH]; simpl; auto.
  rewrite N.ltb_irrefl, N.eqb_refl; assumption.
Qed.

Lemma text_ltb_trans (a b c : text) :
  text_ltb a b = true -> text_ltb b c = true -> text_ltb a c = true.
Proof.
  revert b c; induction a as [|x a IH]; intros [|y b] [|z c]; simpl;
    try discriminate; auto.
  destruct (N.ltb_spec x y), (N.ltb_spec y z), (N.ltb_spec x z);
    try reflexivity; try lia;
    destruct (N.eqb_spec x y), (N.eqb_spec y z), (N.eqb_spec x z);
    try discriminate; try lia; eauto.
Qed.

Lemma text_ltb_total (a b : text) :
  text_ltb a b = false -> a <> b -> text_ltb b a = true.
Proof.
  revert b; induction a as [|x a IH]; intros [|y b]; simpl;
    try discriminate; try congruence; auto.
  destruct (N.ltb_spec x y), (N.ltb_spec y x); try discriminate; try lia; auto.
  destruct (N.eqb_spec x y), (N.eqb_spec y x); try lia; try discriminate.
  intros Hlt Hne. apply IH; congruence.
Qed.

Lemma text_ltb_asym (a b : text) :
  text_ltb a b = true -> text_ltb b a = false.
Proof.
  intros H. destruct (text_ltb b a) eqn:E; auto.
  rewrite <- (text_ltb_irrefl a). symmetry. eapply text_ltb_trans; eauto.
Qed.

Lemma len_app {A} (a b : list A) : len (a ++ b) = len a + len b.
Proof. unfold len. rewrite length_app. lia. Qed.

Lemma len_nonneg {A} (a : list A) : 0 <= len a.
Proof. unfold len. lia. Qed.

(** ** Decimal numerals *)

Lemma digits_aux_length fuel : forall n acc k,
  (n < 10 ^ N.of_nat (S k))%N ->
  (List.length (digits_aux fuel n acc) <= List.length acc + S k)%nat.
Proof.
  induction fuel as [|fuel IH]; intros n acc k Hn; simpl; [lia|].
  destruct (N.ltb_spec n 10); simpl; [lia|].
  destruct k as [|k].
  - change (10 ^ N.of_nat 1)%N with 10%N in Hn. lia.
  - specialize (IH (n / 10)%N (digit (n mod 10) :: acc) k).
    simpl List.length in IH.
    assert (n / 10 < 10 ^ N.of_nat (S k))%N; [|lia].
    apply N.Div0.div_lt_upper_bound.
    replace (N.of_nat (S (S k))) with (N.succ (N.of_nat (S k))) in Hn by lia.
    rewrite N.pow_succ_r' in Hn. exact Hn.
Qed.

Lemma str_N_length (n : N) (k : nat) :
  (n < 10 ^ N.of_nat (S k))%N -> (List.length (str_N n) <= S k)%nat.
Proof.
  intros H. unfold str_N.
  pose proof (digits_aux_length (S (N.size_nat n)) n [] k H). simpl in *. lia.
Qed.

(** A count that a list can have is printed with at most 19 digits. *)
Lemma str_int_count_length (n : Z) :
  0 <= n <= sys_maxsize -> (List.length (str_int n) <= 19)%nat.
Proof.
  intros [H0 H1]. unfold str_int.
  destruct (Z.ltb_spec n 0); [lia|].
  apply (str_N_length _ 18).
  unfold sys_maxsize in H1.
  apply N2Z.inj_lt. rewrite N2Z.inj_abs_N, Z.abs_eq by lia.
  eapply Z.le_lt_trans; [exact H1|]. vm_compute. reflexivity.
Qed.

Lemma digits_aux_app fuel : forall n acc,
  digits_aux fuel n acc = digits_aux fuel n [] ++ acc.
Proof.
  induction fuel as [|fuel IH]; intros n acc; simpl; auto.
  destruct (n <? 10)%N; auto.
  rewrite IH, (IH _ [_]), <- app_assoc. reflexivity.
Qed.

Lemma N_of_digits_snoc (t : text) (c : N) :
  N_of_digits (t ++ [c]) = (10 * N_of_digits t + digit_val c)%N.
Proof. unfold N_of_digits. rewrite fold_left_app. reflexivity. Qed.

Lemma digits_aux_value fuel : forall n,
  (n < 2 ^ N.of_nat fuel)%N -> N_of_digits (digits_aux (S fuel) n []) = n.
Proof.
  induction fuel as [|fuel IH]; intros n Hn.
  - simpl in *. assert (n = 0%N) by lia. subst. reflexivity.
  - change (digits_aux (S (S fuel)) n [])
      with (if (n <? 10)%N then [digit (n mod 10)]
            else digits_aux (S fuel) (n / 10) [digit (n mod 10)]).
    destruct (N.ltb_spec n 10).
    + rewrite N.mod_small by lia.
      unfold N_of_digits, digit, digit_val. cbn [fold_left]. lia.
    + rewrite digits_aux_app, N_of_digits_snoc, IH.
      * unfold digit, digit_val.
        rewrite (N.add_comm 48), N.add_sub.
        symmetry. apply N.div_mod. lia.
      * replace (N.of_nat (S fuel)) with (N.succ (N.of_nat fuel)) in Hn by lia.
        rewrite N.pow_succ_r' in Hn.
        apply N.Div0.div_lt_upper_bound. lia.
Qed.

Lemma size_nat_gt (n : N) : (n < 2 ^ N.of_nat (N.size_nat n))%N.
Proof.
  destruct n as [|p]; [reflexivity|]. simpl N.size_nat.
  induction p as [p IH|p IH|]; simpl Pos.size_nat;
    try (replace (N.of_nat (S (Pos.size_nat p)))
           with (N.succ (N.of_nat (Pos.size_nat p))) by lia;
         rewrite N.pow_succ_r'); lia.
Qed.

(** The fuel of [str_N] is enough: the numeral reads back as the number. *)
Lemma str_N_value (n : N) : N_of_digits (str_N n) = n.
Proof.
  unfold str_N. apply digits_aux_value. apply size_nat_gt.
Qed.

(** ** [sorted] *)

Section SortedFacts.
Context {A : Type} (lt : A -> A -> bool).

Lemma insert_perm (x : A) (l : list A) : Permutation (insert lt x l) (x :: l).
Proof.
  induction l as [|y l IH]; simpl; auto.
  destruct (lt y x); auto.
  rewrite IH. apply perm_swap.
Qed.

Lemma sorted_perm (l : list A) : Permutation (sorted lt l) l.
Proof.
  induction l as [|x l IH]; simpl; auto.
  rewrite insert_perm. auto.
Qed.

Hypothesis lt_asym : forall a b, lt a b = true -> lt b a = false.

Lemma insert_sorted (x : A) (l : list A) :
  Sorted (not_gt lt) l -> Sorted (not_gt lt) (insert lt x l).
Proof.
  induction l as [|y l IH]; intros Hs; simpl.
  - repeat constructor.
  - destruct (lt y x) eqn:E.
    + inversion Hs as [|? ? Hs' Hhd]; subst.
      constructor; [auto|].
      destruct l as [|z l]; simpl.
      * constructor. apply lt_asym; assumption.
      * destruct (lt z x); constructor.
        -- inversion Hhd; assumption.
        -- apply lt_asym; assumption.
    + constructor; [assumption|]. constructor. exact E.
Qed.

Lemma sorted_Sorted (l : list A) : Sorted (not_gt lt) (sorted lt l).
Proof.
  induction l as [|x l IH]; simpl; [constructor|].
  apply insert_sorted; assumption.
Qed.

(** Stability: elements none of which is smaller than another keep their
    relative order. *)
Lemma insert_filter (p : A -> bool) (x : A) (l : list A) :
  (forall a b, p a = true -> p b = true -> lt a b = false) ->
  filter p (insert lt x l) = filter p (x :: l).
Proof.
  intros Hp. induction l as [|y l IH]; simpl; auto.
  destruct (lt y x) eqn:E; simpl; auto.
  simpl in IH. rewrite IH.
  destruct (p y) eqn:Ey, (p x) eqn:Ex; auto.
  rewrite (Hp y x Ey Ex) in E. discriminate.
Qed.

Lemma sorted_filter (p : A -> bool) (l : list A) :
  (forall a b, p a = true -> p b = true -> lt a b = false) ->
  filter p (sorted lt l) = filter p l.
Proof.
  intros Hp. induction l as [|x l IH]; simpl; auto.
  rewrite (insert_filter p x _ Hp). simpl. rewrite IH. reflexivity.
Qed.
End SortedFacts.

Lemma StronglySorted_split {A} (R : A -> A -> Prop) (l : list A) :
  StronglySorted R l ->
  forall l1 a l2 b l3, l = l1 ++ a :: l2 ++ b :: l3 -> R a b.
Proof.
  intros Hs l1; revert l Hs.
  induction l1 as [|x l1 IH]; intros l Hs a l2 b l3 ->; simpl in Hs.
  - inversion Hs as [|? ? _ Hall]; subst.
    rewrite Forall_forall in Hall. apply Hall.
    apply in_or_app; right; left; reflexivity.
  - inversion Hs; subst. eapply IH; eauto.
Qed.

Lemma sorted_key_descending {A} (key : A -> Z) (l : list A) :
  StronglySorted (fun a b => key a <= key b) (sorted_key key l).
Proof.
  apply Sorted_StronglySorted.
  - intros a b c; lia.
  - unfold sorted_key.
    eapply Sorted_ind with (P := fun l => Sorted (fun a b => key a <= key b) l);
      [constructor | | apply (sorted_Sorted (fun a b => key a <? key b))].
    + intros a l' _ IH Hhd. constructor; [assumption|].
      destruct Hhd as [|b l'' Hab]; constructor.
      unfold not_gt in Hab. apply Z.ltb_ge in Hab. exact Hab.
    + intros a b Hab. apply Z.ltb_lt in Hab. apply Z.ltb_ge. lia.
Qed.

Lemma sorted_key_stable {A} (key : A -> Z) (k : Z) (l : list A) :
  filter (fun x => key x =? k) (sorted_key key l)
  = filter (fun x => key x =? k) l.
Proof.
  apply sorted_filter. intros a b Ha Hb.
  apply Z.eqb_eq in Ha, Hb. apply Z.ltb_ge. lia.
Qed.

(** ** [dict] *)

Section DictFacts.
Context {V : Type}.
Implicit Types (d : dict V) (k : text) (v : V).

Lemma dict_get_set_same k v d : dict_get k (dict_set k v d) = Some v.
Proof.
  induction d as [|[k' v'] d IH]; simpl.
  - rewrite text_eqb_refl; reflexivity.
  - destruct (text_eqb k k') eqn:E; simpl; rewrite E; auto.
Qed.

Lemma dict_get_set_other k k' v d :
  k <> k' -> dict_get k' (dict_set k v d) = dict_get k' d.
Proof.
  intros Hne. induction d as [|[k0 v0] d IH]; simpl.
  - apply text_eqb_neq in Hne. rewrite text_eqb_sym, Hne. reflexivity.
  - destruct (text_eqb k k0) eqn:E; simpl.
    + apply text_eqb_eq in E; subst.
      apply text_eqb_neq in Hne. rewrite text_eqb_sym, Hne. reflexivity.
    + rewrite IH. reflexivity.
Qed.

Lemma dict_set_absent k v d :
  dict_get k d = None -> dict_set k v d = d ++ [(k, v)].
Proof.
  induction d as [|[k' v'] d IH]; simpl; auto.
  destruct (text_eqb k k'); [discriminate|]. intros H; rewrite IH; auto.
Qed.

Lemma dict_set_present k v d :
  dict_get k d <> None -> dict_keys (dict_set k v d) = dict_keys d.
Proof.
  induction d as [|[k' v'] d IH]; simpl; [congruence|].
  destruct (text_eqb k k'); simpl; auto. intros H; rewrite IH; auto.
Qed.

Lemma dict_get_None k d : dict_get k d = None <-> ~ In k (dict_keys d).
Proof.
  induction d as [|[k' v'] d IH]; simpl; [tauto|].
  destruct (text_eqb k k') eqn:E.
  - apply text_eqb_eq in E; subst. split; [discriminate | tauto].
  - apply text_eqb_neq in E. rewrite IH. intuition congruence.
Qed.

Lemma dict_get_In k v d : dict_get k d = Some v -> In (k, v) d.
Proof.
  induction d as [|[k' v'] d IH]; simpl; [discriminate|].
  destruct (text_eqb k k') eqn:E; auto.
  apply text_eqb_eq in E; subst. intros H; inversion H; auto.
Qed.

Lemma dict_In_get k v d :
  NoDup (dict_keys d) -> In (k, v) d -> dict_get k d = Some v.
Proof.
  induction d as [|[k' v'] d IH]; simpl; [tauto|].
  intros Hnd [Heq|Hin]; inversion Hnd; subst.
  - inversion Heq; subst. rewrite text_eqb_refl; reflexivity.
  - destruct (text_eqb k k') eqn:E; auto.
    apply text_eqb_eq in E; subst.
    exfalso. apply H1. apply (in_map fst) in Hin. exact Hin.
Qed.

Lemma dict_contains_In k d : dict_contains k d = true <-> In k (dict_keys d).
Proof.
  unfold dict_contains. pose proof (dict_get_None k d) as H.
  destruct (dict_get k d).
  - split; auto. intros _.
    destruct (in_dec (list_eq_dec N.eq_dec) k (dict_keys d)); auto.
    assert (Some v = None) by tauto. discriminate.
  - split; [discriminate|]. intros Hin. exfalso. apply H; auto.
Qed.
End DictFacts.

(** ** The calls of a script *)

Lemma existsb_text_In (c : text) (l : list text) :
  existsb (text_eqb c) l = true <-> In c l.
Proof.
  rewrite existsb_exists. split.
  - intros (x & Hin & E). apply text_eqb_eq in E; subst; auto.
  - intros Hin. exists c. split; auto. apply text_eqb_refl.
Qed.

Lemma first_seen_snoc (cs : list text) (c : text) :
  first_seen (cs ++ [c])
  = if existsb (text_eqb c) (first_seen cs) then first_seen cs
    else first_seen cs ++ [c].
Proof. unfold first_seen. rewrite fold_left_app. reflexivity. Qed.

Lemma first_seen_In (cs : list text) (c : text) :
  In c (first_seen cs) <-> In c cs.
Proof.
  revert c. induction cs as [|x cs IH] using rev_ind; intros c; [simpl; tauto|].
  rewrite first_seen_snoc, in_app_iff. simpl.
  destruct (existsb (text_eqb x) (first_seen cs)) eqn:E.
  - apply existsb_text_In in E. apply IH in E. rewrite IH.
    split; [tauto|]. intros [?|[?|[]]]; subst; auto.
  - rewrite in_app_iff, IH. simpl. tauto.
Qed.

Lemma first_seen_NoDup (cs : list text) : NoDup (first_seen cs).
Proof.
  induction cs as [|x cs IH] using rev_ind; [constructor|].
  rewrite first_seen_snoc.
  destruct (existsb (text_eqb x) (first_seen cs)) eqn:E; auto.
  apply NoDup_app; auto.
  - repeat constructor. simpl. tauto.
  - intros a Ha [<-|[]]. apply existsb_text_In in Ha. congruence.
Qed.

Lemma categories_snoc {V} (calls : list (text * V)) (x : text * V) :
  categories (calls ++ [x]) = categories calls ++ [fst x].
Proof. unfold categories. rewrite map_app. reflexivity. Qed.

Lemma values_of_snoc {V} (c : text) (calls : list (text * V)) (x : text * V) :
  values_of c (calls ++ [x])
  = values_of c calls ++ (if text_eqb (fst x) c then [snd x] else []).
Proof.
  unfold values_of. rewrite filter_app, map_app. simpl.
  destruct (text_eqb (fst x) c); reflexivity.
Qed.

Lemma values_of_nil_iff {V} (c : text) (calls : list (text * V)) :
  values_of c calls = [] <-> ~ In c (categories calls).
Proof.
  unfold values_of, categories.
  induction calls as [|[k v] calls IH]; simpl; [tauto|].
  destruct (text_eqb k c) eqn:E; simpl.
  - apply text_eqb_eq in E; subst. split; [discriminate | tauto].
  - apply text_eqb_neq in E. rewrite IH. tauto.
Qed.

Lemma values_of_map {V W} (g : V -> W) (c : text) (calls : list (text * V)) :
  values_of c (List.map (fun x => (fst x, g (snd x))) calls)
  = List.map g (values_of c calls).
Proof.
  unfold values_of. induction calls as [|[k v] calls IH]; simpl; auto.
  destruct (text_eqb k c); simpl; rewrite IH; reflexivity.
Qed.

(** ** One [add] *)

Lemma add_steps (c : text) (x : pyval) (out : string) (s : state) :
  (_init_category c ;;; l <- getitem c ;; append l x ;;; ret out) s
  = (Ok out, recorded c x s).
Proof.
  unfold recorded, _init_category, bind, contains, getitem, append, ret,
    deepcopy, setitem, dict_contains.
  destruct (dict_get c (self s)) as [l|] eqn:E; simpl.
  - rewrite E. reflexivity.
  - rewrite dict_get_set_same. reflexivity.
Qed.

Lemma Stats_add_eq py_repr (c : text) (v : pyval) (s : state) :
  Stats_add py_repr c v s
  = (Ok (encode_ascii_ignore (c ++ u ": " ++ py_str py_repr v)),
     recorded c v s).
Proof. apply add_steps. Qed.

Lemma StatsWithSum_add_eq py_repr (c : text) (a b : pyval) (s : state) :
  StatsWithSum_add py_repr c a b s
  = (Ok (encode_ascii_ignore
           (c ++ u ": " ++ py_str py_repr a ++ u " " ++ py_str py_repr b)),
     recorded c (PTuple [a; b]) s).
Proof. apply add_steps. Qed.

Lemma heap_set_same h l v : heap_set h l v l = v.
Proof. unfold heap_set. rewrite Nat.eqb_refl. reflexivity. Qed.

Lemma heap_set_other h l v l' : l' <> l -> heap_set h l v l' = h l'.
Proof.
  intros H. unfold heap_set. apply Nat.eqb_neq in H. rewrite H. reflexivity.
Qed.

Lemma NoDup_snd_inj {V} (d : list (text * V)) k1 k2 v :
  NoDup (List.map snd d) -> In (k1, v) d -> In (k2, v) d -> k1 = k2.
Proof.
  induction d as [|[k0 v0] d IH]; simpl; [tauto|].
  intros Hnd H1 H2. inversion Hnd as [|? ? Hnot Hnd']; subst.
  destruct H1 as [H1|H1], H2 as [H2|H2].
  - congruence.
  - inversion H1; subst. exfalso. apply Hnot.
    apply (in_map snd) in H2. exact H2.
  - inversion H2; subst. exfalso. apply Hnot.
    apply (in_map snd) in H1. exact H1.
  - auto.
Qed.

(** ** The store after a script *)

Section StoreOf.
Context {V : Type} (proj : V -> pyval).

Lemma store_of_init (now : Z) : store_of proj [] (StatsCount_init now).
Proof.
  constructor; simpl; auto; try discriminate. constructor.
Qed.

Lemma store_of_keys_NoDup calls s :
  store_of proj calls s -> NoDup (dict_keys (self s)).
Proof. intros H. rewrite (so_keys _ _ _ H). apply first_seen_NoDup. Qed.

Lemma store_of_recorded calls s c v :
  store_of proj calls s ->
  store_of proj (calls ++ [(c, v)]) (recorded c (proj v) s).
Proof.
  intros H. pose proof (store_of_keys_NoDup _ _ H) as Hnd.
  destruct H as [Hkeys Hvals Habs Hsep Hnext Hinit].
  unfold recorded. destruct (dict_get c (self s)) as [l|] eqn:E.
  - destruct (Hvals c l E) as [Hl Hheap].
    constructor; simpl; auto.
    + rewrite (categories_snoc calls), first_seen_snoc. cbn [fst].
      unfold categories in *.
      replace (existsb (text_eqb c) (first_seen (map fst calls))) with true;
        auto.
      symmetry. apply existsb_text_In. rewrite <- Hkeys.
      apply dict_contains_In. unfold dict_contains. rewrite E. reflexivity.
    + intros c' l' E'. destruct (Hvals c' l' E') as [Hl' Hheap'].
      split; auto. rewrite values_of_snoc. simpl.
      destruct (text_eqb c c') eqn:Ec.
      * apply text_eqb_eq in Ec; subst c'.
        assert (l' = l) by congruence. subst l'.
        rewrite heap_set_same, map_app, Hheap. reflexivity.
      * apply text_eqb_neq in Ec. rewrite app_nil_r, heap_set_other; auto.
        intros ->. apply Ec.
        apply (NoDup_snd_inj (self s) c c' l Hsep);
          apply dict_get_In; assumption.
    + intros c' E'. rewrite values_of_snoc, (Habs c' E'). simpl.
      destruct (text_eqb c c') eqn:Ec; auto.
      apply text_eqb_eq in Ec; subst. congruence.
    + rewrite heap_set_other; auto. unfold _init_value. lia.
  - assert (Hlt : forall k l, In (k, l) (self s) -> (0 < l < next_loc s)%nat).
    { intros k l Hin. apply (Hvals k l). apply dict_In_get; auto. }
    constructor; simpl.
    + rewrite dict_set_absent by assumption.
      rewrite (categories_snoc calls), first_seen_snoc, <- Hkeys. cbn [fst].
      unfold dict_keys in *. rewrite map_app. cbn [map fst].
      replace (existsb (text_eqb c) (map fst (self s))) with false; auto.
      symmetry. apply not_true_is_false. rewrite existsb_text_In.
      apply dict_get_None. assumption.
    + intros c' l' E'. rewrite values_of_snoc. simpl.
      destruct (text_eqb c c') eqn:Ec.
      * apply text_eqb_eq in Ec; subst c'.
        rewrite dict_get_set_same in E'. inversion E'; subst l'.
        split; [lia|].
        rewrite !heap_set_same, Hinit, (Habs c E). reflexivity.
      * apply text_eqb_neq in Ec.
        rewrite dict_get_set_other in E' by assumption.
        destruct (Hvals c' l' E') as [Hl' Hheap'].
        split; [lia|].
        rewrite app_nil_r, !heap_set_other by lia. assumption.
    + intros c' E'. rewrite values_of_snoc. simpl.
      destruct (text_eqb c c') eqn:Ec.
      * apply text_eqb_eq in Ec; subst.
        rewrite dict_get_set_same in E'. discriminate.
      * apply text_eqb_neq in Ec.
        rewrite dict_get_set_other in E' by assumption.
        rewrite (Habs c' E'). reflexivity.
    + rewrite dict_set_absent by assumption. rewrite map_app. simpl.
      apply NoDup_app; auto.
      * repeat constructor. simpl; tauto.
      * intros l Hin [<-|[]]. apply in_map_iff in Hin.
        destruct Hin as ([k l'] & Heq & Hin). simpl in Heq; subst l'.
        apply Hlt in Hin. lia.
    + lia.
    + rewrite !heap_set_other; auto; unfold _init_value; lia.
Qed.

Lemma store_of_fold calls : forall calls0 s,
  store_of proj calls0 s ->
  store_of proj (calls0 ++ calls)
    (fold_left (fun s c => recorded (fst c) (proj (snd c)) s) calls s).
Proof.
  induction calls as [|[c v] calls IH]; intros calls0 s H; simpl.
  - rewrite app_nil_r. assumption.
  - replace (calls0 ++ (c, v) :: calls) with ((calls0 ++ [(c, v)]) ++ calls)
      by (rewrite <- app_assoc; reflexivity).
    apply IH. apply store_of_recorded. assumption.
Qed.
End StoreOf.

Lemma fold_left_ext {A B} (f g : A -> B -> A) (l : list B) (a : A) :
  (forall a b, f a b = g a b) -> fold_left f l a = fold_left g l a.
Proof.
  intros H. revert a. induction l as [|b l IH]; intros a; simpl; auto.
  rewrite H. apply IH.
Qed.

Lemma Stats_run_store py_repr calls now :
  store_of (fun v => v) calls (Stats_run py_repr calls (StatsCount_init now)).
Proof.
  unfold Stats_run.
  rewrite (fold_left_ext _ (fun s c => recorded (fst c) (snd c) s)).
  - apply (store_of_fold (fun v => v) calls [] _ (store_of_init _ now)).
  - intros s c. unfold exec. rewrite Stats_add_eq. reflexivity.
Qed.

Lemma recorded_start_time c x s :
  _start_time (recorded c x s) = _start_time s.
Proof. unfold recorded. destruct (dict_get c (self s)); reflexivity. Qed.

Lemma fold_recorded_start_time {V} (proj : V -> pyval) calls : forall s,
  _start_time
    (fold_left (fun s c => recorded (fst c) (proj (snd c)) s) calls s)
  = _start_time s.
Proof.
  induction calls as [|x calls IH]; intros s; simpl; auto.
  rewrite IH. apply recorded_start_time.
Qed.

Lemma Stats_run_start_time py_repr calls now :
  _start_time (Stats_run py_repr calls (StatsCount_init now)) = now.
Proof.
  unfold Stats_run.
  rewrite (fold_left_ext _ (fun s c => recorded (fst c) (snd c) s)).
  - apply (fold_recorded_start_time (fun v => v)).
  - intros s c. unfold exec. rewrite Stats_add_eq. reflexivity.
Qed.

Lemma StatsWithSum_run_start_time py_repr calls now :
  _start_time (StatsWithSum_run py_repr calls (StatsCount_init now)) = now.
Proof.
  unfold StatsWithSum_run.
  rewrite (fold_left_ext _ (fun s c => recorded (fst c) (pack (snd c)) s)).
  - apply (fold_recorded_start_time pack).
  - intros s c. unfold exec. rewrite StatsWithSum_add_eq. reflexivity.
Qed.

Lemma StatsWithSum_run_store py_repr calls now :
  store_of pack calls (StatsWithSum_run py_repr calls (StatsCount_init now)).
Proof.
  unfold StatsWithSum_run.
  rewrite (fold_left_ext _ (fun s c => recorded (fst c) (pack (snd c)) s)).
  - apply (store_of_fold pack calls [] _ (store_of_init _ now)).
  - intros s c. unfold exec. rewrite StatsWithSum_add_eq. reflexivity.
Qed.

(** ** [report_value] and [report] as functions of the store *)

Lemma Stats_report_value_eq py_repr (c : text) (s : state) :
  Stats_report_value py_repr c s
  = match dict_get c (self s) with
    | Some l => (Stats_summary py_repr (heap s l), s)
    | None => (Raise KeyError, s)
    end.
Proof.
  unfold Stats_report_value, bind, getitem, load, ret, Stats_summary.
  destruct (dict_get c (self s)); reflexivity.
Qed.

Lemma StatsWithSum_report_value_eq py_repr (c : text) (s : state) :
  StatsWithSum_report_value py_repr c s
  = match dict_get c (self s) with
    | Some l => (StatsWithSum_summary py_repr (heap s l), s)
    | None => (Raise KeyError, s)
    end.
Proof.
  unfold StatsWithSum_report_value, bind, getitem, load, ret, lift,
    StatsWithSum_summary, rbind.
  destruct (dict_get c (self s)); [|reflexivity].
  destruct (sum_nums (PInt 0) (heap s l)); reflexivity.
Qed.

Section ReportFacts.
Variable report_value : text -> M value_tuple.
Variable f : list pyval -> result value_tuple.
Hypothesis report_value_eq : forall c s,
  report_value c s
  = match dict_get c (self s) with
    | Some l => (f (heap s l), s)
    | None => (Raise KeyError, s)
    end.

Lemma for_each_collect (s : state) : forall (d : dict loc) acc,
  (forall e, In e d -> dict_get (fst e) (self s) = Some (snd e)) ->
  NoDup (dict_keys d) ->
  (forall e, In e d -> dict_get (fst e) acc = None) ->
  for_each (dict_keys d)
    (fun report_dict category =>
       v <- report_value category ;;
       ret (dict_set category v report_dict)) acc s
  = (rbind (collect f (List.map (fun e => (fst e, heap s (snd e))) d))
           (fun rd => Ok (acc ++ rd)), s).
Proof.
  induction d as [|[c l] d IH]; intros acc Hget Hnd Hacc.
  - simpl. unfold ret. rewrite app_nil_r. reflexivity.
  - simpl. inversion Hnd as [|? ? Hnot Hnd']; subst.
    unfold bind at 1. unfold bind at 1.
    rewrite report_value_eq.
    pose proof (Hget (c, l) (or_introl eq_refl)) as Hc. cbn [fst snd] in Hc.
    rewrite Hc.
    destruct (f (heap s l)) as [t|e]; [|reflexivity].
    unfold ret at 1. cbn [rbind].
    rewrite IH.
    + rewrite dict_set_absent by (apply (Hacc (c, l)); left; reflexivity).
      destruct (collect f _); simpl; [|reflexivity].
      rewrite <- app_assoc. reflexivity.
    + intros e He. apply Hget. right; assumption.
    + assumption.
    + intros [c' l'] He. cbn [fst].
      rewrite dict_get_set_other.
      * apply (Hacc (c', l')). right; assumption.
      * intros ->. apply Hnot. apply (in_map fst) in He. exact He.
Qed.

Lemma report_items_eq (order_by_title : bool) (s : state) :
  NoDup (dict_keys (self s)) ->
  report_items report_value order_by_title s
  = (rbind (collect f (view s))
           (fun rd => Ok (order_items order_by_title rd)), s).
Proof.
  intros Hnd. unfold report_items, keys.
  unfold bind at 1. unfold bind at 1.
  rewrite (for_each_collect s (self s) []); auto.
  - unfold view. destruct (collect f _); reflexivity.
  - intros [c l] He. apply dict_In_get; assumption.
Qed.

Lemma report_lines_eq indent (order_by_title show : bool) now (s : state) :
  NoDup (dict_keys (self s)) ->
  report_lines report_value indent order_by_title show now s
  = (rbind (collect f (view s))
       (fun rd => Ok (lines_of indent show (now - _start_time s)
                        (dict_is_empty (self s))
                        (order_items order_by_title rd))), s).
Proof.
  intros Hnd. unfold report_lines. unfold bind at 1.
  rewrite report_items_eq by assumption.
  destruct (collect f (view s)) as [rd|e]; [|reflexivity].
  cbn [rbind]. unfold bind, not_self, start_time, ret, lines_of.
  destruct show; [|rewrite app_nil_r]; reflexivity.
Qed.

Lemma report_eq indent (order_by_title show : bool) now (s : state) :
  report report_value indent order_by_title show now s
  = match report_lines report_value indent order_by_title show now s with
    | (Ok lines, s') => (Ok (join newline lines), s')
    | (Raise e, s') => (Raise e, s')
    end.
Proof. reflexivity. Qed.
End ReportFacts.

Lemma collect_Forall2 f v rd :
  collect f v = Ok rd ->
  Forall2 (fun e r => fst r = fst e /\ f (snd e) = Ok (snd r)) v rd.
Proof.
  revert rd. induction v as [|[c values] v IH]; intros rd; simpl.
  - intros H; inversion H; constructor.
  - destruct (f values) as [t|] eqn:Ef; [|discriminate]. simpl.
    destruct (collect f v) as [rest|]; [|discriminate]. simpl.
    intros H; inversion H; subst. constructor; auto.
Qed.

Lemma collect_keys f v rd :
  collect f v = Ok rd -> List.map fst rd = List.map fst v.
Proof.
  intros H. apply collect_Forall2 in H.
  induction H as [|e r v rd [Hk _] _ IH]; simpl; congruence.
Qed.

Lemma collect_In f v rd c t :
  collect f v = Ok rd -> In (c, t) rd ->
  exists values, In (c, values) v /\ f values = Ok t.
Proof.
  intros H. apply collect_Forall2 in H.
  induction H as [|[c' values] r v rd [Hk Hf] _ IH]; simpl; [tauto|].
  intros [->|Hin].
  - exists values. simpl in *. subst. auto.
  - destruct (IH Hin) as (vs & ? & ?). eauto.
Qed.

Lemma collect_total f g v :
  (forall values, f values = Ok (g values)) ->
  collect f v = Ok (List.map (fun e => (fst e, g (snd e))) v).
Proof.
  intros H. induction v as [|[c values] v IH]; simpl; auto.
  rewrite H, IH. reflexivity.
Qed.

Lemma view_In {V : Type} (proj : V -> pyval) calls s c values :
  store_of proj calls s -> In (c, values) (view s) ->
  values = List.map proj (values_of c calls) /\ values_of c calls <> [].
Proof.
  intros H Hin. unfold view in Hin. apply in_map_iff in Hin.
  destruct Hin as ([c' l] & Heq & Hin). simpl in Heq. inversion Heq; subst.
  pose proof (store_of_keys_NoDup _ _ _ H) as Hnd.
  pose proof (dict_In_get _ _ _ Hnd Hin) as Hget.
  destruct (so_values _ _ _ H _ _ Hget) as [_ Hheap]. split; auto.
  rewrite values_of_nil_iff. intros Hno. apply Hno.
  apply first_seen_In. rewrite <- (so_keys _ _ _ H).
  apply (in_map fst) in Hin. exact Hin.
Qed.

(** ** The length limit *)

Lemma limit_long (value_str : text) :
  len value_str > report_value_limit ->
  limit value_str = firstn 150 value_str ++ u "..."
  /\ len (firstn 150 value_str) = 150.
Proof.
  unfold limit, report_value_limit, len. intros H.
  destruct (Z.gtb_spec (Z.of_nat (List.length value_str)) 150); [|lia].
  split; [reflexivity|]. rewrite length_firstn. lia.
Qed.

Lemma limit_short (value_str : text) :
  len value_str <= report_value_limit -> limit value_str = value_str.
Proof.
  unfold limit, report_value_limit, len. intros H.
  destruct (Z.gtb_spec (Z.of_nat (List.length value_str)) 150); [lia|].
  reflexivity.
Qed.

Lemma limit_length (value_str : text) :
  len (limit value_str) <= report_value_limit + len (u "...").
Proof.
  destruct (Z_gt_le_dec (len value_str) report_value_limit) as [H|H].
  - destruct (limit_long _ H) as [-> Hl]. rewrite len_app, Hl.
    unfold report_value_limit. lia.
  - rewrite limit_short by assumption. pose proof (len_nonneg (u "...")). lia.
Qed.

(** What fits in the limit at the front of the text stays there. *)
Lemma limit_prefix (p r : text) :
  len p <= report_value_limit -> exists rest, limit (p ++ r) = p ++ rest.
Proof.
  intros Hp.
  destruct (Z_gt_le_dec (len (p ++ r)) report_value_limit) as [H|H].
  - destruct (limit_long _ H) as [-> _].
    exists (firstn (150 - List.length p) r ++ u "...").
    rewrite firstn_app, firstn_all2, <- app_assoc; [reflexivity|].
    unfold len, report_value_limit in Hp. lia.
  - rewrite limit_short by assumption. eauto.
Qed.

(** ** The ASCII codec *)

Lemma encode_app (a b : text) :
  encode_ascii_ignore (a ++ b)
  = (encode_ascii_ignore a ++ encode_ascii_ignore b)%string.
Proof.
  induction a as [|c a IH]; simpl; auto.
  destruct (c <? 128)%N; simpl; rewrite IH; reflexivity.
Qed.

Lemma bytes_of_encode (t : text) :
  bytes_of (encode_ascii_ignore t) = filter is_ascii t.
Proof.
  unfold bytes_of, is_ascii. induction t as [|c t IH]; simpl; auto.
  destruct (N.ltb_spec c 128); simpl; auto.
  rewrite IH, N_ascii_embedding by lia. reflexivity.
Qed.

Lemma encode_ascii_text (t : text) :
  forallb is_ascii t = true -> bytes_of (encode_ascii_ignore t) = t.
Proof.
  intros H. rewrite bytes_of_encode.
  induction t as [|c t IH]; simpl in *; auto.
  apply andb_true_iff in H. destruct H as [Hc Ht].
  rewrite Hc, IH; auto.
Qed.

(** ** Methods that only read *)

Lemma read_only_ret {A} (a : A) : read_only (ret a).
Proof. intros s; reflexivity. Qed.

Lemma read_only_bind {A B} (m : M A) (k : A -> M B) :
  read_only m -> (forall a, read_only (k a)) -> read_only (bind m k).
Proof.
  intros Hm Hk s. unfold bind. specialize (Hm s).
  destruct (m s) as [[a|e] s']; simpl in *; subst; auto. apply Hk.
Qed.

Lemma read_only_for_each {A B} (xs : list A) (body : B -> A -> M B) :
  (forall acc x, read_only (body acc x)) ->
  forall acc, read_only (for_each xs body acc).
Proof.
  intros Hb. induction xs as [|x xs IH]; intros acc; simpl.
  - apply read_only_ret.
  - apply read_only_bind; auto.
Qed.

Lemma read_only_Stats_report_value py_repr c :
  read_only (Stats_report_value py_repr c).
Proof.
  intros s. rewrite Stats_report_value_eq.
  destruct (dict_get c (self s)); reflexivity.
Qed.

Lemma read_only_StatsWithSum_report_value py_repr c :
  read_only (StatsWithSum_report_value py_repr c).
Proof.
  intros s. rewrite StatsWithSum_report_value_eq.
  destruct (dict_get c (self s)); reflexivity.
Qed.

Section ReadOnlyReport.
Variable report_value : text -> M value_tuple.
Hypothesis report_value_reads : forall c, read_only (report_value c).

Lemma read_only_report_items obt : read_only (report_items report_value obt).
Proof.
  unfold report_items. apply read_only_bind; [intros s; reflexivity|].
  intros ks. apply read_only_bind; [|intros; apply read_only_ret].
  apply read_only_for_each. intros acc x.
  apply read_only_bind; [apply report_value_reads | intros; apply read_only_ret].
Qed.

Lemma report_lines_items indent obt show now s :
  report_lines report_value indent obt show now s
  = match fst (report_items report_value obt s) with
    | Ok items =>
        (Ok (lines_of indent show (now - _start_time s)
               (dict_is_empty (self s)) items), s)
    | Raise e => (Raise e, s)
    end.
Proof.
  unfold report_lines. unfold bind at 1.
  pose proof (read_only_report_items obt s) as Hs.
  destruct (report_items report_value obt s) as [[items|e] s']; simpl in *;
    subst; [|reflexivity].
  unfold bind, not_self, start_time, ret, lines_of.
  destruct show; [|rewrite app_nil_r]; reflexivity.
Qed.

Lemma read_only_report_lines indent obt show now :
  read_only (report_lines report_value indent obt show now).
Proof.
  intros s. rewrite report_lines_items.
  destruct (fst (report_items report_value obt s)); reflexivity.
Qed.

Lemma read_only_report indent obt show now :
  read_only (report report_value indent obt show now).
Proof.
  unfold report. apply read_only_bind;
    [apply read_only_report_lines | intros; apply read_only_ret].
Qed.

Lemma report_idempotent : idempotent_report report_value.
Proof.
  intros s indent obt show now. split; [apply read_only_report|]. split.
  - induction k as [|k IH]; simpl; [reflexivity|].
    rewrite IH. apply read_only_report.
  - intros now'. rewrite !report_lines_items.
    destruct (fst (report_items report_value obt s)); simpl; [|reflexivity].
    unfold lines_of. rewrite app_nil_r. reflexivity.
Qed.
End ReadOnlyReport.

Lemma str_mul_tab (indent : Z) :
  str_mul tab indent = List.repeat 9%N (Z.to_nat indent).
Proof.
  unfold str_mul, tab. induction (Z.to_nat indent) as [|n IH]; simpl; congruence.
Qed.

(** ** The order of the items *)

Lemma order_items_perm obt rd : Permutation (order_items obt rd) rd.
Proof. unfold order_items, sorted_key. destruct obt; apply sorted_perm. Qed.

Lemma NoDup_fst_unique {A B} (l : list (A * B)) a b1 b2 :
  NoDup (List.map fst l) -> In (a, b1) l -> In (a, b2) l -> b1 = b2.
Proof.
  induction l as [|[a0 b0] l IH]; simpl; [tauto|].
  intros Hnd H1 H2. inversion Hnd as [|? ? Hnot Hnd']; subst.
  destruct H1 as [H1|H1], H2 as [H2|H2].
  - congruence.
  - inversion H1; subst. exfalso. apply Hnot.
    apply (in_map fst) in H2. exact H2.
  - inversion H2; subst. exfalso. apply Hnot.
    apply (in_map fst) in H1. exact H1.
  - auto.
Qed.

Lemma NoDup_split_neq {A B} (l1 l2 l3 : list (A * B)) a b :
  NoDup (List.map fst (l1 ++ a :: l2 ++ b :: l3)) -> fst a <> fst b.
Proof.
  rewrite map_app. simpl. rewrite map_app. simpl. intros H.
  apply NoDup_remove_2 in H. intros E. apply H.
  apply in_or_app. right. apply in_or_app. right. left. auto.
Qed.

Lemma value_tuple_ltb_asym a b :
  value_tuple_ltb a b = true -> value_tuple_ltb b a = false.
Proof.
  unfold value_tuple_ltb. rewrite (text_eqb_sym (fst b)).
  destruct (text_eqb (fst a) (fst b)).
  - rewrite Z.ltb_lt, Z.ltb_ge. lia.
  - apply text_ltb_asym.
Qed.

Lemma item_ltb_asym a b : item_ltb a b = true -> item_ltb b a = false.
Proof.
  unfold item_ltb. rewrite (text_eqb_sym (fst b)).
  destruct (text_eqb (fst a) (fst b)).
  - apply value_tuple_ltb_asym.
  - apply text_ltb_asym.
Qed.

Lemma text_not_gt_trans a b c :
  text_ltb b a = false -> text_ltb c b = false -> text_ltb c a = false.
Proof.
  intros Hab Hbc. destruct (text_ltb c a) eqn:E; auto.
  destruct (text_eqb a b) eqn:Eab.
  - apply text_eqb_eq in Eab; subst. congruence.
  - apply text_eqb_neq in Eab.
    assert (text_ltb a b = true) by (apply text_ltb_total; auto).
    rewrite (text_ltb_trans c a b) in Hbc; auto.
Qed.

Lemma Sorted_impl {A} (R R' : A -> A -> Prop) (l : list A) :
  (forall x y, R x y -> R' x y) -> Sorted R l -> Sorted R' l.
Proof.
  intros HR H. induction H as [|x l _ IH Hhd]; constructor; auto.
  destruct Hhd; constructor; auto.
Qed.

Lemma sorted_by_title_keys rd :
  NoDup (List.map fst rd) -> sorted_by_title (sorted item_ltb rd).
Proof.
  intros Hnd l1 a l2 b l3 Hsplit.
  assert (Hs : StronglySorted (fun a b => text_ltb (fst b) (fst a) = false)
                 (sorted item_ltb rd)).
  { apply Sorted_StronglySorted.
    - intros x y z. apply text_not_gt_trans.
    - apply (Sorted_impl (not_gt item_ltb));
        [|apply sorted_Sorted, item_ltb_asym].
      intros x y Hxy. unfold not_gt, item_ltb in Hxy.
      destruct (text_eqb (fst y) (fst x)) eqn:E; auto.
      apply text_eqb_eq in E. rewrite E. apply text_ltb_irrefl. }
  pose proof (StronglySorted_split _ _ Hs _ _ _ _ _ Hsplit) as Hle.
  apply text_ltb_total; auto.
  assert (Hnd' : NoDup (List.map fst (sorted item_ltb rd))).
  { eapply Permutation_NoDup; [|exact Hnd].
    apply Permutation_map. symmetry. apply sorted_perm. }
  rewrite Hsplit in Hnd'. apply NoDup_split_neq in Hnd'. congruence.
Qed.

Lemma filter_map_fst {A B} (p : A -> bool) (l : list (A * B)) :
  filter p (List.map fst l) = List.map fst (filter (fun x => p (fst x)) l).
Proof.
  induction l as [|x l IH]; simpl; auto.
  destruct (p (fst x)); simpl; rewrite IH; reflexivity.
Qed.

(** ** The report of a script *)

Section ReportOfScript.
Context {V : Type} (proj : V -> pyval).
Variable report_value : text -> M value_tuple.
Variable f : list pyval -> result value_tuple.
Hypothesis report_value_eq : forall c s,
  report_value c s
  = match dict_get c (self s) with
    | Some l => (f (heap s l), s)
    | None => (Raise KeyError, s)
    end.
Variables (calls : list (text * V)) (s : state).
Hypothesis Hstore : store_of proj calls s.

Lemma script_items obt items :
  fst (report_items report_value obt s) = Ok items ->
  exists rd,
    collect f (view s) = Ok rd /\ items = order_items obt rd
    /\ List.map fst rd = first_seen (categories calls)
    /\ NoDup (List.map fst items)
    /\ Permutation (List.map fst items) (first_seen (categories calls))
    /\ forall c t, In (c, t) items ->
         f (List.map proj (values_of c calls)) = Ok t.
Proof.
  rewrite (report_items_eq _ f report_value_eq)
    by (eapply store_of_keys_NoDup; eauto).
  destruct (collect f (view s)) as [rd|] eqn:E; simpl; [|discriminate].
  intros H; inversion H; subst. exists rd.
  assert (Hk : List.map fst rd = first_seen (categories calls)).
  { rewrite (collect_keys _ _ _ E), <- (so_keys _ _ _ Hstore).
    unfold view, dict_keys. rewrite map_map. reflexivity. }
  assert (Hp : Permutation (List.map fst (order_items obt rd))
                 (first_seen (categories calls))).
  { rewrite <- Hk. apply Permutation_map, order_items_perm. }
  repeat split; auto.
  - eapply Permutation_NoDup; [symmetry; exact Hp | apply first_seen_NoDup].
  - intros c t Hin.
    apply (Permutation_in _ (order_items_perm obt rd)) in Hin.
    destruct (collect_In _ _ _ _ _ E Hin) as (values & Hv & Hf).
    destruct (view_In proj _ _ _ _ Hstore Hv) as [-> _]. exact Hf.
Qed.

Hypothesis f_count : forall values t, f values = Ok t -> snd t = len values.

Lemma script_items_count obt items :
  fst (report_items report_value obt s) = Ok items ->
  items_of_script calls items.
Proof.
  intros H. destruct (script_items _ _ H) as (rd & _ & _ & _ & _ & Hp & Hf).
  split; auto. intros [c t] Hin. simpl.
  rewrite (f_count _ _ (Hf c t Hin)). unfold count_adds, len.
  rewrite length_map. reflexivity.
Qed.

Lemma script_sorted_by_count items :
  fst (report_items report_value false s) = Ok items ->
  sorted_by_count calls items.
Proof.
  intros H. pose proof (script_items_count _ _ H) as [_ Hcount].
  destruct (script_items _ _ H) as (rd & _ & -> & Hk & _ & _ & _).
  split.
  - intros l1 a l2 b l3 Hsplit. unfold order_items in Hsplit.
    pose proof (sorted_key_descending (fun x => - snd (snd x)) rd) as Hs.
    pose proof (StronglySorted_split _ _ Hs _ _ _ _ _ Hsplit) as Hle.
    cbv beta in Hle.
    assert (Ha : In a (order_items false rd)).
    { unfold order_items. rewrite Hsplit.
      apply in_or_app; right; left; reflexivity. }
    assert (Hb : In b (order_items false rd)).
    { unfold order_items. rewrite Hsplit. apply in_or_app; right; right.
      apply in_or_app; right; left; reflexivity. }
    rewrite <- (Hcount a Ha), <- (Hcount b Hb).
    unfold value_tuple in *. lia.
  - intros k. rewrite <- Hk, !filter_map_fst. f_equal.
    unfold order_items in *.
    assert (Hkey : forall a : text * value_tuple,
               In a rd ->
               (count_adds (fst a) calls =? k) = (- snd (snd a) =? - k)).
    { intros a Ha. rewrite <- (Hcount a).
      - destruct (Z.eqb_spec (- snd (snd a)) (- k)),
          (Z.eqb_spec (snd (snd a)) k); auto; lia.
      - eapply Permutation_in; [symmetry; apply sorted_perm | exact Ha]. }
    transitivity
      (filter (fun x : text * value_tuple => - snd (snd x) =? - k)
         (sorted_key (fun x : text * value_tuple => - snd (snd x)) rd)).
    + apply filter_ext_in. intros a Ha. apply Hkey.
      eapply Permutation_in; [apply sorted_perm | exact Ha].
    + rewrite (sorted_key_stable (fun x : text * value_tuple => - snd (snd x))).
      symmetry. apply filter_ext_in. exact Hkey.
Qed.

Lemma script_sorted_by_title items :
  fst (report_items report_value true s) = Ok items ->
  sorted_by_title items.
Proof.
  intros H. destruct (script_items _ _ H) as (rd & _ & -> & Hk & _ & _ & _).
  apply sorted_by_title_keys. rewrite Hk. apply first_seen_NoDup.
Qed.

Lemma script_lines indent obt show now items :
  fst (report_items report_value obt s) = Ok items ->
  fst (report_lines report_value indent obt show now s)
  = Ok (lines_of indent show (now - _start_time s)
          (dict_is_empty (self s)) items).
Proof.
  intros H. pose proof (store_of_keys_NoDup _ _ _ Hstore) as Hnd.
  rewrite (report_items_eq _ f report_value_eq) in H by assumption.
  rewrite (report_lines_eq _ f report_value_eq) by assumption.
  destruct (collect f (view s)); simpl in *; [|discriminate].
  inversion H; reflexivity.
Qed.
End ReportOfScript.

Lemma Stats_items py_repr obt s :
  NoDup (dict_keys (self s)) ->
  exists items,
    fst (report_items (Stats_report_value py_repr) obt s) = Ok items.
Proof.
  intros Hnd.
  rewrite (report_items_eq _ _ (Stats_report_value_eq py_repr)) by assumption.
  rewrite (collect_total _ (fun value =>
             (limit (str_int (len value) ++ u " " ++ repr_list py_repr value),
              len value))) by reflexivity.
  simpl. eauto.
Qed.

Lemma Stats_summary_count py_repr values t :
  Stats_summary py_repr values = Ok t -> snd t = len values.
Proof. unfold Stats_summary. intros H; inversion H; reflexivity. Qed.

Lemma StatsWithSum_summary_count py_repr values t :
  StatsWithSum_summary py_repr values = Ok t -> snd t = len values.
Proof.
  unfold StatsWithSum_summary.
  destruct (sum_nums (PInt 0) values); simpl; [|discriminate].
  intros H; inversion H; reflexivity.
Qed.

Lemma store_not_empty {V} (proj : V -> pyval) calls s c :
  store_of proj calls s -> dict_contains c (self s) = true ->
  dict_is_empty (self s) = false.
Proof.
  intros _ H. unfold dict_contains in H.
  destruct (self s); [discriminate | reflexivity].
Qed.

Lemma store_lazy_independent {V : Type} (proj : V -> pyval)
    (add : text -> V -> M string) (calls : list (text * V)) (s : state) :
  (forall c v s, snd (add c v s) = recorded c (proj v) s) ->
  store_of proj calls s -> lazy_independent proj add calls s.
Proof.
  intros Hadd Hstore. pose proof (store_of_keys_NoDup _ _ _ Hstore) as Hnd.
  unfold lazy_independent. repeat apply conj.
  - intros c. rewrite values_of_nil_iff, dict_contains_In,
      (so_keys _ _ _ Hstore), first_seen_In.
    split; [tauto|]. intros H.
    destruct (in_dec (list_eq_dec N.eq_dec) c (categories calls)); tauto.
  - intros c l Hget. destruct (so_values _ _ _ Hstore c l Hget) as [Hl Hh].
    split; [exact Hh|]. unfold _init_value. lia.
  - apply (so_init_value _ _ _ Hstore).
  - intros c1 c2 l1 l2 H1 H2 Hne ->. apply Hne.
    apply (NoDup_snd_inj (self s) c1 c2 l2 (so_separate _ _ _ Hstore));
      apply dict_get_In; assumption.
  - intros c Hnone. exists (next_loc s).
    unfold _init_category, bind, contains, deepcopy, setitem, ret,
      dict_contains.
    rewrite Hnone. simpl.
    pose proof (so_next _ _ _ Hstore) as Hnext.
    rewrite dict_get_set_same, heap_set_same, (so_init_value _ _ _ Hstore).
    repeat apply conj; auto.
    + unfold _init_value. lia.
    + rewrite heap_set_other by (unfold _init_value; lia).
      apply (so_init_value _ _ _ Hstore).
    + intros c' l' Hget.
      destruct (so_values _ _ _ Hstore c' l' Hget) as [Hl Hh].
      repeat apply conj; [lia | | apply heap_set_other; lia].
      rewrite dict_get_set_other; [exact Hget | congruence].
  - intros c v. cbv zeta. rewrite Hadd.
    pose proof (store_of_recorded proj calls s c v Hstore) as Hstore'.
    assert (Hkeep : forall c' l', c' <> c ->
               dict_get c' (self s) = Some l' ->
               dict_get c' (self (recorded c (proj v) s)) = Some l').
    { intros c' l' Hne Hget. unfold recorded.
      destruct (dict_get c (self s)); simpl; auto.
      rewrite dict_get_set_other; auto. }
    repeat apply conj.
    + apply (so_init_value _ _ _ Hstore').
    + destruct (dict_get c (self (recorded c (proj v) s))) as [l|] eqn:Hget.
      * exists l. split; [reflexivity|].
        destruct (so_values _ _ _ Hstore' c l Hget) as [_ ->].
        rewrite values_of_snoc. simpl. rewrite text_eqb_refl, map_app.
        reflexivity.
      * apply (so_absent _ _ _ Hstore') in Hget.
        rewrite values_of_snoc in Hget. simpl in Hget.
        rewrite text_eqb_refl in Hget.
        destruct (values_of c calls); discriminate.
    + intros c' l' Hne Hget. split; [apply Hkeep; assumption|].
      destruct (so_values _ _ _ Hstore c' l' Hget) as [_ ->].
      destruct (so_values _ _ _ Hstore' c' l' (Hkeep _ _ Hne Hget)) as [_ ->].
      rewrite values_of_snoc. simpl.
      replace (text_eqb c c') with false; [rewrite app_nil_r; reflexivity|].
      symmetry. apply text_eqb_neq. congruence.
Qed.

(** ** The sum of a category *)

Lemma sum_nums_pack (l : list (pyval * pyval)) : forall acc,
  sum_nums acc (List.map pack l) = sum_from acc (List.map snd l).
Proof.
  induction l as [|[a b] l IH]; intros acc; simpl; [reflexivity|].
  destruct (py_add acc b); simpl; [apply IH | reflexivity].
Qed.

Lemma sum_from_app (l1 l2 : list pyval) : forall acc,
  sum_from acc (l1 ++ l2)
  = rbind (sum_from acc l1) (fun acc' => sum_from acc' l2).
Proof.
  induction l1 as [|x l1 IH]; intros acc; simpl; [reflexivity|].
  destruct (py_add acc x); simpl; [apply IH | reflexivity].
Qed.

Lemma py_add_error a b e : py_add a b = Raise e -> summation_error e.
Proof.
  unfold summation_error.
  destruct a, b; simpl; try (intros H; inversion H; auto; fail);
    match goal with
    | |- context [float_of_int ?z] => destruct (float_of_int z)
    end; intros H; inversion H; auto.
Qed.

Lemma py_add_number a b r :
  is_number a = true -> py_add a b = Ok r -> is_number r = true.
Proof.
  destruct a, b; simpl; try discriminate;
    try (intros _ H; inversion H; reflexivity);
    match goal with
    | |- context [float_of_int ?z] => destruct (float_of_int z)
    end; intros _ H; inversion H; reflexivity.
Qed.

Lemma py_add_non_number a b :
  is_number a = true -> is_number b = false -> py_add a b = Raise TypeError.
Proof. destruct a, b; simpl; try discriminate; reflexivity. Qed.

Lemma sum_from_error (nums : list pyval) : forall acc e,
  sum_from acc nums = Raise e -> summation_error e.
Proof.
  induction nums as [|x nums IH]; intros acc e; simpl; [discriminate|].
  destruct (py_add acc x) as [acc'|e'] eqn:E; simpl.
  - apply IH.
  - intros H; inversion H; subst. eapply py_add_error; eauto.
Qed.

Lemma sum_from_number (nums : list pyval) : forall acc r,
  is_number acc = true -> sum_from acc nums = Ok r -> is_number r = true.
Proof.
  induction nums as [|x nums IH]; intros acc r Hacc; simpl.
  - intros H; inversion H; subst; assumption.
  - destruct (py_add acc x) as [acc'|e'] eqn:E; simpl; [|discriminate].
    apply IH. exact (py_add_number acc x acc' Hacc E).
Qed.

Lemma sum_from_TypeError (nums : list pyval) : forall acc,
  is_number acc = true -> sum_from acc nums = Raise TypeError ->
  forallb is_number nums = false.
Proof.
  induction nums as [|x nums IH]; intros acc Hacc; simpl; [discriminate|].
  destruct (is_number x) eqn:Hx; [|reflexivity]. simpl.
  destruct (py_add acc x) as [acc'|e'] eqn:E; simpl.
  - apply IH. exact (py_add_number acc x acc' Hacc E).
  - intros H; inversion H; subst. exfalso.
    destruct acc, x; simpl in *; try discriminate;
      match type of E with
      | context [float_of_int ?z] => destruct (float_of_int z)
      end; discriminate.
Qed.

Lemma sum_from_non_number (nums : list pyval) : forall acc,
  is_number acc = true -> forallb is_number nums = false ->
  exists e, sum_from acc nums = Raise e.
Proof.
  induction nums as [|x nums IH]; intros acc Hacc; simpl; [discriminate|].
  destruct (is_number x) eqn:Hx; simpl.
  - intros Hn. destruct (py_add acc x) as [acc'|e'] eqn:E; simpl; [|eauto].
    apply IH; [exact (py_add_number acc x acc' Hacc E) | exact Hn].
  - intros _. rewrite (py_add_non_number _ _ Hacc Hx). simpl. eauto.
Qed.

Lemma sum_from_no_float (nums : list pyval) : forall z,
  forallb (fun v => negb (is_float v)) nums = true ->
  sum_from (PInt z) nums
  = if forallb is_int nums
    then Ok (PInt (z + arithmetic_sum (List.map int_of nums)))
    else Raise TypeError.
Proof.
  induction nums as [|x nums IH]; intros z; simpl.
  - intros _. rewrite Z.add_0_r. reflexivity.
  - intros H. apply andb_true_iff in H. destruct H as [Hx Hn].
    destruct x; simpl in *; try discriminate; try reflexivity.
    rewrite (IH _ Hn). destruct (forallb is_int nums); [|reflexivity].
    rewrite Z.add_assoc. reflexivity.
Qed.

Lemma number_sum_from_None (nums : list number) :
  number_sum_from None nums = None.
Proof. induction nums as [|x nums IH]; simpl; auto. Qed.

Lemma sum_from_numbers (nums : list number) : forall a,
  sum_from (value_of a) (List.map value_of nums)
  = match number_sum_from (Some a) nums with
    | Some total => Ok (value_of total)
    | None => Raise OverflowError
    end.
Proof.
  induction nums as [|x nums IH]; intros a; [reflexivity|].
  cbn [List.map sum_from number_sum_from List.fold_left].
  fold (number_sum_from (number_add a x) nums).
  destruct a as [p|p], x as [q|q]; cbn [value_of py_add number_add];
    try (cbn [rbind]; apply (IH (NInt _)));
    try (cbn [rbind]; apply (IH (NFloat _)));
    match goal with
    | |- context [float_of_int ?z] => destruct (float_of_int z)
    end; cbn [rbind option_map];
    try apply (IH (NFloat _));
    rewrite number_sum_from_None; reflexivity.
Qed.

Lemma number_sum_ints (zs : list Z) : forall z,
  number_sum_from (Some (NInt z)) (List.map NInt zs)
  = Some (NInt (z + arithmetic_sum zs)).
Proof.
  induction zs as [|x zs IH]; intros z.
  - simpl. rewrite Z.add_0_r. reflexivity.
  - change (number_sum_from (Some (NInt z)) (List.map NInt (x :: zs)))
      with (number_sum_from (Some (NInt (z + x))) (List.map NInt zs)).
    rewrite IH. unfold arithmetic_sum. simpl. rewrite Z.add_assoc.
    reflexivity.
Qed.

Lemma StatsWithSum_summary_pack py_repr (pairs : list (pyval * pyval)) :
  StatsWithSum_summary py_repr (List.map pack pairs)
  = rbind (sum_from (PInt 0) (List.map snd pairs)) (fun total =>
      Ok (limit (str_int (len pairs) ++ u " total=" ++ py_str py_repr total
                   ++ u " " ++ repr_list py_repr (List.map pack pairs)),
          len pairs)).
Proof.
  unfold StatsWithSum_summary. rewrite sum_nums_pack.
  unfold len. rewrite length_map. reflexivity.
Qed.

Lemma collect_Ok f v :
  (forall e, In e v -> exists t, f (snd e) = Ok t) ->
  exists rd, collect f v = Ok rd.
Proof.
  induction v as [|[c values] v IH]; intros H; simpl; [eauto|].
  destruct (H (c, values) (or_introl eq_refl)) as [t Ht]. simpl in Ht.
  rewrite Ht. simpl.
  destruct IH as [rd ->]; [intros e He; apply H; right; exact He|].
  simpl. eauto.
Qed.

Lemma collect_Raise f v err :
  (forall e, In e v -> f (snd e) = Raise err \/ exists t, f (snd e) = Ok t) ->
  (exists e, In e v /\ f (snd e) = Raise err) ->
  collect f v = Raise err.
Proof.
  induction v as [|[c values] v IH]; intros Hall (e & He & Hr); simpl.
  - destruct He.
  - destruct (Hall (c, values) (or_introl eq_refl)) as [Hc|[t Hc]];
      simpl in Hc; rewrite Hc; simpl; [reflexivity|].
    rewrite IH; [reflexivity| |].
    + intros e' He'. apply Hall. right; exact He'.
    + destruct He as [<-|He]; [simpl in Hr; congruence|]. eauto.
Qed.

Lemma store_get_cases {V} (proj : V -> pyval) calls s c :
  store_of proj calls s ->
  match values_of c calls with
  | [] => dict_get c (self s) = None
  | _ :: _ =>
      exists l, dict_get c (self s) = Some l
                /\ heap s l = List.map proj (values_of c calls)
  end.
Proof.
  intros H. destruct (dict_get c (self s)) as [l|] eqn:E.
  - destruct (so_values _ _ _ H c l E) as [_ Hh].
    destruct (values_of c calls) eqn:Ev; [|eauto].
    exfalso. apply (proj1 (values_of_nil_iff c calls)) in Ev. apply Ev.
    apply (proj1 (first_seen_In _ _)). rewrite <- (so_keys _ _ _ H).
    apply dict_get_In in E. apply (in_map fst) in E. exact E.
  - rewrite (so_absent _ _ _ H c E). reflexivity.
Qed.

Lemma StatsWithSum_report_value_script py_repr
    (calls : list (text * (pyval * pyval))) (start : Z) (c : text) :
  let s := StatsWithSum_run py_repr calls (StatsCount_init start) in
  StatsWithSum_report_value py_repr c s
  = match values_of c calls with
    | [] => (Raise KeyError, s)
    | pairs => (StatsWithSum_summary py_repr (List.map pack pairs), s)
    end.
Proof.
  intros s. pose proof (StatsWithSum_run_store py_repr calls start) as Hstore.
  fold s in Hstore. rewrite StatsWithSum_report_value_eq.
  pose proof (store_get_cases _ _ _ c Hstore) as H.
  destruct (values_of c calls) as [|v vs] eqn:Ev.
  - rewrite H. reflexivity.
  - destruct H as (l & -> & ->). reflexivity.
Qed.

Lemma values_of_numeric_call (c : text)
    (calls : list (text * (pyval * number))) :
  List.map snd (values_of c (List.map numeric_call calls))
  = List.map value_of (List.map snd (values_of c calls)).
Proof.
  unfold numeric_call.
  rewrite (values_of_map
             (fun p : pyval * number => (fst p, value_of (snd p)))).
  rewrite !map_map. reflexivity.
Qed.

Lemma count_adds_numeric_call (c : text)
    (calls : list (text * (pyval * number))) :
  count_adds c (List.map numeric_call calls) = count_adds c calls.
Proof.
  unfold count_adds, numeric_call, len.
  rewrite (values_of_map
             (fun p : pyval * number => (fst p, value_of (snd p)))).
  rewrite length_map. reflexivity.
Qed.

Lemma StatsWithSum_summary_numbers py_repr (c : text)
    (calls : list (text * (pyval * number))) :
  StatsWithSum_summary py_repr
    (List.map pack (values_of c (List.map numeric_call calls)))
  = match number_sum (List.map snd (values_of c calls)) with
    | Some total =>
        Ok (limit (str_int (count_adds c calls) ++ u " total="
                     ++ py_str py_repr (value_of total) ++ u " "
                     ++ repr_list py_repr
                          (List.map pack
                             (values_of c (List.map numeric_call calls)))),
            count_adds c calls)
    | None => Raise OverflowError
    end.
Proof.
  rewrite StatsWithSum_summary_pack, values_of_numeric_call.
  change (PInt 0) with (value_of (NInt 0)). rewrite sum_from_numbers.
  fold (number_sum (List.map snd (values_of c calls))).
  destruct (number_sum (List.map snd (values_of c calls))); [|reflexivity].
  cbn [rbind].
  fold (count_adds c (List.map numeric_call calls)).
  rewrite count_adds_numeric_call. reflexivity.
Qed.

Lemma values_of_In {V} (calls : list (text * V)) x :
  In x calls -> In (snd x) (values_of (fst x) calls).
Proof.
  intros H. unfold values_of. apply in_map. apply filter_In.
  split; [exact H | apply text_eqb_refl].
Qed.

Lemma values_of_forallb {V} (p : V -> bool) (calls : list (text * V)) c :
  forallb (fun x => p (snd x)) calls = true ->
  forallb p (values_of c calls) = true.
Proof.
  rewrite !forallb_forall. intros H v Hv. unfold values_of in Hv.
  apply in_map_iff in Hv. destruct Hv as (x & <- & Hx).
  apply filter_In in Hx. apply H. tauto.
Qed.

Lemma report_of_collect report_value f indent obt show now s :
  (forall c s,
      report_value c s
      = match dict_get c (self s) with
        | Some l => (f (heap s l), s)
        | None => (Raise KeyError, s)
        end) ->
  NoDup (dict_keys (self s)) ->
  report report_value indent obt show now s
  = (rbind (collect f (view s))
       (fun rd =>
          Ok (join newline
                (lines_of indent show (now - _start_time s)
                   (dict_is_empty (self s)) (order_items obt rd)))), s).
Proof.
  intros Heq Hnd. rewrite report_eq.
  rewrite (report_lines_eq _ _ Heq) by assumption.
  destruct (collect f (view s)); reflexivity.
Qed.

Lemma forallb_map {A B} (g : A -> B) (p : B -> bool) (l : list A) :
  forallb p (List.map g l) = forallb (fun x => p (g x)) l.
Proof. induction l as [|x l IH]; simpl; [reflexivity | rewrite IH; reflexivity]. Qed.

Lemma view_script {V} (proj : V -> pyval) calls s :
  store_of proj calls s ->
  view s = List.map (fun k => (k, List.map proj (values_of k calls)))
             (first_seen (categories calls)).
Proof.
  intros H. rewrite <- (so_keys _ _ _ H). unfold view, dict_keys.
  rewrite map_map. apply map_ext_in. intros [k l] Hin. simpl.
  destruct (so_values _ _ _ H k l) as [_ ->]; [|reflexivity].
  apply dict_In_get; [apply (store_of_keys_NoDup _ _ _ H) | exact Hin].
Qed.

Lemma collect_error f v e :
  collect f v = Raise e -> exists x, In x v /\ f (snd x) = Raise e.
Proof.
  induction v as [|[c values] v IH]; simpl; [discriminate|].
  destruct (f values) as [t|e'] eqn:E; simpl.
  - destruct (collect f v) as [rest|e'']; simpl; [discriminate|].
    intros H; inversion H; subst.
    destruct (IH eq_refl) as (x & Hx & Hr). exists x. auto.
  - intros H; inversion H; subst. exists (c, values). auto.
Qed.

Lemma collect_fails f v x e :
  In x v -> f (snd x) = Raise e -> exists e', collect f v = Raise e'.
Proof.
  induction v as [|[c values] v IH]; simpl; [intros []|].
  intros [<-|Hin] Hr.
  - simpl in Hr. rewrite Hr. simpl. eauto.
  - destruct (f values); simpl; [|eauto].
    destruct (IH Hin Hr) as [e' ->]. simpl. eauto.
Qed.

Lemma collect_snoc_Ok f v c values t e :
  f values = Ok t ->
  collect f (v ++ [(c, values)]) = Raise e -> collect f v = Raise e.
Proof.
  intros Ht. induction v as [|[c' values'] v IH]; simpl.
  - rewrite Ht. discriminate.
  - destruct (f values'); simpl; [|auto].
    destruct (collect f (v ++ [(c, values)])); simpl; [discriminate|].
    intros H; inversion H; subst. rewrite (IH eq_refl). reflexivity.
Qed.

(** The failure of a report after the list of one category, [c], has
    changed into one whose summary fails: it is the failure of the report
    before, unless that of [c] comes first. *)
Lemma collect_changed_key f (G G' : text -> list pyval) (c : text) (e : exn)
    (K : list text) :
  (forall k, k <> c -> G' k = G k) ->
  (forall t, f (G' c) <> Ok t) ->
  (f (G' c) = Raise e -> f (G c) = Raise e) ->
  collect f (List.map (fun k => (k, G' k)) K) = Raise e ->
  collect f (List.map (fun k => (k, G k)) K) = Raise e.
Proof.
  intros Hother Hfail Hsame. induction K as [|k K IH]; simpl; [discriminate|].
  destruct (text_eqb k c) eqn:E.
  - apply text_eqb_eq in E. subst k.
    destruct (f (G' c)) as [t|e'] eqn:E'; [destruct (Hfail t); reflexivity|].
    simpl. intros H; inversion H; subst. rewrite (Hsame eq_refl).
    reflexivity.
  - apply text_eqb_neq in E. rewrite (Hother k E).
    destruct (f (G k)); simpl; [|auto].
    destruct (collect f (List.map (fun k0 => (k0, G' k0)) K)) eqn:E1; simpl;
      [discriminate|].
    intros H; inversion H; subst. rewrite (IH eq_refl). reflexivity.
Qed.

Lemma StatsWithSum_summary_error py_repr (pairs : list (pyval * pyval)) e :
  StatsWithSum_summary py_repr (List.map pack pairs) = Raise e ->
  summation_error e.
Proof.
  rewrite StatsWithSum_summary_pack.
  destruct (sum_from (PInt 0) (List.map snd pairs)) eqn:E; simpl;
    [discriminate|].
  intros H; inversion H; subst. eapply sum_from_error; eauto.
Qed.

(** The summary of a list that ends with a pair whose number cannot be
    summed. *)
Lemma StatsWithSum_summary_non_number py_repr
    (pairs : list (pyval * pyval)) (id_ v : pyval) :
  is_number v = false ->
  StatsWithSum_summary py_repr (List.map pack (pairs ++ [(id_, v)]))
  = match sum_from (PInt 0) (List.map snd pairs) with
    | Ok _ => Raise TypeError
    | Raise e => Raise e
    end.
Proof.
  intros Hv. rewrite StatsWithSum_summary_pack, map_app, sum_from_app.
  destruct (sum_from (PInt 0) (List.map snd pairs)) as [acc|e] eqn:E;
    [|reflexivity].
  cbn [rbind List.map snd sum_from].
  rewrite (py_add_non_number acc v); [reflexivity| |exact Hv].
  eapply sum_from_number; [|exact E]. reflexivity.
Qed.

Lemma StatsWithSum_summary_no_float py_repr (pairs : list (pyval * pyval)) :
  forallb (fun p => negb (is_float (snd p))) pairs = true ->
  StatsWithSum_summary py_repr (List.map pack pairs) = Raise TypeError
  \/ exists t, StatsWithSum_summary py_repr (List.map pack pairs) = Ok t.
Proof.
  intros H. rewrite StatsWithSum_summary_pack.
  rewrite sum_from_no_float by (rewrite forallb_map; exact H).
  destruct (forallb is_int (List.map snd pairs)); simpl; eauto.
Qed.

(** * The claims *)

(** C1.  After any sequence of [add] calls on a new [Stats], for a category
    [c] the store holds, and given that the number [n] of calls made with
    [c] is a length a list can have: the report succeeds, its items hold
    exactly one item for [c], the number to sort by is [n], the summary
    starts with the numeral of [n] followed by a space, and the line of [c]
    is the indent, [c], [": "] and that summary. *)
Theorem C1_reported_count (py_repr : pyval -> text)
    (calls : list (text * pyval)) (start : Z) (c : text)
    (indent : Z) (order_by_title show_time_taken : bool) (now : Z) :
  let s := Stats_run py_repr calls (StatsCount_init start) in
  let n := count_adds c calls in
  dict_contains c (self s) = true ->
  n <= sys_maxsize ->
  exists items value_str,
    fst (report_items (Stats_report_value py_repr) order_by_title s)
    = Ok items
    /\ fst (report_lines (Stats_report_value py_repr) indent order_by_title
              show_time_taken now s)
       = Ok (List.map (category_line (str_mul tab indent)) items
             ++ if show_time_taken
                then [time_line (str_mul tab indent) (now - start)] else [])
    /\ In (c, (value_str, n)) items
    /\ (forall v, In (c, v) items -> v = (value_str, n))
    /\ count_shown value_str n
    /\ category_line (str_mul tab indent) (c, (value_str, n))
       = str_mul tab indent ++ c ++ u ": " ++ value_str.
Proof.
  intros s n Hc Hn.
  pose proof (Stats_run_store py_repr calls start) as Hstore. fold s in Hstore.
  pose proof (store_of_keys_NoDup _ _ _ Hstore) as Hnd.
  destruct (Stats_items py_repr order_by_title s Hnd) as [items Hitems].
  destruct (script_items _ _ _ (Stats_report_value_eq py_repr) _ _ Hstore
              _ _ Hitems) as (rd & _ & _ & _ & Hndi & Hperm & Hf).
  assert (Hin : In c (List.map fst items)).
  { eapply Permutation_in; [symmetry; exact Hperm|].
    rewrite <- (so_keys _ _ _ Hstore). apply dict_contains_In. exact Hc. }
  apply in_map_iff in Hin. destruct Hin as ([c' t] & Hc' & Hin).
  simpl in Hc'. subst c'.
  pose proof (Hf c t Hin) as Ht. unfold Stats_summary in Ht.
  rewrite map_id in Ht. fold (count_adds c calls) in Ht. fold n in Ht.
  destruct (limit_prefix (str_int n ++ u " ")
              (repr_list py_repr (values_of c calls))) as [rest Hrest].
  { rewrite len_app. unfold report_value_limit.
    pose proof (str_int_count_length n) as Hl.
    unfold len at 1. change (len (u " ")) with 1.
    assert (0 <= n) by apply len_nonneg. lia. }
  rewrite <- !app_assoc in Hrest. rewrite Hrest in Ht.
  injection Ht as Et. subst t.
  exists items, (str_int n ++ u " " ++ rest).
  split; [exact Hitems|]. split.
  - rewrite (script_lines _ _ _ (Stats_report_value_eq py_repr) _ _ Hstore
               _ _ _ _ _ Hitems).
    rewrite (store_not_empty _ _ _ _ Hstore Hc).
    unfold s at 1. rewrite Stats_run_start_time. reflexivity.
  - split; [exact Hin|]. split.
    + intros v Hv. exact (NoDup_fst_unique _ _ _ _ Hndi Hv Hin).
    + split; [exists rest; reflexivity | reflexivity].
Qed.

(** C2.  In every state and for every category and value, [Stats.add]
    returns the ASCII encoding of ['%s: %s' % (category, value)]: the
    encoded category, [": "] and the encoded value; [StatsWithSum.add]
    returns the same for ['%s: %s %s' % (category, id_, float_to_sum)].  The
    bytes of an encoding are the code points below 128 of the text, in their
    order, and nothing stands for the others.  [add('deleted', 'café')]
    returns ["deleted: caf"]. *)
Theorem C2_add_returns_ascii (py_repr : pyval -> text) :
  (forall category value s,
      fst (Stats_add py_repr category value s)
      = Ok (encode_ascii_ignore category ++ ": "
            ++ encode_ascii_ignore (py_str py_repr value))%string)
  /\ (forall category id_ float_to_sum s,
        fst (StatsWithSum_add py_repr category id_ float_to_sum s)
        = Ok (encode_ascii_ignore category ++ ": "
              ++ encode_ascii_ignore (py_str py_repr id_) ++ " "
              ++ encode_ascii_ignore (py_str py_repr float_to_sum))%string)
  /\ (forall t : text, bytes_of (encode_ascii_ignore t) = filter is_ascii t)
  /\ (forall s,
        fst (Stats_add py_repr (u "deleted") (PText (u "caf" ++ [233%N])) s)
        = Ok "deleted: caf"%string).
Proof.
  split; [|split; [|split]].
  - intros. rewrite Stats_add_eq. cbn [fst]. rewrite !encode_app. reflexivity.
  - intros. rewrite StatsWithSum_add_eq. cbn [fst]. rewrite !encode_app.
    reflexivity.
  - apply bytes_of_encode.
  - intros. rewrite Stats_add_eq. reflexivity.
Qed.

(** C3, as amended.  After any sequence of [add] calls with numbers,
    integers or floats, on a new [StatsWithSum], for a category [c] the
    store holds, with [n] the number of its calls and [total] the sum of its
    numbers by simple addition, which is the exact sum when they are
    integers: given that the sum is defined and that [<n> total=<total>] and
    the space after it fit in the limit of 150 characters, [report_value]
    returns for [c] a summary that is the numeral of [n], [" total="], the
    text of [total], a space, and the rest; every report that succeeds holds
    exactly that one item for [c] and shows it in the line of [c]; and the
    report succeeds when the sum of every category is defined. *)
Theorem C3_total_is_sum_within_limit (py_repr : pyval -> text)
    (calls : list (text * (pyval * number))) (start : Z) (c : text)
    (total : number)
    (indent : Z) (order_by_title show_time_taken : bool) (now : Z) :
  let s := StatsWithSum_run py_repr (List.map numeric_call calls)
             (StatsCount_init start) in
  let n := count_adds c calls in
  dict_contains c (self s) = true ->
  number_sum (List.map snd (values_of c calls)) = Some total ->
  len (str_int n ++ u " total=" ++ py_str py_repr (value_of total) ++ u " ")
  <= report_value_limit ->
  exists value_str,
    StatsWithSum_report_value py_repr c s = (Ok (value_str, n), s)
    /\ total_shown value_str n (py_str py_repr (value_of total))
    /\ (forall zs, List.map snd (values_of c calls) = List.map NInt zs ->
          total = NInt (arithmetic_sum zs))
    /\ (forall items,
          fst (report_items (StatsWithSum_report_value py_repr)
                 order_by_title s) = Ok items ->
          In (c, (value_str, n)) items
          /\ (forall v, In (c, v) items -> v = (value_str, n))
          /\ fst (report_lines (StatsWithSum_report_value py_repr) indent
                    order_by_title show_time_taken now s)
             = Ok (List.map (category_line (str_mul tab indent)) items
                   ++ if show_time_taken
                      then [time_line (str_mul tab indent) (now - start)]
                      else []))
    /\ ((forall c', number_sum (List.map snd (values_of c' calls)) <> None) ->
          exists items,
            fst (report_items (StatsWithSum_report_value py_repr)
                   order_by_title s) = Ok items).
Proof.
  intros s n Hc Hsum Hfit.
  pose proof (StatsWithSum_run_store py_repr (List.map numeric_call calls)
                start) as Hstore. fold s in Hstore.
  pose proof (store_of_keys_NoDup _ _ _ Hstore) as Hnd.
  pose proof (StatsWithSum_summary_numbers py_repr c calls) as Hsummary.
  rewrite Hsum in Hsummary. fold n in Hsummary.
  destruct (limit_prefix
              (str_int n ++ u " total=" ++ py_str py_repr (value_of total)
                 ++ u " ")
              (repr_list py_repr
                 (List.map pack (values_of c (List.map numeric_call calls)))))
    as [rest Hrest]; [exact Hfit|].
  rewrite <- !app_assoc in Hrest. rewrite Hrest in Hsummary.
  exists (str_int n ++ u " total=" ++ py_str py_repr (value_of total)
            ++ u " " ++ rest).
  split; [|split; [|split; [|split]]].
  - unfold s. rewrite StatsWithSum_report_value_script. fold s.
    pose proof (store_get_cases _ _ _ c Hstore) as Hget.
    destruct (values_of c (List.map numeric_call calls)) as [|v vs] eqn:Ev.
    + unfold dict_contains in Hc. rewrite Hget in Hc. discriminate.
    + rewrite Hsummary. reflexivity.
  - exists rest. reflexivity.
  - intros zs Hzs. unfold number_sum in Hsum. rewrite Hzs in Hsum.
    rewrite number_sum_ints in Hsum. injection Hsum as <-. reflexivity.
  - intros items Hitems.
    destruct (script_items _ _ _ (StatsWithSum_report_value_eq py_repr) _ _
                Hstore _ _ Hitems) as (_ & _ & _ & _ & Hndi & Hperm & Hf).
    assert (Hin : In c (List.map fst items)).
    { eapply Permutation_in; [symmetry; exact Hperm|].
      rewrite <- (so_keys _ _ _ Hstore). apply dict_contains_In. exact Hc. }
    apply in_map_iff in Hin. destruct Hin as ([c' t] & Hc' & Hin).
    simpl in Hc'. subst c'.
    pose proof (Hf c t Hin) as Ht. rewrite Hsummary in Ht.
    injection Ht as Et. subst t.
    split; [exact Hin|]. split.
    + intros v Hv. exact (NoDup_fst_unique _ _ _ _ Hndi Hv Hin).
    + rewrite (script_lines _ _ _ (StatsWithSum_report_value_eq py_repr) _ _
                 Hstore _ _ _ _ _ Hitems).
      rewrite (store_not_empty _ _ _ _ Hstore Hc).
      unfold s at 1. rewrite StatsWithSum_run_start_time. reflexivity.
  - intros Hall.
    destruct (collect_Ok (StatsWithSum_summary py_repr) (view s)) as [rd Hrd].
    { intros [c' values] Hin. simpl.
      destruct (view_In pack _ _ _ _ Hstore Hin) as [-> _].
      rewrite StatsWithSum_summary_numbers.
      destruct (number_sum (List.map snd (values_of c' calls))) eqn:E;
        [eauto | destruct (Hall c' E)]. }
    exists (order_items order_by_title rd).
    rewrite (report_items_eq _ _ (StatsWithSum_report_value_eq py_repr))
      by assumption. rewrite Hrd. reflexivity.
Qed.

(** C4.  With [order_by_title] false, after any sequence of [add] calls on
    a new [Stats] the report succeeds; its items hold each category once,
    with its number of calls; of two items the earlier has the count that
    is not smaller; and the categories of one count stand in the order in
    which the calls first named them, which is the order of iteration of
    the store.  The lines are the lines of the items, in their order.  On a
    [StatsWithSum] the same holds of every report that succeeds. *)
Theorem C4_sorted_by_count_stable (py_repr : pyval -> text) :
  (forall (calls : list (text * pyval)) (start : Z),
      let s := Stats_run py_repr calls (StatsCount_init start) in
      dict_keys (self s) = first_seen (categories calls)
      /\ exists items,
          fst (report_items (Stats_report_value py_repr) false s) = Ok items
          /\ items_of_script calls items
          /\ sorted_by_count calls items
          /\ forall indent show_time_taken now,
               fst (report_lines (Stats_report_value py_repr) indent false
                      show_time_taken now s)
               = Ok (lines_of indent show_time_taken (now - start)
                       (dict_is_empty (self s)) items))
  /\ (forall (calls : list (text * (pyval * pyval))) (start : Z) items,
        let s := StatsWithSum_run py_repr calls (StatsCount_init start) in
        fst (report_items (StatsWithSum_report_value py_repr) false s)
        = Ok items ->
        dict_keys (self s) = first_seen (categories calls)
        /\ items_of_script calls items
        /\ sorted_by_count calls items
        /\ forall indent show_time_taken now,
             fst (report_lines (StatsWithSum_report_value py_repr) indent
                    false show_time_taken now s)
             = Ok (lines_of indent show_time_taken (now - start)
                     (dict_is_empty (self s)) items)).
Proof.
  split.
  - intros calls start s.
    pose proof (Stats_run_store py_repr calls start) as Hstore.
    fold s in Hstore. split; [apply (so_keys _ _ _ Hstore)|].
    destruct (Stats_items py_repr false s (store_of_keys_NoDup _ _ _ Hstore))
      as [items Hitems].
    exists items. split; [exact Hitems|]. split; [|split].
    + eapply script_items_count; eauto using Stats_report_value_eq,
        Stats_summary_count.
    + eapply script_sorted_by_count; eauto using Stats_report_value_eq,
        Stats_summary_count.
    + intros. rewrite <- (Stats_run_start_time py_repr calls start).
      eapply script_lines; eauto using Stats_report_value_eq.
  - intros calls start items s Hitems.
    pose proof (StatsWithSum_run_store py_repr calls start) as Hstore.
    fold s in Hstore. split; [apply (so_keys _ _ _ Hstore)|]. split; [|split].
    + eapply script_items_count; eauto using StatsWithSum_report_value_eq,
        StatsWithSum_summary_count.
    + eapply script_sorted_by_count; eauto using StatsWithSum_report_value_eq,
        StatsWithSum_summary_count.
    + intros. rewrite <- (StatsWithSum_run_start_time py_repr calls start).
      eapply script_lines; eauto using StatsWithSum_report_value_eq.
Qed.

(** C5.  With [order_by_title] true, after any sequence of [add] calls on a
    new [Stats] the report succeeds; its items hold each category once, and
    of two items the earlier has the name that is smaller in the
    lexicographic order.  The lines are the lines of the items, in their
    order.  On a [StatsWithSum] the same holds of every report that
    succeeds. *)
Theorem C5_sorted_by_title (py_repr : pyval -> text) :
  (forall (calls : list (text * pyval)) (start : Z),
      let s := Stats_run py_repr calls (StatsCount_init start) in
      exists items,
        fst (report_items (Stats_report_value py_repr) true s) = Ok items
        /\ items_of_script calls items
        /\ sorted_by_title items
        /\ forall indent show_time_taken now,
             fst (report_lines (Stats_report_value py_repr) indent true
                    show_time_taken now s)
             = Ok (lines_of indent show_time_taken (now - start)
                     (dict_is_empty (self s)) items))
  /\ (forall (calls : list (text * (pyval * pyval))) (start : Z) items,
        let s := StatsWithSum_run py_repr calls (StatsCount_init start) in
        fst (report_items (StatsWithSum_report_value py_repr) true s)
        = Ok items ->
        items_of_script calls items
        /\ sorted_by_title items
        /\ forall indent show_time_taken now,
             fst (report_lines (StatsWithSum_report_value py_repr) indent
                    true show_time_taken now s)
             = Ok (lines_of indent show_time_taken (now - start)
                     (dict_is_empty (self s)) items)).
Proof.
  split.
  - intros calls start s.
    pose proof (Stats_run_store py_repr calls start) as Hstore.
    fold s in Hstore.
    destruct (Stats_items py_repr true s (store_of_keys_NoDup _ _ _ Hstore))
      as [items Hitems].
    exists items. split; [exact Hitems|]. split; [|split].
    + eapply script_items_count; eauto using Stats_report_value_eq,
        Stats_summary_count.
    + eapply script_sorted_by_title; eauto using Stats_report_value_eq.
    + intros. rewrite <- (Stats_run_start_time py_repr calls start).
      eapply script_lines; eauto using Stats_report_value_eq.
  - intros calls start items s Hitems.
    pose proof (StatsWithSum_run_store py_repr calls start) as Hstore.
    fold s in Hstore. split; [|split].
    + eapply script_items_count; eauto using StatsWithSum_report_value_eq,
        StatsWithSum_summary_count.
    + eapply script_sorted_by_title; eauto using StatsWithSum_report_value_eq.
    + intros. rewrite <- (StatsWithSum_run_start_time py_repr calls start).
      eapply script_lines; eauto using StatsWithSum_report_value_eq.
Qed.

(** C6.  The text of a summary is the built string cut by the limit rule:
    a built string of more than 150 characters is cut to exactly its first
    150 and the marker [...] is appended, any other is left as it is, so no
    summary is longer than 150 characters plus the marker; this holds for
    [Stats.report_value] and for [StatsWithSum.report_value], in every
    state. *)
Theorem C6_summary_truncated (py_repr : pyval -> text) :
  (forall built : text,
      (len built > 150 ->
       limit built = firstn 150 built ++ u "..."
       /\ len (firstn 150 built) = 150)
      /\ (len built <= 150 -> limit built = built)
      /\ len (limit built) <= 150 + len (u "..."))
  /\ (forall c s value_str n,
        fst (Stats_report_value py_repr c s) = Ok (value_str, n) ->
        len value_str <= 153
        /\ exists value,
             value_str
             = limit (str_int (len value) ++ u " " ++ repr_list py_repr value))
  /\ (forall c s value_str n,
        fst (StatsWithSum_report_value py_repr c s) = Ok (value_str, n) ->
        len value_str <= 153
        /\ exists values sum_of_nums,
             value_str
             = limit (str_int (len values) ++ u " total="
                        ++ py_str py_repr sum_of_nums ++ u " "
                        ++ repr_list py_repr values)).
Proof.
  split; [|split].
  - intros built. split; [apply limit_long|]. split; [apply limit_short|].
    apply limit_length.
  - intros c s value_str n. rewrite Stats_report_value_eq.
    destruct (dict_get c (self s)) as [l|]; simpl; [|discriminate].
    intros H; inversion H; subst. split; [apply limit_length|]. eauto.
  - intros c s value_str n. rewrite StatsWithSum_report_value_eq.
    destruct (dict_get c (self s)) as [l|]; simpl; [|discriminate].
    unfold StatsWithSum_summary.
    destruct (sum_nums (PInt 0) (heap s l)) as [t|]; simpl; [|discriminate].
    intros H; inversion H; subst. split; [apply limit_length|]. eauto.
Qed.

(** C7.  On a store that was constructed and never added to, the report
    succeeds whatever the variant; its lines are the single line
    [<indent>None], the indent being one tab per level, followed by the
    elapsed-time line exactly when the flag is set. *)
Theorem C7_empty_store_report
    (report_value : text -> M value_tuple) (start indent : Z)
    (order_by_title show_time_taken : bool) (now : Z) :
  let s := StatsCount_init start in
  let indent_str := List.repeat 9%N (Z.to_nat indent) in
  let lines :=
    (indent_str ++ u "None")
    :: (if show_time_taken
        then [indent_str ++ u "Time taken (h:m:s): "
                ++ Datetime.str_timedelta (now - start)]
        else []) in
  report_lines report_value indent order_by_title show_time_taken now s
  = (Ok lines, s)
  /\ report report_value indent order_by_title show_time_taken now s
     = (Ok (join newline lines), s).
Proof.
  cbv zeta. rewrite <- str_mul_tab.
  assert (H : report_lines report_value indent order_by_title show_time_taken
                now (StatsCount_init start)
              = (Ok ((str_mul tab indent ++ u "None")
                     :: (if show_time_taken
                         then [time_line (str_mul tab indent) (now - start)]
                         else [])), StatsCount_init start)).
  { unfold report_lines, report_items, bind, keys, not_self, start_time, ret.
    simpl. destruct order_by_title, show_time_taken; reflexivity. }
  split; [exact H|]. rewrite report_eq, H. reflexivity.
Qed.

(** C8.  After any sequence of [add] calls on a new store, of either
    variant: a category is a key of the store exactly when a value was
    recorded for it; the list of a category holds the values recorded for
    it and is not the list [_init_value] of the class, which is still empty;
    two categories never name the same list; creating a category gives it an
    empty list that no other category names and changes no other list; and
    one more [add] puts its value at the end of the list of its category and
    leaves the key and the list of every other category as they were. *)
Theorem C8_lazy_independent_accumulators (py_repr : pyval -> text) :
  (forall (calls : list (text * pyval)) (start : Z),
      lazy_independent (fun v => v) (Stats_add py_repr) calls
        (Stats_run py_repr calls (StatsCount_init start)))
  /\ (forall (calls : list (text * (pyval * pyval))) (start : Z),
        lazy_independent pack
          (fun c p => StatsWithSum_add py_repr c (fst p) (snd p)) calls
          (StatsWithSum_run py_repr calls (StatsCount_init start))).
Proof.
  split; intros calls start; apply store_lazy_independent.
  - intros c v s. rewrite Stats_add_eq. reflexivity.
  - apply Stats_run_store.
  - intros c v s. rewrite StatsWithSum_add_eq. reflexivity.
  - apply StatsWithSum_run_store.
Qed.

(** C9.  After any sequence of [add] calls on a new [StatsWithSum], an
    [add] whose number cannot be summed (it is neither an integer nor a
    float) returns its string; the pair is at the end of the list of its
    category; and from then on [report_value] of that category and [report]
    end in a failure of the summation, which nothing catches, and leave the
    store as it was.  The failure is a [TypeError], unless the summation
    failed before the [add] already with an [OverflowError], which it cannot
    when no float was added. *)
Theorem C9_non_numeric_fails_at_report (py_repr : pyval -> text)
    (calls : list (text * (pyval * pyval))) (start : Z)
    (c : text) (id_ v : pyval)
    (indent : Z) (order_by_title show_time_taken : bool) (now : Z) :
  is_number v = false ->
  let s := StatsWithSum_run py_repr calls (StatsCount_init start) in
  let s' := snd (StatsWithSum_add py_repr c id_ v s) in
  fst (StatsWithSum_add py_repr c id_ v s)
  = Ok (encode_ascii_ignore
          (c ++ u ": " ++ py_str py_repr id_ ++ u " " ++ py_str py_repr v))
  /\ s' = StatsWithSum_run py_repr (calls ++ [(c, (id_, v))])
            (StatsCount_init start)
  /\ (exists l,
        dict_get c (self s') = Some l
        /\ heap s' l
           = List.map pack (values_of c calls) ++ [PTuple [id_; v]])
  /\ (exists e,
        StatsWithSum_report_value py_repr c s' = (Raise e, s')
        /\ summation_error e
        /\ (fst (StatsWithSum_report_value py_repr c s)
            <> Raise OverflowError -> e = TypeError))
  /\ (exists e,
        report (StatsWithSum_report_value py_repr) indent order_by_title
          show_time_taken now s' = (Raise e, s')
        /\ summation_error e
        /\ (fst (report (StatsWithSum_report_value py_repr) indent
                   order_by_title show_time_taken now s)
            <> Raise OverflowError -> e = TypeError))
  /\ (no_float calls = true ->
      StatsWithSum_report_value py_repr c s' = (Raise TypeError, s')
      /\ report (StatsWithSum_report_value py_repr) indent order_by_title
           show_time_taken now s' = (Raise TypeError, s')).
Proof.
  intros Hv s s'.
  set (calls' := calls ++ [(c, (id_, v))]).
  set (f := StatsWithSum_summary py_repr).
  set (G := fun k : text => List.map pack (values_of k calls)).
  set (G' := fun k : text => List.map pack (values_of k calls')).
  assert (Hs' : s' = StatsWithSum_run py_repr calls' (StatsCount_init start)).
  { unfold s', s, calls', StatsWithSum_run. rewrite fold_left_app.
    reflexivity. }
  pose proof (StatsWithSum_run_store py_repr calls start) as Hstore.
  fold s in Hstore.
  pose proof (StatsWithSum_run_store py_repr calls' start) as Hstore'.
  rewrite <- Hs' in Hstore'.
  pose proof (store_of_keys_NoDup _ _ _ Hstore) as Hnd.
  pose proof (store_of_keys_NoDup _ _ _ Hstore') as Hnd'.
  assert (Hvals : values_of c calls' = values_of c calls ++ [(id_, v)]).
  { unfold calls'. rewrite values_of_snoc. simpl. rewrite text_eqb_refl.
    reflexivity. }
  assert (Hother : forall k, k <> c -> G' k = G k).
  { intros k Hk. unfold G', G, calls'. rewrite values_of_snoc. simpl.
    replace (text_eqb c k) with false; [rewrite app_nil_r; reflexivity|].
    symmetry. apply text_eqb_neq. congruence. }
  assert (Hc' : f (G' c)
                = match sum_from (PInt 0)
                          (List.map snd (values_of c calls)) with
                  | Ok _ => Raise TypeError
                  | Raise e => Raise e
                  end).
  { unfold f, G'. rewrite Hvals.
    apply StatsWithSum_summary_non_number. exact Hv. }
  assert (Hc : f (G c)
               = rbind (sum_from (PInt 0) (List.map snd (values_of c calls)))
                   (fun total =>
                      Ok (limit (str_int (len (values_of c calls))
                                   ++ u " total=" ++ py_str py_repr total
                                   ++ u " "
                                   ++ repr_list py_repr
                                        (List.map pack (values_of c calls))),
                          len (values_of c calls)))).
  { apply StatsWithSum_summary_pack. }
  assert (Hget : exists l, dict_get c (self s') = Some l
                           /\ heap s' l = G' c).
  { pose proof (store_get_cases _ _ _ c Hstore') as H. rewrite Hvals in H.
    destruct (values_of c calls ++ [(id_, v)]) as [|p ps] eqn:E;
      [destruct (values_of c calls); discriminate|].
    destruct H as (l & Hl & Hh). exists l. split; [exact Hl|].
    rewrite Hh. unfold G'. rewrite Hvals. reflexivity. }
  destruct Hget as (l & Hget & Hheap).
  assert (Hrv' : StatsWithSum_report_value py_repr c s' = (f (G' c), s')).
  { rewrite StatsWithSum_report_value_eq, Hget, Hheap. reflexivity. }
  assert (Hrv : fst (StatsWithSum_report_value py_repr c s)
                = match values_of c calls with
                  | [] => Raise KeyError
                  | _ => f (G c)
                  end).
  { unfold s. rewrite StatsWithSum_report_value_script. unfold f, G.
    destruct (values_of c calls); reflexivity. }
  assert (Hview : forall calls0 s0, store_of pack calls0 s0 ->
             view s0
             = List.map
                 (fun k => (k, List.map pack (values_of k calls0)))
                 (first_seen (categories calls0))).
  { intros calls0 s0. apply view_script. }
  assert (Hrep : forall s0, NoDup (dict_keys (self s0)) ->
             report (StatsWithSum_report_value py_repr) indent order_by_title
               show_time_taken now s0
             = (rbind (collect f (view s0))
                  (fun rd =>
                     Ok (join newline
                           (lines_of indent show_time_taken
                              (now - _start_time s0)
                              (dict_is_empty (self s0))
                              (order_items order_by_title rd)))), s0)).
  { intros s0 H0. apply report_of_collect;
      [apply StatsWithSum_report_value_eq | exact H0]. }
  assert (Hin : In (c, G' c) (view s')).
  { unfold view. apply in_map_iff. exists (c, l). simpl. rewrite Hheap.
    split; [reflexivity | apply dict_get_In; exact Hget]. }
  assert (Hfails : forall t, f (G' c) <> Ok t).
  { intros t. rewrite Hc'.
    destruct (sum_from (PInt 0) (List.map snd (values_of c calls)));
      discriminate. }
  assert (Hraise : exists e, f (G' c) = Raise e).
  { destruct (f (G' c)) as [t|e] eqn:E; [destruct (Hfails t); reflexivity|].
    eauto. }
  destruct Hraise as [ec Hec].
  destruct (collect_fails f (view s') (c, G' c) ec Hin Hec) as [er Her].
  assert (Herr : summation_error er).
  { destruct (collect_error _ _ _ Her) as ([k values] & Hk & Hr).
    destruct (view_In pack _ _ _ _ Hstore' Hk) as [-> _].
    eapply StatsWithSum_summary_error. exact Hr. }
  split; [rewrite StatsWithSum_add_eq; reflexivity|].
  split; [exact Hs'|].
  split.
  { exists l. split; [exact Hget|]. rewrite Hheap. unfold G'.
    rewrite Hvals, map_app. reflexivity. }
  split; [|split].
  - exists ec. rewrite Hrv', Hec. split; [reflexivity|]. split.
    + eapply StatsWithSum_summary_error. exact Hec.
    + intros Hnot. rewrite Hrv in Hnot. rewrite Hc' in Hec.
      destruct (sum_from (PInt 0) (List.map snd (values_of c calls)))
        as [acc|e0] eqn:E; [congruence|].
      injection Hec as ->.
      destruct (sum_from_error _ _ _ E) as [->| ->]; [reflexivity|].
      exfalso. apply Hnot. rewrite Hc. try rewrite E.
      destruct (values_of c calls); [discriminate E | reflexivity].
  - exists er. rewrite (Hrep s' Hnd'), Her. split; [reflexivity|].
    split; [exact Herr|].
    intros Hnot. destruct Herr as [->| ->]; [reflexivity|].
    exfalso. apply Hnot. rewrite (Hrep s Hnd).
    replace (collect f (view s)) with (@Raise (list (text * value_tuple))
                                         OverflowError); [reflexivity|].
    symmetry. rewrite (Hview _ _ Hstore).
    rewrite (Hview _ _ Hstore') in Her. fold G'  in Her.
    assert (Hchanged : forall K,
               collect f (List.map (fun k => (k, G' k)) K)
               = Raise OverflowError ->
               collect f (List.map (fun k => (k, G k)) K)
               = Raise OverflowError).
    { intros K. apply collect_changed_key with (c := c); auto.
      rewrite Hc', Hc.
      destruct (sum_from (PInt 0) (List.map snd (values_of c calls)));
        [discriminate | auto]. }
    apply Hchanged in Her. unfold calls' in Her.
    rewrite (categories_snoc calls), first_seen_snoc in Her. simpl fst in Her.
    destruct (existsb (text_eqb c) (first_seen (categories calls))) eqn:Ex;
      [exact Her|].
    rewrite map_app in Her. simpl in Her.
    assert (Hnil : values_of c calls = []).
    { apply values_of_nil_iff. intros Hi. apply first_seen_In in Hi.
      apply existsb_text_In in Hi. congruence. }
    eapply collect_snoc_Ok; [|exact Her].
    unfold G. rewrite Hnil. reflexivity.
  - intros Hnf.
    assert (Hnf' : no_float calls' = true).
    { unfold no_float, calls' in *. rewrite forallb_app, Hnf. simpl.
      destruct v; simpl in *; try reflexivity; discriminate. }
    assert (Hcases : forall k,
               f (G' k) = Raise TypeError \/ exists t, f (G' k) = Ok t).
    { intros k. apply StatsWithSum_summary_no_float.
      apply (values_of_forallb (fun p => negb (is_float (snd p)))).
      exact Hnf'. }
    assert (Hect : ec = TypeError).
    { destruct (Hcases c) as [H|[t H]]; [congruence|].
      destruct (Hfails t H). }
    subst ec. split; [rewrite Hrv', Hec; reflexivity|].
    rewrite (Hrep s' Hnd').
    rewrite (collect_Raise _ _ TypeError); [reflexivity| |].
    + intros [k values] Hk. simpl.
      destruct (view_In pack _ _ _ _ Hstore' Hk) as [-> _]. apply Hcases.
    + exists (c, G' c). split; [exact Hin | exact Hec].
Qed.

(** C10.  For [Stats] and for [StatsWithSum], in every state: the report
    leaves the state as it was, so does any number of reports in a row, and
    the lines of a report are those of the report made without the time
    line, whenever that was, followed by the time line when it is asked
    for. *)
Theorem C10_report_does_not_mutate (py_repr : pyval -> text) :
  idempotent_report (Stats_report_value py_repr)
  /\ idempotent_report (StatsWithSum_report_value py_repr).
Proof.
  split; apply report_idempotent.
  - apply read_only_Stats_report_value.
  - apply read_only_StatsWithSum_report_value.
Qed.

(** ** The model at work *)

Example demo_report :
  fst (Stats_report repr 1 false false 0
         (Stats_run repr demo_calls (StatsCount_init 0)))
  = Ok (tab ++ u "Success: 4 ['good1', 'good2', 'good3', 'good4']" ++ newline
        ++ tab ++ u "Failure: 1 ['bad1']").
Proof. vm_compute. reflexivity. Qed.

Example demo_report_by_title :
  fst (Stats_report repr 1 true true 3661000005
         (Stats_run repr demo_calls (StatsCount_init 0)))
  = Ok (tab ++ u "Failure: 1 ['bad1']" ++ newline
        ++ tab ++ u "Success: 4 ['good1', 'good2', 'good3', 'good4']"
        ++ newline ++ tab ++ u "Time taken (h:m:s): 1:01:01.000005").
Proof. vm_compute. reflexivity. Qed.

Example demo_sum_report :
  fst (StatsWithSum_report repr 0 false false 0
         (StatsWithSum_run repr (List.map numeric_call demo_sum_calls)
            (StatsCount_init 0)))
  = Ok (u "cat: 2 total=6.0 [('id1', 2.5), ('id2', 3.5)]").
Proof. vm_compute. reflexivity. Qed.

Example demo_int_sum_report :
  fst (StatsWithSum_report repr 0 false false 0
         (StatsWithSum_run repr (List.map numeric_call demo_int_sum_calls)
            (StatsCount_init 0)))
  = Ok (u "cat: 2 total=6 [('id1', 2), ('id2', 4)]").
Proof. vm_compute. reflexivity. Qed.

#[warnings="-inexact-float"]
Example repr_floats :
  List.map repr_float
    [0.5; 0.1 + 0.2; 1e16; 1e-5; 123456789.125; -0.25; 1e22; 5e-324]%float
  = [u "0.5"; u "0.30000000000000004"; u "1e+16"; u "1e-05";
     u "123456789.125"; u "-0.25"; u "1e+22"; u "5e-324"].
Proof. vm_compute. reflexivity. Qed.

#[warnings="-inexact-float"]
Example float_sum_report_value :
  fst (StatsWithSum_report_value repr (u "c")
         (StatsWithSum_run repr
            [ (u "c", (PText (u "x"), PFloat 0.1));
              (u "c", (PText (u "y"), PFloat 0.2)) ]
            (StatsCount_init 0)))
  = Ok (u "2 total=0.30000000000000004 [('x', 0.1), ('y', 0.2)]", 2).
Proof. vm_compute. reflexivity. Qed.

(** With floats among the numbers, which failure a report ends in depends
    on the order in which the categories were first used. *)
Example failure_follows_first_use :
  fst (StatsWithSum_report repr 1 true true 0
         (StatsWithSum_run repr
            [ (u "a", (PText (u "i"), PNone));
              (u "b", (PText (u "x"), PInt (2 ^ 1024)));
              (u "b", (PText (u "y"), PFloat 0.5)) ]
            (StatsCount_init 0)))
  = Raise TypeError
  /\ fst (StatsWithSum_report repr 1 true true 0
            (StatsWithSum_run repr
               [ (u "b", (PText (u "x"), PInt (2 ^ 1024)));
                 (u "a", (PText (u "i"), PNone));
                 (u "b", (PText (u "y"), PFloat 0.5)) ]
               (StatsCount_init 0)))
     = Raise OverflowError.
Proof. split; vm_compute; reflexivity. Qed.

#[warnings="-inexact-float"]
Example float_of_int_range :
  float_of_int (2 ^ 53 + 1) = Some 9007199254740992%float
  /\ float_of_int (2 ^ 1024 - 2 ^ 970 - 1)
     = Some 1.7976931348623157e308%float
  /\ float_of_int (2 ^ 1024 - 2 ^ 970) = None.
Proof. repeat split; vm_compute; reflexivity. Qed.

Example str_timedelta_days :
  Datetime.str_timedelta (86400000000 + 1000000) = u "1 day, 0:00:01"
  /\ Datetime.str_timedelta (- 1000000) = u "-1 day, 23:59:59".
Proof. split; vm_compute; reflexivity. Qed.

(** C1 at the script of the module's own example, for ['Success']. *)
Lemma C1_reported_count_witness :
  dict_contains (u "Success")
    (self (Stats_run repr demo_calls (StatsCount_init 0))) = true
  /\ count_adds (u "Success") demo_calls <= sys_maxsize
  /\ exists items value_str,
       fst (report_items (Stats_report_value repr) false
              (Stats_run repr demo_calls (StatsCount_init 0))) = Ok items
       /\ In (u "Success", (value_str, 4)) items
       /\ count_shown value_str 4.
Proof.
  assert (H1 : dict_contains (u "Success")
                 (self (Stats_run repr demo_calls (StatsCount_init 0)))
               = true) by reflexivity.
  assert (H2 : count_adds (u "Success") demo_calls <= sys_maxsize)
    by (vm_compute; discriminate).
  split; [exact H1|]. split; [exact H2|].
  destruct (C1_reported_count repr demo_calls 0 (u "Success") 1 false true 5
              H1 H2)
    as (items & value_str & Hitems & _ & Hin & _ & Hshown & _).
  exists items, value_str. split; [exact Hitems|]. split; [exact Hin|].
  exact Hshown.
Defined.

(** C3, as it was stated, fails in two ways.  For a number whose numeral
    does not fit in the limit the summary is cut inside the numeral of the
    total: the one call [add('c', 'x', 10 ** 150)].  And the summation fails
    when an integer beyond the range of a float meets a float:
    [add('c', 'x', 2 ** 1024)], then [add('c', 'y', 0.5)]. *)
Lemma C3_counterexample :
  (exists value_str,
      fst (StatsWithSum_report_value repr (u "c")
             (StatsWithSum_run repr (List.map numeric_call huge_sum_calls)
                (StatsCount_init 0)))
      = Ok (value_str, 1)
      /\ count_adds (u "c") huge_sum_calls = 1
      /\ number_sum (List.map snd (values_of (u "c") huge_sum_calls))
         = Some (NInt (10 ^ 150))
      /\ len value_str = 153
      /\ ~ total_shown value_str 1 (py_str repr (PInt (10 ^ 150))))
  /\ number_sum (List.map snd (values_of (u "c") overflow_sum_calls)) = None
  /\ fst (StatsWithSum_report_value repr (u "c")
            (StatsWithSum_run repr (List.map numeric_call overflow_sum_calls)
               (StatsCount_init 0)))
     = Raise OverflowError.
Proof.
  split; [|split; vm_compute; reflexivity].
  eexists. split; [vm_compute; reflexivity|].
  split; [reflexivity|]. split; [reflexivity|]. split; [reflexivity|].
  intros [rest H].
  apply (f_equal (fun t => nth 150 t 0%N)) in H.
  vm_compute in H. discriminate.
Qed.

(** C3, as amended, at two calls with floats for one category. *)
Lemma C3_total_is_sum_within_limit_witness :
  dict_contains (u "cat")
    (self (StatsWithSum_run repr (List.map numeric_call demo_sum_calls)
             (StatsCount_init 0))) = true
  /\ number_sum (List.map snd (values_of (u "cat") demo_sum_calls))
     = Some (NFloat 6)
  /\ len (str_int (count_adds (u "cat") demo_sum_calls) ++ u " total="
          ++ py_str repr (value_of (NFloat 6)) ++ u " ") <= report_value_limit
  /\ exists value_str,
       StatsWithSum_report_value repr (u "cat")
         (StatsWithSum_run repr (List.map numeric_call demo_sum_calls)
            (StatsCount_init 0))
       = (Ok (value_str, 2),
          StatsWithSum_run repr (List.map numeric_call demo_sum_calls)
            (StatsCount_init 0))
       /\ total_shown value_str 2 (u "6.0").
Proof.
  assert (H1 : dict_contains (u "cat")
                 (self (StatsWithSum_run repr
                          (List.map numeric_call demo_sum_calls)
                          (StatsCount_init 0))) = true) by reflexivity.
  assert (H2 : number_sum (List.map snd (values_of (u "cat") demo_sum_calls))
               = Some (NFloat 6)) by reflexivity.
  assert (H3 : len (str_int (count_adds (u "cat") demo_sum_calls)
                    ++ u " total=" ++ py_str repr (value_of (NFloat 6))
                    ++ u " ") <= report_value_limit)
    by (vm_compute; discriminate).
  split; [exact H1|]. split; [exact H2|]. split; [exact H3|].
  destruct (C3_total_is_sum_within_limit repr demo_sum_calls 0 (u "cat")
              (NFloat 6) 1 false true 5 H1 H2 H3)
    as (value_str & Hvalue & Hshown & _).
  exists value_str. split; [exact Hvalue | exact Hshown].
Defined.

(** C9 at a store with one numeric pair, to which a text is added as the
    number. *)
Lemma C9_non_numeric_fails_at_report_witness :
  is_number (PText (u "oops")) = false
  /\ StatsWithSum_report_value repr (u "cat")
       (snd (StatsWithSum_add repr (u "cat") (PText (u "id2"))
               (PText (u "oops"))
               (StatsWithSum_run repr [(u "cat", (PText (u "id1"), PInt 2))]
                  (StatsCount_init 0))))
     = (Raise TypeError,
        snd (StatsWithSum_add repr (u "cat") (PText (u "id2"))
               (PText (u "oops"))
               (StatsWithSum_run repr [(u "cat", (PText (u "id1"), PInt 2))]
                  (StatsCount_init 0)))).
Proof.
  assert (H : is_number (PText (u "oops")) = false) by reflexivity.
  split; [exact H|].
  exact (proj1 (proj2 (proj2 (proj2 (proj2 (proj2
           (C9_non_numeric_fails_at_report repr
              [(u "cat", (PText (u "id1"), PInt 2))] 0 (u "cat")
              (PText (u "id2")) (PText (u "oops")) 1 false true 5 H)))))
           eq_refl)).
Defined.

(** * Further properties of the module *)

(** ** [_init_category] *)

(** X1.  In every state [_init_category] leaves a category that is present
    as it is, list and all, and calling it a second time changes nothing
    more. *)
Theorem X1_init_category_idempotent (c : text) (s : state) :
  (dict_contains c (self s) = true -> _init_category c s = (Ok tt, s))
  /\ _init_category c (snd (_init_category c s))
     = (Ok tt, snd (_init_category c s))
  /\ dict_contains c (self (snd (_init_category c s))) = true.
Proof.
  assert (Hpresent : forall s', dict_contains c (self s') = true ->
                       _init_category c s' = (Ok tt, s')).
  { intros s' H. unfold _init_category, bind, contains. rewrite H.
    reflexivity. }
  assert (Hafter : dict_contains c (self (snd (_init_category c s))) = true).
  { destruct (dict_contains c (self s)) eqn:E.
    - rewrite (Hpresent s E). exact E.
    - unfold _init_category, bind, contains, deepcopy, setitem. rewrite E.
      simpl. unfold dict_contains. rewrite dict_get_set_same. reflexivity. }
  split; [apply Hpresent|]. split; [apply Hpresent; exact Hafter | exact Hafter].
Qed.

(** ** [show_time_taken] and [__repr__] *)

Lemma last_snoc {A} (l : list A) (x d : A) : last (l ++ [x]) d = x.
Proof.
  induction l as [|y l IH]; simpl; auto.
  destruct (l ++ [x]) eqn:E; [destruct l; discriminate | exact IH].
Qed.

Lemma join_snoc (sep : text) (l : list text) (x : text) :
  exists before, join sep (l ++ [x]) = before ++ x.
Proof.
  induction l as [|y l [before IH]]; simpl.
  - exists []. reflexivity.
  - rewrite IH. destruct (l ++ [x]) eqn:E; [destruct l; discriminate|].
    exists (y ++ sep ++ before). rewrite <- !app_assoc. reflexivity.
Qed.

Lemma report_lines_last report_value indent obt now s lines :
  (forall c, read_only (report_value c)) ->
  fst (report_lines report_value indent obt true now s) = Ok lines ->
  last lines [] ++ newline
  = str_mul tab indent ++ fst (show_time_taken now s).
Proof.
  intros Hreads. rewrite (report_lines_items _ Hreads).
  destruct (fst (report_items report_value obt s)); simpl; [|discriminate].
  intros H; inversion H; subst. unfold lines_of. rewrite last_snoc.
  unfold time_line, show_time_taken. cbn [fst].
  rewrite <- !app_assoc. reflexivity.
Qed.

Lemma repr_ends_with_time_line report_value now s txt :
  (forall c, read_only (report_value c)) ->
  fst (__repr__ report_value now s) = Ok txt ->
  exists before, txt ++ newline = before ++ tab ++ fst (show_time_taken now s).
Proof.
  intros Hreads. unfold __repr__. rewrite report_eq.
  rewrite (report_lines_items _ Hreads).
  destruct (fst (report_items report_value false s)) as [items|e];
    cbn [fst rbind]; [|discriminate].
  intros H; injection H as <-. unfold lines_of. cbv beta iota zeta.
  match goal with
  | |- context [join newline (?l ++ [?x])] =>
      destruct (join_snoc newline l x) as [before Hb]
  end.
  unfold text in *. rewrite Hb.
  exists before. unfold time_line, show_time_taken. cbn [fst].
  rewrite <- !app_assoc. reflexivity.
Qed.

(** X2.  [show_time_taken] leaves the store as it is.  At the same clock
    reading, the line it prints is the last line of every report of a
    [Stats] or a [StatsWithSum] that succeeds with [show_time_taken] set,
    after the indent; and the text of [__repr__] ends with that line after
    one tab. *)
Theorem X2_show_time_taken_is_last_line (py_repr : pyval -> text)
    (now : Z) (s : state) :
  snd (show_time_taken now s) = s
  /\ (forall indent order_by_title lines,
        fst (report_lines (Stats_report_value py_repr) indent order_by_title
               true now s) = Ok lines ->
        last lines [] ++ newline
        = str_mul tab indent ++ fst (show_time_taken now s))
  /\ (forall indent order_by_title lines,
        fst (report_lines (StatsWithSum_report_value py_repr) indent
               order_by_title true now s) = Ok lines ->
        last lines [] ++ newline
        = str_mul tab indent ++ fst (show_time_taken now s))
  /\ (forall txt,
        fst (__repr__ (Stats_report_value py_repr) now s) = Ok txt ->
        exists before,
          txt ++ newline = before ++ tab ++ fst (show_time_taken now s))
  /\ (forall txt,
        fst (__repr__ (StatsWithSum_report_value py_repr) now s) = Ok txt ->
        exists before,
          txt ++ newline = before ++ tab ++ fst (show_time_taken now s)).
Proof.
  split; [reflexivity|]. split; [|split; [|split]]; intros.
  - eapply report_lines_last; eauto using read_only_Stats_report_value.
  - eapply report_lines_last; eauto using read_only_StatsWithSum_report_value.
  - eapply repr_ends_with_time_line;
      eauto using read_only_Stats_report_value.
  - eapply repr_ends_with_time_line;
      eauto using read_only_StatsWithSum_report_value.
Qed.

(** ** The string [add] returns *)

(** X3.  When the category and the texts of the other arguments hold code
    points below 128 only, the bytes of the string either [add] returns are
    the formatted text itself: nothing is dropped. *)
Theorem X3_add_string_of_ascii_text (py_repr : pyval -> text)
    (category : text) (value id_ float_to_sum : pyval) (s : state) :
  forallb is_ascii category = true ->
  forallb is_ascii (py_str py_repr value) = true ->
  forallb is_ascii (py_str py_repr id_) = true ->
  forallb is_ascii (py_str py_repr float_to_sum) = true ->
  (exists out,
      fst (Stats_add py_repr category value s) = Ok out
      /\ bytes_of out = category ++ u ": " ++ py_str py_repr value)
  /\ (exists out,
        fst (StatsWithSum_add py_repr category id_ float_to_sum s) = Ok out
        /\ bytes_of out
           = category ++ u ": " ++ py_str py_repr id_ ++ u " "
               ++ py_str py_repr float_to_sum).
Proof.
  intros Hc Hv Hi Hn. split; eexists.
  - split; [rewrite Stats_add_eq; reflexivity|].
    apply encode_ascii_text. rewrite !forallb_app, Hc, Hv. reflexivity.
  - split; [rewrite StatsWithSum_add_eq; reflexivity|].
    apply encode_ascii_text. rewrite !forallb_app, Hc, Hi, Hn. reflexivity.
Qed.

Lemma X3_add_string_of_ascii_text_witness :
  (exists out,
      fst (Stats_add repr (u "deleted") (PInt (-42)) (StatsCount_init 0))
      = Ok out
      /\ bytes_of out = u "deleted: -42")
  /\ (exists out,
        fst (StatsWithSum_add repr (u "deleted") (PText (u "id7")) (PInt 5)
               (StatsCount_init 0)) = Ok out
        /\ bytes_of out = u "deleted: id7 5").
Proof.
  exact (X3_add_string_of_ascii_text repr (u "deleted") (PInt (-42))
           (PText (u "id7")) (PInt 5) (StatsCount_init 0)
           eq_refl eq_refl eq_refl eq_refl).
Defined.

(** ** [report_value] after a script *)

(** X4.  After any sequence of [add] calls on a new [Stats],
    [report_value] of a category that was never added to ends in a
    [KeyError] and creates nothing; of any other it returns the number of
    its values and, cut by the limit, that number, a space and the list of
    the [repr]s of its values in the order in which they were added. *)
Theorem X4_Stats_report_value_of_script (py_repr : pyval -> text)
    (calls : list (text * pyval)) (start : Z) (c : text) :
  let s := Stats_run py_repr calls (StatsCount_init start) in
  Stats_report_value py_repr c s
  = match values_of c calls with
    | [] => (Raise KeyError, s)
    | value =>
        (Ok (limit (str_int (len value) ++ u " " ++ u "["
                      ++ join (u ", ") (List.map py_repr value) ++ u "]"),
             len value), s)
    end.
Proof.
  intros s. pose proof (Stats_run_store py_repr calls start) as Hstore.
  fold s in Hstore. rewrite Stats_report_value_eq.
  pose proof (store_get_cases _ _ _ c Hstore) as H.
  destruct (values_of c calls) as [|v vs] eqn:Ev.
  - rewrite H. reflexivity.
  - destruct H as (l & -> & ->). rewrite map_id. reflexivity.
Qed.

(** X5.  After any sequence of [add] calls on a new [StatsWithSum],
    [report_value] of a category that was never added to ends in a
    [KeyError]; of any other it sums the numbers of its pairs in the order
    in which they were added and ends in the failure of that sum, or returns
    the number of the pairs and, cut by the limit, that number, [" total="],
    the sum, a space and the list of the pairs.  The store is left as it is
    in each case.  The sum of numbers without a float among them is their
    exact sum when all are integers and a [TypeError] otherwise; in general
    a failure is a [TypeError], and then one of the numbers is neither an
    integer nor a float, or an [OverflowError]; and a sum over something
    that is neither fails. *)
Theorem X5_StatsWithSum_report_value_of_script (py_repr : pyval -> text)
    (calls : list (text * (pyval * pyval))) (start : Z) (c : text) :
  let s := StatsWithSum_run py_repr calls (StatsCount_init start) in
  StatsWithSum_report_value py_repr c s
  = match values_of c calls with
    | [] => (Raise KeyError, s)
    | pairs =>
        match sum_from (PInt 0) (List.map snd pairs) with
        | Ok total =>
            (Ok (limit (str_int (len pairs) ++ u " total="
                          ++ py_str py_repr total ++ u " "
                          ++ repr_list py_repr (List.map pack pairs)),
                 len pairs), s)
        | Raise e => (Raise e, s)
        end
    end
  /\ (forall nums,
        forallb (fun v => negb (is_float v)) nums = true ->
        sum_from (PInt 0) nums
        = if forallb is_int nums
          then Ok (PInt (arithmetic_sum (List.map int_of nums)))
          else Raise TypeError)
  /\ (forall nums e,
        sum_from (PInt 0) nums = Raise e ->
        (e = TypeError /\ forallb is_number nums = false)
        \/ e = OverflowError)
  /\ (forall nums,
        forallb is_number nums = false ->
        exists e, sum_from (PInt 0) nums = Raise e).
Proof.
  intros s. split; [|split; [|split]].
  - unfold s. rewrite StatsWithSum_report_value_script. fold s.
    destruct (values_of c calls) as [|v vs] eqn:Ev; [reflexivity|].
    rewrite StatsWithSum_summary_pack.
    destruct (sum_from (PInt 0) (List.map snd (v :: vs))); reflexivity.
  - intros nums H. rewrite (sum_from_no_float nums 0 H). reflexivity.
  - intros nums e H. destruct (sum_from_error _ _ _ H) as [->| ->]; auto.
    left. split; [reflexivity|].
    apply (sum_from_TypeError nums (PInt 0)); [reflexivity | exact H].
  - intros nums H. apply sum_from_non_number; [reflexivity | exact H].
Qed.

(** ** When the report of a [StatsWithSum] fails *)

Lemma StatsWithSum_report_all_int py_repr calls s :
  store_of pack calls s -> all_int calls = true ->
  exists rd, collect (StatsWithSum_summary py_repr) (view s) = Ok rd.
Proof.
  intros Hstore Hall. apply collect_Ok. intros [c values] Hin. simpl.
  destruct (view_In pack _ _ _ _ Hstore Hin) as [-> _].
  rewrite StatsWithSum_summary_pack.
  assert (Hint : forallb is_int (List.map snd (values_of c calls)) = true).
  { rewrite forallb_map.
    apply (values_of_forallb (fun p => is_int (snd p))). exact Hall. }
  rewrite sum_from_no_float, Hint; [simpl; eauto|].
  rewrite forallb_forall in *. intros v Hv. specialize (Hint v Hv).
  destruct v; simpl in *; try reflexivity; discriminate.
Qed.

Lemma StatsWithSum_report_non_number py_repr calls s :
  store_of pack calls s -> all_numbers calls = false ->
  exists e,
    collect (StatsWithSum_summary py_repr) (view s) = Raise e
    /\ summation_error e
    /\ (no_float calls = true -> e = TypeError).
Proof.
  intros Hstore Hall.
  assert (Hex : exists x, In x calls /\ is_number (snd (snd x)) = false).
  { unfold all_numbers in Hall. clear -Hall.
    induction calls as [|x calls IH]; [discriminate|].
    simpl in Hall. destruct (is_number (snd (snd x))) eqn:E.
    - destruct (IH Hall) as (y & ? & ?). exists y. simpl. tauto.
    - exists x. simpl. tauto. }
  destruct Hex as (x & Hx & Hbad).
  set (c := fst x).
  assert (Hsum : exists e0,
             StatsWithSum_summary py_repr
               (List.map pack (values_of c calls)) = Raise e0).
  { rewrite StatsWithSum_summary_pack.
    destruct (sum_from_non_number (List.map snd (values_of c calls)) (PInt 0))
      as [e0 ->]; [reflexivity| |simpl; eauto].
    apply not_true_is_false. intros Ht. rewrite forallb_forall in Ht.
    rewrite (Ht (snd (snd x))) in Hbad; [discriminate|].
    apply in_map. apply values_of_In. exact Hx. }
  destruct Hsum as [e0 He0].
  assert (Hin : In (c, List.map pack (values_of c calls)) (view s)).
  { rewrite (view_script _ _ _ Hstore). apply in_map_iff. exists c.
    split; [reflexivity|]. apply first_seen_In. unfold categories.
    apply in_map. exact Hx. }
  destruct (collect_fails _ _ _ _ Hin He0) as [e He].
  exists e. split; [exact He|].
  destruct (collect_error _ _ _ He) as ([k values] & Hk & Hr).
  destruct (view_In pack _ _ _ _ Hstore Hk) as [-> _]. simpl in Hr.
  split; [eapply StatsWithSum_summary_error; exact Hr|].
  intros Hnf.
  destruct (StatsWithSum_summary_no_float py_repr (values_of k calls))
    as [H|[t H]]; [|congruence|congruence].
  apply (values_of_forallb (fun p => negb (is_float (snd p)))). exact Hnf.
Qed.

(** X6.  After any sequence of [add] calls on a new [StatsWithSum], the
    report succeeds when every number added was an integer.  Once a pair was
    added whose number is neither an integer nor a float, the report ends in
    a failure of the summation, whatever its arguments and whatever is added
    afterwards; the failure is a [TypeError] when no float is among the
    numbers.  The store is left as it is in each case. *)
Theorem X6_StatsWithSum_report_fails_on_non_number
    (py_repr : pyval -> text) (calls : list (text * (pyval * pyval)))
    (start indent : Z) (order_by_title show_time_taken : bool) (now : Z) :
  let s := StatsWithSum_run py_repr calls (StatsCount_init start) in
  let r := report (StatsWithSum_report_value py_repr) indent order_by_title
             show_time_taken now s in
  snd r = s
  /\ (all_int calls = true -> exists txt, fst r = Ok txt)
  /\ (all_numbers calls = false ->
      forall more : list (text * (pyval * pyval)),
      exists e,
        fst (report (StatsWithSum_report_value py_repr) indent order_by_title
               show_time_taken now
               (StatsWithSum_run py_repr (calls ++ more)
                  (StatsCount_init start)))
        = Raise e
        /\ summation_error e
        /\ (no_float (calls ++ more) = true -> e = TypeError)).
Proof.
  intros s r.
  assert (Hr : forall calls',
             let s' := StatsWithSum_run py_repr calls' (StatsCount_init start) in
             store_of pack calls' s'
             /\ report (StatsWithSum_report_value py_repr) indent
                  order_by_title show_time_taken now s'
                = (rbind (collect (StatsWithSum_summary py_repr) (view s'))
                     (fun rd =>
                        Ok (join newline
                              (lines_of indent show_time_taken
                                 (now - _start_time s')
                                 (dict_is_empty (self s'))
                                 (order_items order_by_title rd)))), s')).
  { intros calls' s'.
    pose proof (StatsWithSum_run_store py_repr calls' start) as Hstore.
    fold s' in Hstore. split; [exact Hstore|].
    apply report_of_collect;
      eauto using StatsWithSum_report_value_eq, store_of_keys_NoDup. }
  subst r s. split; [|split].
  - pose proof (Hr calls) as Hc. cbv zeta in Hc. destruct Hc as [_ ->].
    reflexivity.
  - intros Hall. pose proof (Hr calls) as Hc. cbv zeta in Hc.
    destruct Hc as [Hstore ->].
    destruct (StatsWithSum_report_all_int py_repr _ _ Hstore Hall) as [rd ->].
    simpl. eauto.
  - intros Hall more. pose proof (Hr (calls ++ more)) as Hc.
    cbv zeta in Hc. destruct Hc as [Hstore ->].
    destruct (StatsWithSum_report_non_number py_repr _ _ Hstore)
      as (e & -> & He & Hnf).
    + unfold all_numbers in *. rewrite forallb_app, Hall. reflexivity.
    + exists e. split; [reflexivity|]. split; [exact He | exact Hnf].
Qed.

(** ** What a report adds up to, and its shape *)

Lemma arithmetic_sum_perm l l' :
  Permutation l l' -> arithmetic_sum l = arithmetic_sum l'.
Proof. unfold arithmetic_sum. induction 1; simpl; lia. Qed.

Lemma arithmetic_sum_app l l' :
  arithmetic_sum (l ++ l') = arithmetic_sum l + arithmetic_sum l'.
Proof. unfold arithmetic_sum. induction l; simpl; lia. Qed.

Lemma arithmetic_sum_map_add {A} (f g : A -> Z) l :
  arithmetic_sum (List.map (fun a => f a + g a) l)
  = arithmetic_sum (List.map f l) + arithmetic_sum (List.map g l).
Proof. unfold arithmetic_sum. induction l; simpl; lia. Qed.

Lemma count_adds_snoc {V} c (calls : list (text * V)) x :
  count_adds c (calls ++ [x])
  = count_adds c calls + (if text_eqb (fst x) c then 1 else 0).
Proof.
  unfold count_adds. rewrite values_of_snoc, len_app.
  destruct (text_eqb (fst x) c); reflexivity.
Qed.

Lemma sum_indicator (c0 : text) (K : list text) :
  NoDup K ->
  arithmetic_sum (List.map (fun c => if text_eqb c0 c then 1 else 0) K)
  = if existsb (text_eqb c0) K then 1 else 0.
Proof.
  induction 1 as [|c K Hnot Hnd IH]; [reflexivity|].
  unfold arithmetic_sum in *. simpl. rewrite IH.
  destruct (text_eqb c0 c) eqn:E; simpl; [|reflexivity].
  apply text_eqb_eq in E. subst c.
  destruct (existsb (text_eqb c0) K) eqn:Ex; [|reflexivity].
  apply existsb_text_In in Ex. contradiction.
Qed.

Lemma count_total {V} (calls : list (text * V)) :
  arithmetic_sum
    (List.map (fun c => count_adds c calls) (first_seen (categories calls)))
  = len calls.
Proof.
  induction calls as [|x calls IH] using rev_ind; [reflexivity|].
  rewrite (categories_snoc calls), first_seen_snoc, len_app.
  change (len [x]) with 1.
  pose proof (sum_indicator (fst x) _ (first_seen_NoDup (categories calls)))
    as Hind.
  assert (Hext : forall K,
             List.map (fun c => count_adds c (calls ++ [x])) K
             = List.map (fun c => count_adds c calls
                                  + (if text_eqb (fst x) c then 1 else 0)) K).
  { intros K. apply map_ext. intros c. apply count_adds_snoc. }
  destruct (existsb (text_eqb (fst x)) (first_seen (categories calls))) eqn:Ex.
  - rewrite Hext, arithmetic_sum_map_add, IH, Hind. reflexivity.
  - rewrite map_app, arithmetic_sum_app, Hext, arithmetic_sum_map_add, IH,
      Hind.
    cbn [List.map]. rewrite count_adds_snoc, text_eqb_refl.
    assert (H0 : count_adds (fst x) calls = 0).
    { unfold count_adds.
      rewrite (proj2 (values_of_nil_iff (fst x) calls)); [reflexivity|].
      intros Hin. apply first_seen_In in Hin. apply existsb_text_In in Hin.
      congruence. }
    rewrite H0. unfold arithmetic_sum. simpl. lia.
Qed.

Lemma items_counts_total {V} (calls : list (text * V)) items :
  items_of_script calls items ->
  arithmetic_sum (List.map (fun a : text * value_tuple => snd (snd a)) items)
  = len calls.
Proof.
  intros [Hp Hc]. rewrite <- (count_total calls).
  rewrite <- (arithmetic_sum_perm _ _
                (Permutation_map (fun c => count_adds c calls) Hp)).
  rewrite map_map. f_equal. apply map_ext_in. exact Hc.
Qed.

(** X7.  The counts of a report add up to the number of [add] calls: after
    any sequence of calls on a new [Stats] the items of the report, in
    either order, carry counts whose sum is the number of calls made; on a
    [StatsWithSum] the same holds of every report that succeeds. *)
Theorem X7_counts_add_up_to_calls (py_repr : pyval -> text) :
  (forall (calls : list (text * pyval)) (start : Z) (order_by_title : bool),
      let s := Stats_run py_repr calls (StatsCount_init start) in
      exists items,
        fst (report_items (Stats_report_value py_repr) order_by_title s)
        = Ok items
        /\ arithmetic_sum (List.map (fun a => snd (snd a)) items)
           = len calls)
  /\ (forall (calls : list (text * (pyval * pyval))) (start : Z)
        (order_by_title : bool) items,
        let s := StatsWithSum_run py_repr calls (StatsCount_init start) in
        fst (report_items (StatsWithSum_report_value py_repr) order_by_title s)
        = Ok items ->
        arithmetic_sum (List.map (fun a => snd (snd a)) items) = len calls).
Proof.
  split.
  - intros calls start obt s.
    pose proof (Stats_run_store py_repr calls start) as Hstore.
    fold s in Hstore.
    destruct (Stats_items py_repr obt s (store_of_keys_NoDup _ _ _ Hstore))
      as [items Hitems].
    exists items. split; [exact Hitems|]. apply items_counts_total.
    eapply script_items_count; eauto using Stats_report_value_eq,
      Stats_summary_count.
  - intros calls start obt items s Hitems.
    pose proof (StatsWithSum_run_store py_repr calls start) as Hstore.
    fold s in Hstore. apply items_counts_total.
    eapply script_items_count; eauto using StatsWithSum_report_value_eq,
      StatsWithSum_summary_count.
Qed.

Lemma lines_of_shape {V} (proj : V -> pyval) (calls : list (text * V)) s
    indent show time_taken items :
  store_of proj calls s ->
  Permutation (List.map fst items) (first_seen (categories calls)) ->
  report_shape calls indent show
    (lines_of indent show time_taken (dict_is_empty (self s)) items).
Proof.
  intros Hstore Hp. unfold report_shape, lines_of. rewrite str_mul_tab.
  set (ind := List.repeat 9%N (Z.to_nat indent)).
  pose proof (so_keys _ _ _ Hstore) as Hk.
  pose proof (Permutation_length Hp) as Hlen. rewrite length_map in Hlen.
  split.
  - rewrite length_app, <- Hk. unfold dict_keys.
    destruct (self s) as [|e d] eqn:Es; cbn [dict_is_empty].
    + destruct show; reflexivity.
    + rewrite !length_map, Hlen, <- Hk. unfold dict_keys.
      rewrite length_map. destruct show; simpl; lia.
  - apply Forall_app. split.
    + destruct (dict_is_empty (self s)).
      * constructor; [eexists; reflexivity | constructor].
      * apply Forall_forall. intros l Hl. apply in_map_iff in Hl.
        destruct Hl as ([c t] & <- & _). eexists. reflexivity.
    + destruct show; constructor; [eexists; reflexivity | constructor].
Qed.

(** *** The lines of the text *)

Lemma no_newline_cons (c : N) (t : text) :
  no_newline (c :: t) = negb (10 =? c)%N && no_newline t.
Proof. unfold no_newline. simpl. apply negb_orb. Qed.

Lemma no_newline_app (a b : text) :
  no_newline (a ++ b) = no_newline a && no_newline b.
Proof. unfold no_newline. rewrite existsb_app. apply negb_orb. Qed.

Lemma no_newline_repeat (c : N) (n : nat) :
  (10 =? c)%N = false -> no_newline (List.repeat c n) = true.
Proof.
  intros H. induction n as [|n IH]; [reflexivity|].
  simpl. rewrite no_newline_cons, H, IH. reflexivity.
Qed.

Lemma no_newline_firstn (k : nat) (t : text) :
  no_newline t = true -> no_newline (List.firstn k t) = true.
Proof.
  revert k. induction t as [|c t IH]; intros [|k]; simpl; auto.
  rewrite !no_newline_cons. intros H. apply andb_true_iff in H.
  destruct H as [-> H]. rewrite (IH k H). reflexivity.
Qed.

Lemma no_newline_join (sep : text) (parts : list text) :
  no_newline sep = true ->
  Forall (fun t => no_newline t = true) parts ->
  no_newline (join sep parts) = true.
Proof.
  intros Hsep. induction 1 as [|x parts Hx Hparts IH]; [reflexivity|].
  simpl. destruct parts as [|y parts]; [exact Hx|].
  rewrite !no_newline_app, Hx, Hsep, IH. reflexivity.
Qed.

Lemma no_newline_digits_aux (fuel : nat) : forall n acc,
  no_newline acc = true -> no_newline (digits_aux fuel n acc) = true.
Proof.
  induction fuel as [|fuel IH]; intros n acc Hacc; simpl; [exact Hacc|].
  assert (H : no_newline (digit (n mod 10) :: acc) = true).
  { rewrite no_newline_cons, Hacc. unfold digit.
    replace (10 =? 48 + n mod 10)%N with false; [reflexivity|].
    symmetry. apply N.eqb_neq. generalize (n mod 10)%N. intros d. lia. }
  destruct (n <? 10)%N; [exact H | apply IH; exact H].
Qed.

Lemma no_newline_str_int (z : Z) : no_newline (str_int z) = true.
Proof.
  unfold str_int, str_N.
  destruct (z <? 0); [rewrite no_newline_app|];
    rewrite no_newline_digits_aux; reflexivity.
Qed.

Lemma no_newline_zero_pad (w : nat) (n : Z) :
  no_newline (Datetime.zero_pad w n) = true.
Proof.
  unfold Datetime.zero_pad. rewrite no_newline_app, no_newline_str_int.
  rewrite no_newline_repeat; reflexivity.
Qed.

Lemma no_newline_str_timedelta (us : Z) :
  no_newline (Datetime.str_timedelta us) = true.
Proof.
  unfold Datetime.str_timedelta.
  repeat match goal with
         | |- context [if ?b then _ else _] => destruct b
         end;
    rewrite ?no_newline_app, ?no_newline_str_int, ?no_newline_zero_pad;
    reflexivity.
Qed.

Lemma no_newline_limit (t : text) :
  no_newline t = true -> no_newline (limit t) = true.
Proof.
  intros H. unfold limit. destruct (len t >? report_value_limit); [|exact H].
  rewrite no_newline_app, (no_newline_firstn _ _ H). reflexivity.
Qed.

Lemma no_newline_str_mul_tab (indent : Z) :
  no_newline (str_mul tab indent) = true.
Proof. rewrite str_mul_tab. apply no_newline_repeat. reflexivity. Qed.

Lemma split_lines_no_newline (t : text) :
  no_newline t = true -> split_lines t = [t].
Proof.
  induction t as [|c t IH]; [reflexivity|].
  rewrite no_newline_cons. intros H. apply andb_true_iff in H.
  destruct H as [Hc Ht]. simpl. rewrite (IH Ht).
  apply negb_true_iff in Hc. rewrite N.eqb_sym in Hc. rewrite Hc.
  reflexivity.
Qed.

Lemma split_lines_app (a b : text) :
  no_newline a = true ->
  split_lines (a ++ newline ++ b) = a :: split_lines b.
Proof.
  induction a as [|c a IH]; [reflexivity|].
  rewrite no_newline_cons. intros H. apply andb_true_iff in H.
  destruct H as [Hc Ha].
  change ((c :: a) ++ newline ++ b) with (c :: (a ++ newline ++ b)).
  cbn [split_lines]. rewrite (IH Ha).
  apply negb_true_iff in Hc. rewrite N.eqb_sym in Hc. rewrite Hc.
  reflexivity.
Qed.

Lemma split_lines_join (lines : list text) :
  lines <> [] -> Forall (fun t => no_newline t = true) lines ->
  split_lines (join newline lines) = lines.
Proof.
  intros Hne H. induction H as [|x lines Hx Hlines IH]; [destruct Hne; auto|].
  destruct lines as [|y lines].
  - apply split_lines_no_newline. exact Hx.
  - change (join newline (x :: y :: lines))
      with (x ++ newline ++ join newline (y :: lines)).
    rewrite (split_lines_app _ _ Hx). rewrite IH; [reflexivity | discriminate].
Qed.

Lemma lines_of_no_newline indent show time_taken empty
    (items : list (text * value_tuple)) :
  Forall (fun item => no_newline (fst item) = true
                      /\ no_newline (fst (snd item)) = true) items ->
  Forall (fun t => no_newline t = true)
    (lines_of indent show time_taken empty items).
Proof.
  intros H. unfold lines_of. apply Forall_app. split.
  - destruct empty.
    + constructor; [|constructor].
      rewrite no_newline_app, no_newline_str_mul_tab. reflexivity.
    + apply Forall_forall. intros line Hline. apply in_map_iff in Hline.
      destruct Hline as ([c [value n]] & <- & Hin).
      rewrite Forall_forall in H. destruct (H _ Hin) as [Hc Hvalue].
      unfold category_line. cbn [fst snd] in *.
      rewrite !no_newline_app, no_newline_str_mul_tab, Hc, Hvalue.
      reflexivity.
  - destruct show; constructor; [|constructor].
    unfold time_line.
    rewrite !no_newline_app, no_newline_str_mul_tab, no_newline_str_timedelta.
    reflexivity.
Qed.

Lemma lines_of_not_nil indent show time_taken (s : state)
    (items : list (text * value_tuple)) {V} (proj : V -> pyval) calls :
  store_of proj calls s ->
  Permutation (List.map fst items) (first_seen (categories calls)) ->
  lines_of indent show time_taken (dict_is_empty (self s)) items <> [].
Proof.
  intros Hstore Hp H.
  pose proof (lines_of_shape proj calls s indent show time_taken items Hstore
                Hp) as [Hlen _].
  rewrite H in Hlen. cbn [List.length] in Hlen. destruct show; lia.
Qed.

Lemma newline_free_In {V} (show : V -> text) (calls : list (text * V)) c v :
  newline_free show calls = true -> In v (values_of c calls) ->
  no_newline c = true /\ no_newline (show v) = true.
Proof.
  unfold newline_free, values_of. rewrite forallb_forall. intros H Hv.
  apply in_map_iff in Hv. destruct Hv as (x & <- & Hx).
  apply filter_In in Hx. destruct Hx as [Hx Hc].
  apply text_eqb_eq in Hc. subst c.
  apply andb_true_iff. apply H. exact Hx.
Qed.

Lemma newline_free_category {V} (show : V -> text) (calls : list (text * V))
    c :
  newline_free show calls = true -> In c (categories calls) ->
  no_newline c = true.
Proof.
  unfold newline_free, categories. rewrite forallb_forall. intros H Hc.
  apply in_map_iff in Hc. destruct Hc as (x & <- & Hx).
  apply (H x) in Hx. apply andb_true_iff in Hx. tauto.
Qed.

Lemma no_newline_repr_list py_repr (values : list pyval) :
  Forall (fun v => no_newline (py_repr v) = true) values ->
  no_newline (repr_list py_repr values) = true.
Proof.
  intros H. unfold repr_list. rewrite !no_newline_app.
  rewrite no_newline_join; [reflexivity | reflexivity|].
  apply Forall_forall. intros t Ht. apply in_map_iff in Ht.
  destruct Ht as (v & <- & Hv). rewrite Forall_forall in H. auto.
Qed.

Lemma Stats_summary_value py_repr (values : list pyval) t :
  Stats_summary py_repr values = Ok t ->
  fst t = limit (str_int (len values) ++ u " " ++ repr_list py_repr values).
Proof. unfold Stats_summary. intros H; inversion H; reflexivity. Qed.

Lemma StatsWithSum_summary_value py_repr (pairs : list (pyval * pyval)) t :
  StatsWithSum_summary py_repr (List.map pack pairs) = Ok t ->
  exists total,
    sum_from (PInt 0) (List.map snd pairs) = Ok total
    /\ fst t = limit (str_int (len pairs) ++ u " total="
                        ++ py_str py_repr total ++ u " "
                        ++ repr_list py_repr (List.map pack pairs)).
Proof.
  rewrite StatsWithSum_summary_pack.
  destruct (sum_from (PInt 0) (List.map snd pairs)) as [total|];
    [|discriminate].
  intros H; inversion H. exists total. split; reflexivity.
Qed.

(** X8.  The shape of a report.  After any sequence of [add] calls on a new
    [Stats] the report succeeds, in either order, and its text is a list of
    pieces joined by newlines: one piece for each category used, or the one
    piece of the empty store, and one more for the time taken when that is
    asked for; every piece starts with [indent] tabs.  When no category
    name and no [repr] of a value holds a newline, the pieces are the lines
    of the text.  On a [StatsWithSum] the same holds of every report that
    succeeds, the [repr] being that of the pairs and of a float. *)
Theorem X8_report_shape (py_repr : pyval -> text) :
  (forall (calls : list (text * pyval)) (start indent : Z)
          (order_by_title show_time_taken : bool) (now : Z),
      let s := Stats_run py_repr calls (StatsCount_init start) in
      exists lines,
        fst (report (Stats_report_value py_repr) indent order_by_title
               show_time_taken now s) = Ok (join newline lines)
        /\ report_shape calls indent show_time_taken lines
        /\ (newline_free py_repr calls = true ->
            split_lines (join newline lines) = lines))
  /\ (forall (calls : list (text * (pyval * pyval))) (start indent : Z)
             (order_by_title show_time_taken : bool) (now : Z) txt,
        let s := StatsWithSum_run py_repr calls (StatsCount_init start) in
        fst (report (StatsWithSum_report_value py_repr) indent
               order_by_title show_time_taken now s) = Ok txt ->
        exists lines,
          txt = join newline lines
          /\ report_shape calls indent show_time_taken lines
          /\ (newline_free (fun p => py_repr (pack p)) calls = true ->
              (forall f, no_newline (py_repr (PFloat f)) = true) ->
              split_lines txt = lines)).
Proof.
  split.
  - intros calls start indent obt show now s.
    pose proof (Stats_run_store py_repr calls start) as Hstore.
    fold s in Hstore.
    destruct (Stats_items py_repr obt s (store_of_keys_NoDup _ _ _ Hstore))
      as [items Hitems].
    destruct (script_items _ _ _ (Stats_report_value_eq py_repr) _ _
                Hstore _ _ Hitems) as (_ & _ & _ & _ & _ & Hperm & Hf).
    exists (lines_of indent show (now - _start_time s)
              (dict_is_empty (self s)) items).
    split; [|split].
    + rewrite report_eq.
      rewrite (report_lines_items _ (read_only_Stats_report_value py_repr)).
      rewrite Hitems. reflexivity.
    + eapply lines_of_shape; eauto.
    + intros Hfree. apply split_lines_join.
      * eapply lines_of_not_nil; eauto.
      * apply lines_of_no_newline. apply Forall_forall.
        intros [c t] Hin. cbn [fst snd].
        rewrite (Stats_summary_value _ _ _ (Hf c t Hin)). split.
        -- apply (newline_free_category py_repr calls); [exact Hfree|].
           apply (proj1 (first_seen_In _ _)).
           apply (Permutation_in _ Hperm). apply (in_map fst) in Hin.
           exact Hin.
        -- apply no_newline_limit.
           rewrite !no_newline_app, no_newline_str_int.
           rewrite no_newline_repr_list; [reflexivity|].
           apply Forall_forall. intros v Hv. rewrite map_id in Hv.
           apply (newline_free_In py_repr calls c v Hfree Hv).
  - intros calls start indent obt show now txt s Htxt.
    pose proof (StatsWithSum_run_store py_repr calls start) as Hstore.
    fold s in Hstore.
    rewrite report_eq in Htxt.
    rewrite (report_lines_items _
               (read_only_StatsWithSum_report_value py_repr)) in Htxt.
    destruct (fst (report_items (StatsWithSum_report_value py_repr) obt s))
      as [items|e] eqn:Hitems; [|discriminate].
    cbn [fst] in Htxt. injection Htxt as <-.
    destruct (script_items _ _ _ (StatsWithSum_report_value_eq py_repr) _ _
                Hstore _ _ Hitems) as (_ & _ & _ & _ & _ & Hperm & Hf).
    exists (lines_of indent show (now - _start_time s)
              (dict_is_empty (self s)) items).
    split; [reflexivity|]. split.
    + eapply lines_of_shape; eauto.
    + intros Hfree Hfloat. apply split_lines_join.
      * eapply lines_of_not_nil; eauto.
      * apply lines_of_no_newline. apply Forall_forall.
        intros [c t] Hin. cbn [fst snd].
        destruct (StatsWithSum_summary_value _ _ _ (Hf c t Hin))
          as (total & Etotal & ->). split.
        -- apply (newline_free_category (fun p => py_repr (pack p)) calls);
             [exact Hfree|].
           apply (proj1 (first_seen_In _ _)).
           apply (Permutation_in _ Hperm). apply (in_map fst) in Hin.
           exact Hin.
        -- apply no_newline_limit.
           rewrite !no_newline_app, no_newline_str_int.
           rewrite no_newline_repr_list.
           ++ assert (Htot : no_newline (py_str py_repr total) = true).
              { pose proof (sum_from_number _ (PInt 0) _ eq_refl Etotal) as Hn.
                destruct total; simpl in Hn; try discriminate; cbn [py_str].
                - apply no_newline_str_int.
                - apply Hfloat. }
              rewrite Htot. reflexivity.
           ++ apply Forall_forall. intros v Hv. apply in_map_iff in Hv.
              destruct Hv as (pr & <- & Hpr).
              apply (newline_free_In (fun p => py_repr (pack p)) calls c pr
                       Hfree Hpr).
Qed.

(** X8 at the script of the module's own example. *)
Lemma X8_report_shape_witness :
  newline_free repr demo_calls = true
  /\ exists lines,
       fst (report (Stats_report_value repr) 1 false true 5
              (Stats_run repr demo_calls (StatsCount_init 0)))
       = Ok (join newline lines)
       /\ report_shape demo_calls 1 true lines
       /\ split_lines (join newline lines) = lines.
Proof.
  assert (H : newline_free repr demo_calls = true) by reflexivity.
  split; [exact H|].
  destruct (proj1 (X8_report_shape repr) demo_calls 0 1 false true 5)
    as (lines & Htxt & Hshape & Hsplit).
  exists lines. split; [exact Htxt|]. split; [exact Hshape | exact (Hsplit H)].
Defined.

(** ** The report by title and the order of the calls *)

Lemma sorted_by_title_tail a l : sorted_by_title (a :: l) -> sorted_by_title l.
Proof.
  intros H l1 x l2 y l3 E. apply (H (a :: l1) x l2 y l3). rewrite E.
  reflexivity.
Qed.

Lemma sorted_by_title_head a l x :
  sorted_by_title (a :: l) -> In x l -> text_lt (fst a) (fst x).
Proof.
  intros H Hin. apply in_split in Hin. destruct Hin as (q1 & q2 & ->).
  apply (H [] a q1 x q2). reflexivity.
Qed.

Lemma sorted_by_title_unique l1 l2 :
  sorted_by_title l1 -> sorted_by_title l2 ->
  (forall x, In x l1 <-> In x l2) -> l1 = l2.
Proof.
  revert l2. induction l1 as [|a l1 IH]; intros [|b l2] H1 H2 Hin.
  - reflexivity.
  - destruct (proj2 (Hin b) (or_introl eq_refl)).
  - destruct (proj1 (Hin a) (or_introl eq_refl)).
  - assert (Hab : a = b).
    { destruct (proj1 (Hin a) (or_introl eq_refl)) as [Hb|Ha]; [auto|].
      destruct (proj2 (Hin b) (or_introl eq_refl)) as [Ha'|Hb]; [auto|].
      pose proof (sorted_by_title_head _ _ _ H1 Hb) as L1.
      pose proof (sorted_by_title_head _ _ _ H2 Ha) as L2.
      unfold text_lt in *. rewrite (text_ltb_asym _ _ L1) in L2.
      discriminate. }
    subst b. f_equal.
    apply IH; eauto using sorted_by_title_tail.
    intros x. split; intros Hx.
    + destruct (proj1 (Hin x) (or_intror Hx)) as [<-|]; [|assumption].
      pose proof (sorted_by_title_head _ _ _ H1 Hx) as L.
      unfold text_lt in L. rewrite text_ltb_irrefl in L. discriminate.
    + destruct (proj2 (Hin x) (or_intror Hx)) as [<-|]; [|assumption].
      pose proof (sorted_by_title_head _ _ _ H2 Hx) as L.
      unfold text_lt in L. rewrite text_ltb_irrefl in L. discriminate.
Qed.

Lemma same_per_category_sym {V} (calls1 calls2 : list (text * V)) :
  same_per_category calls1 calls2 -> same_per_category calls2 calls1.
Proof. intros H c. symmetry. apply H. Qed.

Lemma same_per_category_In {V} (calls1 calls2 : list (text * V)) c :
  same_per_category calls1 calls2 ->
  In c (categories calls1) -> In c (categories calls2).
Proof.
  intros Hsame Hin.
  destruct (existsb (text_eqb c) (categories calls2)) eqn:Ex.
  - apply existsb_text_In. exact Ex.
  - exfalso. assert (Hno : ~ In c (categories calls2)).
    { intros H. apply existsb_text_In in H. congruence. }
    apply (proj2 (values_of_nil_iff c calls2)) in Hno.
    rewrite <- (Hsame c) in Hno.
    apply (proj1 (values_of_nil_iff c calls1)) in Hno. contradiction.
Qed.

Lemma items_empty {V} (proj : V -> pyval) (calls : list (text * V)) s
    (items : list (text * value_tuple)) :
  store_of proj calls s ->
  Permutation (List.map fst items) (first_seen (categories calls)) ->
  dict_is_empty (self s) = match items with [] => true | _ => false end.
Proof.
  intros Hstore Hp. rewrite <- (so_keys _ _ _ Hstore) in Hp.
  apply Permutation_length in Hp. unfold dict_keys in Hp.
  rewrite !length_map in Hp.
  destruct items, (self s); simpl in *; congruence.
Qed.

Section TitleOrder.
Context {V : Type} (proj : V -> pyval).
Variable report_value : text -> M value_tuple.
Variable f : list pyval -> result value_tuple.
Hypothesis report_value_eq : forall c s,
  report_value c s
  = match dict_get c (self s) with
    | Some l => (f (heap s l), s)
    | None => (Raise KeyError, s)
    end.
Variables (calls1 calls2 : list (text * V)) (s1 s2 : state).
Hypothesis Hstore1 : store_of proj calls1 s1.
Hypothesis Hstore2 : store_of proj calls2 s2.

Lemma title_items_In items1 items2 x :
  same_per_category calls1 calls2 ->
  fst (report_items report_value true s1) = Ok items1 ->
  fst (report_items report_value true s2) = Ok items2 ->
  In x items1 -> In x items2.
Proof.
  intros Hsame Hi1 Hi2 Hx. destruct x as [c t].
  destruct (script_items proj report_value f report_value_eq calls1 s1
              Hstore1 true items1 Hi1) as (rd1 & _ & _ & _ & _ & Hp1 & Hf1).
  destruct (script_items proj report_value f report_value_eq calls2 s2
              Hstore2 true items2 Hi2) as (rd2 & _ & _ & _ & _ & Hp2 & Hf2).
  assert (Hc : In c (List.map fst items2)).
  { apply (Permutation_in _ (Permutation_sym Hp2)).
    apply first_seen_In. apply (same_per_category_In calls1 calls2 c Hsame).
    apply (proj1 (first_seen_In _ _)).
    apply (Permutation_in _ Hp1). apply (in_map fst) in Hx. exact Hx. }
  apply in_map_iff in Hc. destruct Hc as ([c' t'] & Hfst & Hin).
  simpl in Hfst. subst c'.
  pose proof (Hf1 c t Hx) as E1. pose proof (Hf2 c t' Hin) as E2.
  rewrite (Hsame c) in E1. rewrite E1 in E2. injection E2 as <-. exact Hin.
Qed.

Lemma title_report_same indent show now :
  same_per_category calls1 calls2 ->
  _start_time s1 = _start_time s2 ->
  match fst (report_items report_value true s1),
        fst (report_items report_value true s2) with
  | Ok _, Ok _ => True
  | Raise e1, Raise e2 => e1 = e2
  | _, _ => False
  end ->
  fst (report report_value indent true show now s1)
  = fst (report report_value indent true show now s2).
Proof.
  intros Hsame Hstart Hres.
  assert (Hreads : forall c, read_only (report_value c)).
  { intros c s. rewrite report_value_eq. destruct (dict_get c (self s));
      reflexivity. }
  rewrite !report_eq, !(report_lines_items _ Hreads).
  destruct (fst (report_items report_value true s1)) as [items1|e1] eqn:E1;
    destruct (fst (report_items report_value true s2)) as [items2|e2] eqn:E2;
    try contradiction.
  - assert (Hitems : items1 = items2).
    { apply sorted_by_title_unique.
      - exact (script_sorted_by_title proj report_value f report_value_eq
                 calls1 s1 Hstore1 items1 E1).
      - exact (script_sorted_by_title proj report_value f report_value_eq
                 calls2 s2 Hstore2 items2 E2).
      - intros x. split.
        + apply title_items_In; assumption.
        + destruct (script_items proj report_value f report_value_eq calls1 s1
              Hstore1 true items1 E1) as (rd1 & _ & _ & _ & _ & Hp1 & Hf1).
          destruct (script_items proj report_value f report_value_eq calls2 s2
              Hstore2 true items2 E2) as (rd2 & _ & _ & _ & _ & Hp2 & Hf2).
          intros Hx. destruct x as [c t].
          assert (Hc : In c (List.map fst items1)).
          { apply (Permutation_in _ (Permutation_sym Hp1)).
            apply first_seen_In.
            apply (same_per_category_In calls2 calls1 c
                     (same_per_category_sym _ _ Hsame)).
            apply (proj1 (first_seen_In _ _)).
            apply (Permutation_in _ Hp2). apply (in_map fst) in Hx.
            exact Hx. }
          apply in_map_iff in Hc. destruct Hc as ([c' t'] & Hfst & Hin).
          simpl in Hfst. subst c'.
          pose proof (Hf2 c t Hx) as F2. pose proof (Hf1 c t' Hin) as F1.
          rewrite (Hsame c) in F1. rewrite F1 in F2. injection F2 as <-.
          exact Hin. }
    subst items2. cbn [fst]. rewrite Hstart.
    destruct (script_items proj report_value f report_value_eq calls1 s1
                Hstore1 true items1 E1) as (rd1 & _ & _ & _ & _ & Hp1 & _).
    destruct (script_items proj report_value f report_value_eq calls2 s2
                Hstore2 true items1 E2) as (rd2 & _ & _ & _ & _ & Hp2 & _).
    rewrite (items_empty proj calls1 s1 items1 Hstore1 Hp1).
    rewrite (items_empty proj calls2 s2 items1 Hstore2 Hp2).
    reflexivity.
  - subst e2. reflexivity.
Qed.
End TitleOrder.

Lemma alike_refl {A} (r : result A) : alike r r.
Proof. destruct r; simpl; auto. Qed.

Lemma collect_Ok_inv f v rd :
  collect f v = Ok rd -> forall x, In x v -> exists t, f (snd x) = Ok t.
Proof.
  revert rd. induction v as [|[c values] v IH]; intros rd; simpl;
    [intros _ x []|].
  destruct (f values) as [t|] eqn:E; simpl; [|discriminate].
  destruct (collect f v) as [rest|]; simpl; [|discriminate].
  intros _ x [<-|Hx]; [simpl; eauto | eapply IH; eauto].
Qed.

Lemma view_member {V} (proj : V -> pyval) calls s k :
  store_of proj calls s -> values_of k calls <> [] ->
  In (k, List.map proj (values_of k calls)) (view s).
Proof.
  intros Hstore Hne. rewrite (view_script _ _ _ Hstore).
  apply in_map_iff. exists k. split; [reflexivity|].
  apply first_seen_In.
  destruct (existsb (text_eqb k) (categories calls)) eqn:Ex.
  - apply existsb_text_In. exact Ex.
  - exfalso. apply Hne. apply values_of_nil_iff. intros H.
    apply existsb_text_In in H. congruence.
Qed.

Lemma collect_same_categories {V} (proj : V -> pyval) f
    (calls1 calls2 : list (text * V)) s1 s2 :
  store_of proj calls1 s1 -> store_of proj calls2 s2 ->
  same_per_category calls1 calls2 ->
  (exists rd, collect f (view s1) = Ok rd) ->
  exists rd, collect f (view s2) = Ok rd.
Proof.
  intros H1 H2 Hsame [rd1 Hrd1]. apply collect_Ok. intros [k values] Hin.
  destruct (view_In proj _ _ _ _ H2 Hin) as [-> Hne]. simpl.
  rewrite <- (Hsame k) in *.
  exact (collect_Ok_inv _ _ _ Hrd1 _ (view_member proj _ _ k H1 Hne)).
Qed.

(** X9.  The report in the order of the titles depends only on what was
    added under each category, not on how the calls to different categories
    were interleaved: two sequences of [add] calls that give every category
    the same values in the same order, on stores created at the same time,
    give the same report with [order_by_title] set.  For a [StatsWithSum]
    the two reports succeed together, with the same text, or fail together,
    and with the same failure when no float is among the numbers (with
    floats, which of a [TypeError] and an [OverflowError] comes first
    depends on the order of the categories in the store). *)
Theorem X9_title_report_independent_of_interleaving
    (py_repr : pyval -> text) (start indent : Z) (show_time_taken : bool)
    (now : Z) :
  (forall calls1 calls2 : list (text * pyval),
      same_per_category calls1 calls2 ->
      fst (report (Stats_report_value py_repr) indent true show_time_taken
             now (Stats_run py_repr calls1 (StatsCount_init start)))
      = fst (report (Stats_report_value py_repr) indent true show_time_taken
               now (Stats_run py_repr calls2 (StatsCount_init start))))
  /\ (forall calls1 calls2 : list (text * (pyval * pyval)),
        same_per_category calls1 calls2 ->
        let r1 := report (StatsWithSum_report_value py_repr) indent true
                    show_time_taken now
                    (StatsWithSum_run py_repr calls1 (StatsCount_init start)) in
        let r2 := report (StatsWithSum_report_value py_repr) indent true
                    show_time_taken now
                    (StatsWithSum_run py_repr calls2 (StatsCount_init start)) in
        alike (fst r1) (fst r2)
        /\ (no_float calls1 = true -> fst r1 = fst r2)).
Proof.
  split; intros calls1 calls2 Hsame.
  - pose proof (Stats_run_store py_repr calls1 start) as H1.
    pose proof (Stats_run_store py_repr calls2 start) as H2.
    eapply title_report_same;
      eauto using Stats_report_value_eq.
    + rewrite !Stats_run_start_time. reflexivity.
    + destruct (Stats_items py_repr true _ (store_of_keys_NoDup _ _ _ H1))
        as [items1 ->].
      destruct (Stats_items py_repr true _ (store_of_keys_NoDup _ _ _ H2))
        as [items2 ->].
      exact I.
  - intros r1 r2.
    set (s1 := StatsWithSum_run py_repr calls1 (StatsCount_init start)) in *.
    set (s2 := StatsWithSum_run py_repr calls2 (StatsCount_init start)) in *.
    set (f := StatsWithSum_summary py_repr).
    pose proof (StatsWithSum_run_store py_repr calls1 start) as H1.
    pose proof (StatsWithSum_run_store py_repr calls2 start) as H2.
    fold s1 in H1. fold s2 in H2.
    pose proof (store_of_keys_NoDup _ _ _ H1) as Hnd1.
    pose proof (store_of_keys_NoDup _ _ _ H2) as Hnd2.
    assert (Hitems : forall s, NoDup (dict_keys (self s)) ->
               fst (report_items (StatsWithSum_report_value py_repr) true s)
               = rbind (collect f (view s))
                   (fun rd => Ok (order_items true rd))).
    { intros s Hnd.
      rewrite (report_items_eq _ _ (StatsWithSum_report_value_eq py_repr))
        by assumption. reflexivity. }
    assert (Hrep : forall s, NoDup (dict_keys (self s)) ->
               fst (report (StatsWithSum_report_value py_repr) indent true
                      show_time_taken now s)
               = rbind (collect f (view s))
                   (fun rd =>
                      Ok (join newline
                            (lines_of indent show_time_taken
                               (now - _start_time s)
                               (dict_is_empty (self s))
                               (order_items true rd))))).
    { intros s Hnd.
      rewrite (report_of_collect _ _ _ _ _ _ _
                 (StatsWithSum_report_value_eq py_repr) Hnd). reflexivity. }
    assert (Hsame_res :
              match fst (report_items (StatsWithSum_report_value py_repr)
                           true s1),
                    fst (report_items (StatsWithSum_report_value py_repr)
                           true s2) with
              | Ok _, Ok _ => True
              | Raise e1, Raise e2 => e1 = e2
              | _, _ => False
              end -> fst r1 = fst r2).
    { intros Hres. unfold r1, r2.
      eapply title_report_same;
        eauto using StatsWithSum_report_value_eq.
      unfold s1, s2. rewrite !StatsWithSum_run_start_time. reflexivity. }
    assert (Hfloat : no_float calls1 = true ->
               forall s calls, store_of pack calls s ->
                 same_per_category calls1 calls ->
                 forall e, collect f (view s) = Raise e -> e = TypeError).
    { intros Hnf s calls Hstore Hs e He.
      destruct (collect_error _ _ _ He) as ([k values] & Hk & Hr).
      destruct (view_In pack _ _ _ _ Hstore Hk) as [-> _]. simpl in Hr.
      rewrite <- (Hs k) in Hr.
      destruct (StatsWithSum_summary_no_float py_repr (values_of k calls1))
        as [H|[t H]]; [|unfold f in Hr; congruence|unfold f in Hr; congruence].
      apply (values_of_forallb (fun p => negb (is_float (snd p)))).
      exact Hnf. }
    rewrite (Hitems s1 Hnd1), (Hitems s2 Hnd2) in Hsame_res.
    destruct (collect f (view s1)) as [rd1|e1] eqn:E1;
      destruct (collect f (view s2)) as [rd2|e2] eqn:E2.
    + rewrite (Hsame_res I). split; [apply alike_refl | reflexivity].
    + destruct (collect_same_categories pack f _ _ _ _ H1 H2 Hsame)
        as [rd H]; [eauto | congruence].
    + destruct (collect_same_categories pack f _ _ _ _ H2 H1
                  (same_per_category_sym _ _ Hsame))
        as [rd H]; [eauto | congruence].
    + unfold r1, r2. rewrite (Hrep s1 Hnd1), (Hrep s2 Hnd2), E1, E2.
      split; [exact I|]. intros Hnf. simpl.
      rewrite (Hfloat Hnf s1 calls1 H1 (fun c => eq_refl) e1 E1).
      rewrite (Hfloat Hnf s2 calls2 H2 Hsame e2 E2). reflexivity.
Qed.

Lemma X9_title_report_independent_of_interleaving_witness :
  same_per_category reorder_calls1 reorder_calls2
  /\ fst (report (Stats_report_value repr) 1 true false 0
            (Stats_run repr reorder_calls1 (StatsCount_init 0)))
     = fst (report (Stats_report_value repr) 1 true false 0
              (Stats_run repr reorder_calls2 (StatsCount_init 0))).
Proof.
  assert (H : same_per_category reorder_calls1 reorder_calls2).
  { intros c. unfold values_of, reorder_calls1, reorder_calls2.
    cbn [filter List.map fst snd].
    destruct (text_eqb (u "b") c) eqn:Eb, (text_eqb (u "a") c) eqn:Ea;
      try reflexivity.
    apply text_eqb_eq in Eb. apply text_eqb_eq in Ea. subst c. discriminate. }
  split; [exact H|].
  exact (proj1 (X9_title_report_independent_of_interleaving repr 0 1 false 0)
           reorder_calls1 reorder_calls2 H).
Defined.
